(** * Query routing, plan validation, plan execution and response fusion

    A shallow embedding of the decision logic of the multi-agent query
    service:

    - [Orchestrator]: [_detect_intent], [_format_single_response],
      [_fuse_responses] and [process_query] of
      [src/orchestrator/orchestrator.py];
    - [Analytics]: the allowlists and mapping tables, [_validate_plan],
      [_find_closest_metric], [_find_closest_dimension] and [_execute_query]
      of [src/agents/analytics_agent.py];
    - [SEO]: [_load_data], [_find_column], [_execute_analysis] and [process]
      of [src/agents/seo_agent.py].

    Python values that come out of [json.loads] are values of type [json];
    a Python exception is the [Raise] branch of [result].  Calls that leave
    the repository (the language model, the report provider, the spreadsheet
    service, pandas' vectorised string and numeric tests, the clock) are
    parameters of the functions that make them. *)

From Stdlib Require Import String Ascii List Bool ZArith Lia Permutation.
From Stdlib Require Import DecimalString.
From Stdlib Require Import Sorted.
From Stdlib Require OrderedTypeEx.
From Stdlib Require Import Floats.
Import ListNotations.

Set Warnings "-register-all".

Local Open Scope string_scope.
Local Open Scope Z_scope.
Local Open Scope list_scope.

(* ================================================================== *)
(** ** Python values, exceptions and string primitives *)
(* ================================================================== *)

Module Py.

(** A decoded JSON document.  Objects keep their keys in insertion order,
    as Python dictionaries do. *)
Inductive json : Type :=
| JNull
| JBool (b : bool)
| JInt (n : Z)
| JFloat (f : float)
| JStr (s : string)
| JList (l : list json)
| JDict (kvs : list (string * json)).

Inductive exn_class : Type :=
| JSONDecodeError | TypeError | AttributeError | ValueError | IndexError
| KeyError | RuntimeError | NotImplementedError.

(** An exception: its class and the text [str(e)] gives. *)
Record exn : Type := Exn { exn_cls : exn_class; exn_msg : string }.

Inductive result (A : Type) : Type :=
| Ok (a : A)
| Raise (e : exn).
Arguments Ok {A} a.
Arguments Raise {A} e.

Definition bind {A B : Type} (c : result A) (k : A -> result B) : result B :=
  match c with
  | Ok a => k a
  | Raise e => Raise e
  end.

Declare Scope py_scope.
Delimit Scope py_scope with py.
Notation "x <- c ;; k" := (bind c (fun x => k))
  (at level 61, c at next level, right associativity) : py_scope.

(** [type(v).__name__] *)
Definition type_name (v : json) : string :=
  match v with
  | JNull => "NoneType"
  | JBool _ => "bool"
  | JInt _ => "int"
  | JFloat _ => "float"
  | JStr _ => "str"
  | JList _ => "list"
  | JDict _ => "dict"
  end.

Definition no_attribute {A : Type} (v : json) (attr : string) : result A :=
  Raise (Exn AttributeError
           ("'" ++ type_name v ++ "' object has no attribute '" ++ attr ++ "'")%string).

Definition not_iterable {A : Type} (v : json) : result A :=
  Raise (Exn TypeError ("'" ++ type_name v ++ "' object is not iterable")%string).

Definition unhashable {A : Type} (v : json) : result A :=
  Raise (Exn TypeError ("unhashable type: '" ++ type_name v ++ "'")%string).

Definition str_truthy (s : string) : bool :=
  match s with EmptyString => false | String _ _ => true end.

(** [bool(v)] *)
Definition truthy (v : json) : bool :=
  match v with
  | JNull => false
  | JBool b => b
  | JInt n => negb (Z.eqb n 0)
  | JFloat f => negb (PrimFloat.eqb f 0%float)
  | JStr s => str_truthy s
  | JList l => match l with [] => false | _ :: _ => true end
  | JDict kvs => match kvs with [] => false | _ :: _ => true end
  end.

(** Dictionaries as association lists in insertion order. *)
Fixpoint lookup {V : Type} (k : string) (kvs : list (string * V)) : option V :=
  match kvs with
  | [] => None
  | (k', v) :: rest => if String.eqb k k' then Some v else lookup k rest
  end.

(** [d[k] = v]: an existing key keeps its position and takes the new value,
    a new key goes last. *)
Fixpoint dict_set {V : Type} (k : string) (v : V) (kvs : list (string * V))
  : list (string * V) :=
  match kvs with
  | [] => [(k, v)]
  | (k', v') :: rest =>
      if String.eqb k k' then (k, v) :: rest else (k', v') :: dict_set k v rest
  end.

(** [{k: v for (k, v) in pairs}] and [dict(pairs)] *)
Definition dict_of {V : Type} (pairs : list (string * V)) : list (string * V) :=
  fold_left (fun d kv => dict_set (fst kv) (snd kv) d) pairs [].

(** [d.get(key, default)] *)
Definition get (d : json) (key : string) (default : json) : result json :=
  match d with
  | JDict kvs =>
      Ok (match lookup key kvs with Some v => v | None => default end)
  | _ => no_attribute d "get"
  end.

(** [s == lit] for a string literal [lit] *)
Definition eq_str (v : json) (lit : string) : bool :=
  match v with JStr s => String.eqb s lit | _ => false end.

Fixpoint chars (s : string) : list json :=
  match s with
  | EmptyString => []
  | String c t => JStr (String c EmptyString) :: chars t
  end.

(** [for x in v]: the items a [for] loop visits. *)
Definition iter (v : json) : result (list json) :=
  match v with
  | JList l => Ok l
  | JStr s => Ok (chars s)
  | JDict kvs => Ok (map (fun kv => JStr (fst kv)) kvs)
  | _ => not_iterable v
  end.

(** [str.lower], on ASCII text. *)
Definition lower_char (c : ascii) : ascii :=
  let n := nat_of_ascii c in
  if (Nat.leb 65 n && Nat.leb n 90)%bool then ascii_of_nat (n + 32) else c.

Fixpoint lower (s : string) : string :=
  match s with
  | EmptyString => EmptyString
  | String c t => String (lower_char c) (lower t)
  end.

(** [v.lower()] *)
Definition lower_of (v : json) : result string :=
  match v with
  | JStr s => Ok (lower s)
  | _ => no_attribute v "lower"
  end.

(** [sub in s] *)
Fixpoint str_in (sub s : string) : bool :=
  (prefix sub s ||
   match s with
   | EmptyString => false
   | String _ t => str_in sub t
   end)%bool.

(** [x in xs] for a list or set of strings *)
Definition mem (x : string) (xs : list string) : bool :=
  existsb (String.eqb x) xs.

(** [any(kw in s for kw in kws)] *)
Definition any_in (kws : list string) (s : string) : bool :=
  existsb (fun kw => str_in kw s) kws.

(** [s.find(sub)] and [s.rfind(sub)]: -1 when [sub] does not occur. *)
Fixpoint find_from (sub s : string) (i : Z) : Z :=
  if prefix sub s then i
  else match s with
       | EmptyString => -1
       | String _ t => find_from sub t (i + 1)
       end.

Definition find (s sub : string) : Z := find_from sub s 0.

Fixpoint rfind_from (sub s : string) (i last : Z) : Z :=
  let last' := if prefix sub s then i else last in
  match s with
  | EmptyString => last'
  | String _ t => rfind_from sub t (i + 1) last'
  end.

Definition rfind (s sub : string) : Z := rfind_from sub s 0 (-1).

(** [s[a:b]] for [0 <= a <= b] *)
Definition slice (s : string) (a b : Z) : string :=
  substring (Z.to_nat a) (Z.to_nat (b - a)) s.

(** The characters [str.strip()] removes, among ASCII ones: tab, line feed,
    vertical tab, form feed, carriage return, the four separators 28..31 and
    the space. *)
Definition is_space (c : ascii) : bool :=
  let n := nat_of_ascii c in
  ((Nat.leb 9 n && Nat.leb n 13) || (Nat.leb 28 n && Nat.leb n 32))%bool.

Fixpoint lstrip (s : string) : string :=
  match s with
  | EmptyString => EmptyString
  | String c t => if is_space c then lstrip t else s
  end.

Fixpoint rstrip (s : string) : string :=
  match s with
  | EmptyString => EmptyString
  | String c t =>
      match rstrip t with
      | EmptyString => if is_space c then EmptyString else String c EmptyString
      | r => String c r
      end
  end.

Definition strip (s : string) : string := rstrip (lstrip s).

End Py.

Import Py.
Local Open Scope py_scope.

(* ================================================================== *)
(** ** A decoder for the JSON documents of the examples *)
(* ================================================================== *)

(** [json.loads] is a parameter of the functions that call it.  The
    decoder below is the instance the examples run on.  It reads objects,
    arrays, strings with the two-character escapes, integers and the three
    literals; a document that needs more (a [\u] escape, a fraction or an
    exponent, [NaN] or [Infinity]) is answered with [NotImplementedError],
    so that no example rests on a document it does not read as Python does. *)
Module JsonDecoder.

Definition quote : ascii := "034"%char.
Definition backslash : ascii := "092"%char.

Definition malformed {A : Type} : result A :=
  Raise (Exn JSONDecodeError "Expecting value").

Definition outside_fragment {A : Type} : result A :=
  Raise (Exn NotImplementedError "document outside the decoded fragment").

Definition is_ws (c : ascii) : bool :=
  let n := nat_of_ascii c in
  (Nat.eqb n 32 || Nat.eqb n 9 || Nat.eqb n 10 || Nat.eqb n 13)%bool.

Fixpoint skip_ws (s : string) : string :=
  match s with
  | EmptyString => EmptyString
  | String c t => if is_ws c then skip_ws t else s
  end.

Definition unescape (c : ascii) : result ascii :=
  let n := nat_of_ascii c in
  if Nat.eqb n 34 then Ok c                     (* quote *)
  else if Nat.eqb n 92 then Ok c                (* backslash *)
  else if Nat.eqb n 47 then Ok c                (* slash *)
  else if Nat.eqb n 98 then Ok "008"%char       (* b *)
  else if Nat.eqb n 102 then Ok "012"%char      (* f *)
  else if Nat.eqb n 110 then Ok "010"%char      (* n *)
  else if Nat.eqb n 114 then Ok "013"%char      (* r *)
  else if Nat.eqb n 116 then Ok "009"%char      (* t *)
  else if Nat.eqb n 117 then outside_fragment   (* u *)
  else malformed.

(** The text of a string after its opening quote, and what follows the
    closing quote. *)
Fixpoint scan_string (s : string) : result (string * string) :=
  match s with
  | EmptyString => malformed
  | String c t =>
      if Ascii.eqb c quote then Ok (EmptyString, t)
      else if Ascii.eqb c backslash then
        match t with
        | EmptyString => malformed
        | String e t' =>
            c' <- unescape e ;;
            br <- scan_string t' ;;
            Ok (String c' (fst br), snd br)
        end
      else if Nat.ltb (nat_of_ascii c) 32 then malformed
      else br <- scan_string t ;; Ok (String c (fst br), snd br)
  end.

Definition is_digit (c : ascii) : bool :=
  let n := nat_of_ascii c in (Nat.leb 48 n && Nat.leb n 57)%bool.

Fixpoint scan_digits (s : string) (acc : Z) : Z * string :=
  match s with
  | EmptyString => (acc, s)
  | String c t =>
      if is_digit c
      then scan_digits t (10 * acc + Z.of_nat (nat_of_ascii c - 48))
      else (acc, s)
  end.

Definition starts_float_tail (s : string) : bool :=
  match s with
  | EmptyString => false
  | String c _ =>
      let n := nat_of_ascii c in
      (Nat.eqb n 46 || Nat.eqb n 101 || Nat.eqb n 69)%bool
  end.

(** An integer literal: an optional minus sign, then 0 or a digit sequence
    that does not start with 0. *)
Definition scan_int (s : string) : result (json * string) :=
  let (neg, body) :=
    match s with
    | String c t => if Ascii.eqb c "-"%char then (true, t) else (false, s)
    | EmptyString => (false, s)
    end in
  match body with
  | String d t =>
      if negb (is_digit d) then malformed
      else
        let (n, rest) :=
          if Ascii.eqb d "0"%char then (0, t) else scan_digits body 0 in
        if starts_float_tail rest then outside_fragment
        else Ok (JInt (if neg then - n else n), rest)
  | EmptyString => malformed
  end.

Definition drop (n : nat) (s : string) : string :=
  substring n (String.length s - n) s.

Fixpoint value (fuel : nat) (s : string) : result (json * string) :=
  match fuel with
  | O => malformed
  | S fuel' =>
      match skip_ws s with
      | EmptyString => malformed
      | String c t as s' =>
          if Ascii.eqb c "{"%char then
            match skip_ws t with
            | String c2 t2 as body =>
                if Ascii.eqb c2 "}"%char then Ok (JDict [], t2)
                else members fuel' body []
            | EmptyString => malformed
            end
          else if Ascii.eqb c "["%char then
            match skip_ws t with
            | String c2 t2 as body =>
                if Ascii.eqb c2 "]"%char then Ok (JList [], t2)
                else elements fuel' body []
            | EmptyString => malformed
            end
          else if Ascii.eqb c quote then
            br <- scan_string t ;; Ok (JStr (fst br), snd br)
          else if prefix "true" s' then Ok (JBool true, drop 4 s')
          else if prefix "false" s' then Ok (JBool false, drop 5 s')
          else if prefix "null" s' then Ok (JNull, drop 4 s')
          else if (prefix "NaN" s' || prefix "Infinity" s'
                   || prefix "-Infinity" s')%bool then outside_fragment
          else scan_int s'
      end
  end

with members (fuel : nat) (s : string) (acc : list (string * json))
  : result (json * string) :=
  match fuel with
  | O => malformed
  | S fuel' =>
      match s with
      | EmptyString => malformed
      | String c t =>
          if negb (Ascii.eqb c quote) then malformed
          else
            kr <- scan_string t ;;
            match skip_ws (snd kr) with
            | EmptyString => malformed
            | String colon r2 =>
                if negb (Ascii.eqb colon ":"%char) then malformed
                else
                  vr <- value fuel' r2 ;;
                  let acc' := dict_set (fst kr) (fst vr) acc in
                  match skip_ws (snd vr) with
                  | EmptyString => malformed
                  | String sep r4 =>
                      if Ascii.eqb sep ","%char
                      then members fuel' (skip_ws r4) acc'
                      else if Ascii.eqb sep "}"%char
                      then Ok (JDict acc', r4)
                      else malformed
                  end
            end
      end
  end

with elements (fuel : nat) (s : string) (acc : list json)
  : result (json * string) :=
  match fuel with
  | O => malformed
  | S fuel' =>
      vr <- value fuel' s ;;
      let acc' := acc ++ [fst vr] in
      match skip_ws (snd vr) with
      | EmptyString => malformed
      | String sep r =>
          if Ascii.eqb sep ","%char then elements fuel' r acc'
          else if Ascii.eqb sep "]"%char then Ok (JList acc', r)
          else malformed
      end
  end.

(** [json.loads(s)] on the fragment. *)
Definition loads (s : string) : result json :=
  vr <- value (2 * String.length s + 2) s ;;
  match skip_ws (snd vr) with
  | EmptyString => Ok (fst vr)
  | String _ _ => Raise (Exn JSONDecodeError "Extra data")
  end.

End JsonDecoder.

(* ================================================================== *)
(** ** Replies of the language model, and the handlers' uniform result *)
(* ================================================================== *)

(** The text between the first opening brace and the last closing brace of
    a reply, when there is one: the test and the slice every parser of a
    reply starts with (lines 128-131 of the orchestrator, 188-191 of the
    SEO handler, 205-208 of the analytics handler). *)
Definition json_span (response : string) : option string :=
  let json_start := find response "{" in
  let json_end := rfind response "}" + 1 in
  if (Z.geb json_start 0 && Z.gtb json_end json_start)%bool
  then Some (slice response json_start json_end)
  else None.

(** [AgentResponse] of [src/agents/base.py]. *)
Record AgentResponse : Type := {
  success : bool;
  data : json;
  message : string;
  agent_name : string;
  error : option string
}.

(* ================================================================== *)
(** ** The orchestrator: intent routing and response fusion *)
(* ================================================================== *)

Module Orchestrator.

(** [QueryIntent].  The fields hold what [data.get] returned, which is any
    JSON value; the orchestrator reads them through their truth value. *)
Record QueryIntent : Type := {
  requires_analytics : json;
  requires_seo : json;
  is_cross_agent : json;
  reasoning : json
}.

Definition analytics_keywords : list string :=
  ["page view"; "session"; "traffic"; "user"; "ga4"; "analytics"; "daily";
   "trend"].

Definition seo_keywords : list string :=
  ["url"; "title tag"; "meta"; "https"; "indexab"; "seo"; "screaming frog"].

(** Lines 141-155 of [_detect_intent]: the keyword fallback. *)
Definition keyword_intent (query : string) : QueryIntent :=
  let query_lower := lower query in
  let has_analytics := any_in analytics_keywords query_lower in
  let has_seo := any_in seo_keywords query_lower in
  {| requires_analytics := JBool (has_analytics || negb has_seo);
     requires_seo := JBool has_seo;
     is_cross_agent := JBool (has_analytics && has_seo);
     reasoning := JStr "Keyword-based detection" |}.

(** Lines 132-137: the intent read off the decoded object. *)
Definition decoded_intent (data : json) : result QueryIntent :=
  ra <- get data "requires_analytics" (JBool false) ;;
  rs <- get data "requires_seo" (JBool false) ;;
  ca <- get data "is_cross_agent" (JBool false) ;;
  re <- get data "reasoning" (JStr EmptyString) ;;
  Ok {| requires_analytics := ra; requires_seo := rs;
        is_cross_agent := ca; reasoning := re |}.

Section Router.

(** [json.loads]. *)
Variable json_loads : string -> result json.

(** [_detect_intent], from the reply of the classifier on.  Only
    [json.JSONDecodeError] is caught; any other exception leaves the
    function. *)
Definition _detect_intent (response query : string) : result QueryIntent :=
  let attempt :=
    match json_span response with
    | Some text =>
        data <- json_loads text ;;
        intent <- decoded_intent data ;;
        Ok (Some intent)
    | None => Ok None
    end in
  match attempt with
  | Ok (Some intent) => Ok intent
  | Ok None => Ok (keyword_intent query)
  | Raise e =>
      match exn_cls e with
      | JSONDecodeError => Ok (keyword_intent query)
      | _ => Raise e
      end
  end.

Definition json_of_error (e : option string) : json :=
  match e with Some m => JStr m | None => JNull end.

Definition _format_single_response (response : AgentResponse) : json :=
  JDict [("success", JBool (success response));
         ("message", JStr (message response));
         ("data", data response);
         ("agent", JStr (agent_name response));
         ("error", json_of_error (error response))].

(** [[r.error for r in responses if r.error]] *)
Fixpoint collect_errors (responses : list AgentResponse) : list string :=
  match responses with
  | [] => []
  | r :: rest =>
      match error r with
      | Some m => if str_truthy m then m :: collect_errors rest
                  else collect_errors rest
      | None => collect_errors rest
      end
  end.

(** [{r.agent_name: r.data for r in responses if r.success}] *)
Definition partial_data (responses : list AgentResponse)
  : list (string * json) :=
  dict_of (map (fun r => (agent_name r, data r))
               (filter success responses)).

(** The loop of lines 188-192: the data of the last response that carries
    the given handler name, [None] when there is none.  The two names are
    distinct, so the [if]/[elif] chain is two independent scans. *)
Definition data_of (name : string) (responses : list AgentResponse) : json :=
  fold_left (fun acc r => if String.eqb (agent_name r) name then data r else acc)
            responses JNull.

(** The synthesis call of lines 195-218:
    [llm_client.structured_chat(system_prompt, context)], where [context]
    is the formatted text of the query, the two data values and
    [intent.reasoning]. *)
Variable fusion_chat : string -> json -> json -> json -> result string.

Definition _fuse_responses (query : string) (responses : list AgentResponse)
    (intent : QueryIntent) : result json :=
  let errors := collect_errors responses in
  match errors with
  | _ :: _ =>
      Ok (JDict [("success", JBool false);
                 ("error", JStr (String.concat "; " errors));
                 ("partial_data", JDict (partial_data responses))])
  | [] =>
      let analytics_data := data_of "analytics" responses in
      let seo_data := data_of "seo" responses in
      fused_message <-
        fusion_chat query analytics_data seo_data (reasoning intent) ;;
      Ok (JDict [("success", JBool true);
                 ("message", JStr fused_message);
                 ("data", JDict [("analytics", analytics_data);
                                 ("seo", seo_data)]);
                 ("agents",
                  JList (map (fun r => JStr (agent_name r)) responses));
                 ("cross_agent", JBool true)])
  end.

(** The classifier call of line 125 (a reply without text makes line 128
    raise, which for [process_query] is the call raising), and the two
    handlers behind the [BaseAgent] interface. *)
Variable router_chat : string -> result string.
Variable analytics_process : string -> string -> AgentResponse.
Variable seo_process : string -> AgentResponse.

Definition missing_property (intent : QueryIntent) : json :=
  JDict [("success", JBool false);
         ("error", JStr "GA4 propertyId is required for analytics queries");
         ("intent", JDict [("requires_analytics", JBool true);
                           ("requires_seo", requires_seo intent)])].

Definition no_agent : json :=
  JDict [("success", JBool false);
         ("error", JStr "Could not determine appropriate agent for this query");
         ("message",
          JStr "Please rephrase your question to be about web analytics (GA4) or SEO audit data.")].

Definition failure_of (e : exn) : json :=
  JDict [("success", JBool false); ("error", JStr (exn_msg e))].

(** [not property_id] *)
Definition property_missing (property_id : option string) : bool :=
  match property_id with
  | Some p => negb (str_truthy p)
  | None => true
  end.

Definition process_query (query : string) (property_id : option string)
  : json :=
  let body :=
    response <- router_chat query ;;
    intent <- _detect_intent response query ;;
    if (truthy (requires_analytics intent)
        && property_missing property_id)%bool
    then Ok (missing_property intent)
    else
      let responses :=
        (if truthy (requires_analytics intent)
         then [analytics_process query
                 (match property_id with Some p => p | None => EmptyString end)]
         else [])
        ++ (if truthy (requires_seo intent) then [seo_process query] else [])
      in
      match responses with
      | [] => Ok no_agent
      | [r] => Ok (_format_single_response r)
      | _ => _fuse_responses query responses intent
      end
  in
  match body with
  | Ok reply => reply
  | Raise e => failure_of e
  end.

End Router.

End Orchestrator.

(* ================================================================== *)
(** ** The analytics handler: plan validation and the report request *)
(* ================================================================== *)

Module Analytics.

Definition VALID_METRICS : list string :=
  ["activeUsers"; "newUsers"; "totalUsers"; "sessions"; "sessionsPerUser";
   "screenPageViews"; "screenPageViewsPerSession"; "screenPageViewsPerUser";
   "engagedSessions"; "engagementRate"; "averageSessionDuration";
   "bounceRate"; "eventCount"; "eventsPerSession"; "conversions";
   "totalRevenue"; "purchaseRevenue"; "userEngagementDuration";
   "dauPerMau"; "dauPerWau"; "wauPerMau"].

Definition VALID_DIMENSIONS : list string :=
  ["date"; "dateHour"; "dateHourMinute"; "dayOfWeek"; "dayOfWeekName";
   "month"; "year"; "week"; "hour"; "minute";
   "country"; "city"; "region"; "continent"; "subContinent";
   "language"; "browser"; "operatingSystem"; "deviceCategory";
   "platform"; "mobileDeviceBranding"; "mobileDeviceModel";
   "pagePath"; "pageTitle"; "pageLocation"; "landingPage";
   "sessionSource"; "sessionMedium"; "sessionCampaignName";
   "sessionDefaultChannelGroup"; "firstUserSource"; "firstUserMedium";
   "eventName"; "hostName"].

Definition METRIC_MAPPINGS : list (string * string) :=
  [("page views", "screenPageViews");
   ("pageviews", "screenPageViews");
   ("views", "screenPageViews");
   ("users", "totalUsers");
   ("active users", "activeUsers");
   ("new users", "newUsers");
   ("sessions", "sessions");
   ("bounce rate", "bounceRate");
   ("engagement rate", "engagementRate");
   ("session duration", "averageSessionDuration");
   ("avg session duration", "averageSessionDuration");
   ("events", "eventCount");
   ("conversions", "conversions");
   ("revenue", "totalRevenue")].

Definition DIMENSION_MAPPINGS : list (string * string) :=
  [("date", "date");
   ("day", "date");
   ("page", "pagePath");
   ("page path", "pagePath");
   ("path", "pagePath");
   ("country", "country");
   ("city", "city");
   ("device", "deviceCategory");
   ("browser", "browser");
   ("source", "sessionSource");
   ("medium", "sessionMedium");
   ("channel", "sessionDefaultChannelGroup");
   ("traffic source", "sessionDefaultChannelGroup");
   ("landing page", "landingPage");
   ("event", "eventName");
   ("event name", "eventName")].

(** [key in mapping] *)
Definition has_key (key : string) (mapping : list (string * string)) : bool :=
  match lookup key mapping with Some _ => true | None => false end.

Section Validation.

(** [VALID_METRICS] and [VALID_DIMENSIONS] are Python sets: a [for] loop
    over one of them visits its members in an order the program does not
    choose.  The two orders are parameters. *)
Variable metrics_order : list string.
Variable dimensions_order : list string.

(** The test both fuzzy matchers apply to a candidate. *)
Definition close_to (name_lower valid : string) : bool :=
  (str_in name_lower (lower valid) || str_in (lower valid) name_lower)%bool.

Definition _find_closest_metric (metric : string) : option string :=
  let metric_lower := lower metric in
  List.find (close_to metric_lower) metrics_order.

Definition _find_closest_dimension (dimension : string) : option string :=
  let dim_lower := lower dimension in
  List.find (close_to dim_lower) dimensions_order.

(** Lines 235-244: the name a requested metric resolves to. *)
Definition resolve_metric (metric : json) : result (option string) :=
  match metric with
  | JStr m =>
      let metric_lower := lower m in
      match lookup metric_lower METRIC_MAPPINGS with
      | Some api_metric => Ok (Some api_metric)
      | None =>
          if mem m VALID_METRICS then Ok (Some m)
          else Ok (_find_closest_metric m)
      end
  | _ => no_attribute metric "lower"
  end.

(** Lines 255-262, for a requested dimension. *)
Definition resolve_dimension (dimension : json) : result (option string) :=
  match dimension with
  | JStr d =>
      let dim_lower := lower d in
      match lookup dim_lower DIMENSION_MAPPINGS with
      | Some api_dim => Ok (Some api_dim)
      | None =>
          if mem d VALID_DIMENSIONS then Ok (Some d)
          else Ok (_find_closest_dimension d)
      end
  | _ => no_attribute dimension "lower"
  end.

(** [if api and api not in validated: validated.append(api)] *)
Definition append_new (api : option string) (validated : list string)
  : list string :=
  match api with
  | Some a =>
      if (str_truthy a && negb (mem a validated))%bool
      then validated ++ [a] else validated
  | None => validated
  end.

Fixpoint validate_metrics (items : list json) (validated : list string)
  : result (list string) :=
  match items with
  | [] => Ok validated
  | metric :: rest =>
      api_metric <- resolve_metric metric ;;
      validate_metrics rest (append_new api_metric validated)
  end.

Fixpoint validate_dimensions (items : list json) (validated : list string)
  : result (list string) :=
  match items with
  | [] => Ok validated
  | dimension :: rest =>
      api_dim <- resolve_dimension dimension ;;
      validate_dimensions rest (append_new api_dim validated)
  end.

(** The test of line 270 on one clause:
    [dim in VALID_DIMENSIONS or dim.lower() in DIMENSION_MAPPINGS]. *)
Definition filter_kept (filter_item : json) : result bool :=
  dim <- get filter_item "dimension" (JStr EmptyString) ;;
  match dim with
  | JStr d =>
      Ok (mem d VALID_DIMENSIONS || has_key (lower d) DIMENSION_MAPPINGS)%bool
  | JList _ | JDict _ => unhashable dim
  | _ => no_attribute dim "lower"
  end.

Fixpoint validate_filters (items : list json) (validated : list json)
  : result (list json) :=
  match items with
  | [] => Ok validated
  | filter_item :: rest =>
      keep <- filter_kept filter_item ;;
      validate_filters rest
        (if keep then validated ++ [filter_item] else validated)
  end.

Definition default_date_range : json :=
  JDict [("type", JStr "relative"); ("days", JInt 7)].

Definition _validate_plan (plan : json) : result json :=
  date_range <- get plan "date_range" default_date_range ;;
  order_by <- get plan "order_by" JNull ;;
  requested_metrics <- get plan "metrics" (JList []) ;;
  metric_items <- iter requested_metrics ;;
  metrics <- validate_metrics metric_items [] ;;
  let metrics :=
    match metrics with [] => ["screenPageViews"] | _ :: _ => metrics end in
  requested_dimensions <- get plan "dimensions" (JList []) ;;
  dimension_items <- iter requested_dimensions ;;
  dimensions <- validate_dimensions dimension_items [] ;;
  requested_filters <- get plan "filters" (JList []) ;;
  filter_items <- iter requested_filters ;;
  filters <- validate_filters filter_items [] ;;
  Ok (JDict [("metrics", JList (map JStr metrics));
             ("dimensions", JList (map JStr dimensions));
             ("date_range", date_range);
             ("filters", JList filters);
             ("order_by", order_by)]).

End Validation.

(** *** The report request *)

Record DateRange : Type := { start_date : string; end_date : string }.

Inductive MatchType : Type := CONTAINS.

(** [FilterExpression(filter=Filter(field_name=..., string_filter=
    Filter.StringFilter(match_type=..., value=...)))] *)
Record Filter : Type := {
  field_name : string;
  match_type : MatchType;
  value : json
}.

(** The metric and dimension names are kept as they are handed to the
    [Metric] and [Dimension] constructors, and the filter value as it is
    handed to [StringFilter]; the type checks of those constructors are
    not modelled. *)
Record RunReportRequest : Type := {
  property : string;
  date_ranges : list DateRange;
  metrics : list json;
  dimensions : option (list json);
  dimension_filter : option Filter;
  limit : Z
}.

Record Row : Type := {
  dimension_values : list string;
  metric_values : list string
}.

Record RunReportResponse : Type := {
  dimension_headers : list string;
  metric_headers : list string;
  rows : list Row;
  totals : list Row;
  row_count : Z
}.

Section Execution.

(** The clock and the date library. *)
Variable datetime : Type.
(** [datetime.now()] *)
Variable now : datetime.
(** [end_date - timedelta(days=days)] *)
Variable minus_days : datetime -> json -> result datetime.
(** [datetime.fromisoformat(text)] *)
Variable fromisoformat : json -> result datetime.
(** [d.strftime] with the year-month-day format *)
Variable strftime : datetime -> string.

(** [self._get_client()]: it raises when the credentials cannot be read. *)
Variable _get_client : result unit.
(** [client.run_report(request)] *)
Variable run_report : RunReportRequest -> result RunReportResponse.

(** Lines 295-303. *)
Definition resolve_dates (plan : json) : result (datetime * datetime) :=
  date_range_config <- get plan "date_range" (JDict []) ;;
  range_type <- get date_range_config "type" JNull ;;
  if eq_str range_type "relative" then
    days <- get date_range_config "days" (JInt 7) ;;
    let end_date := now in
    start_date <- minus_days end_date days ;;
    Ok (start_date, end_date)
  else
    start_text <- get date_range_config "start" (JStr EmptyString) ;;
    start_date <- fromisoformat start_text ;;
    end_text <- get date_range_config "end" (JStr EmptyString) ;;
    end_date <- fromisoformat end_text ;;
    Ok (start_date, end_date).

(** Lines 318-334: the filter built from the first clause. *)
Definition translate_filter (filter_item : json) : result Filter :=
  dim_name <- get filter_item "dimension" (JStr "pagePath") ;;
  match dim_name with
  | JStr d =>
      let d' := match lookup (lower d) DIMENSION_MAPPINGS with
                | Some api_dim => api_dim
                | None => d
                end in
      v <- get filter_item "value" (JStr EmptyString) ;;
      Ok {| field_name := d'; match_type := CONTAINS; value := v |}
  | _ => no_attribute dim_name "lower"
  end.

(** [plan["filters"][0]], reached when [plan.get("filters")] is true. *)
Definition first_item (filters : json) : result json :=
  match filters with
  | JList (f :: _) => Ok f
  | JStr (String c _) => Ok (JStr (String c EmptyString))
  | JDict _ => Raise (Exn KeyError "0")
  | _ =>
      Raise (Exn TypeError
               ("'" ++ type_name filters ++ "' object is not subscriptable")%string)
  end.

Definition build_filter (plan : json) : result (option Filter) :=
  filters <- get plan "filters" JNull ;;
  if truthy filters then
    filter_item <- first_item filters ;;
    f <- translate_filter filter_item ;;
    Ok (Some f)
  else Ok None.

(** Lines 293-344: everything up to the request. *)
Definition prepare (property_id : string) (plan : json)
  : result (RunReportRequest * (datetime * datetime)) :=
  _ <- _get_client ;;
  dates <- resolve_dates plan ;;
  requested_metrics <- get plan "metrics" (JList []) ;;
  metrics <- iter requested_metrics ;;
  requested_dimensions <- get plan "dimensions" (JList []) ;;
  dimensions <- iter requested_dimensions ;;
  dimension_filter <- build_filter plan ;;
  Ok ({| property := ("properties/" ++ property_id)%string;
         date_ranges := [{| start_date := strftime (fst dates);
                            end_date := strftime (snd dates) |}];
         metrics := metrics;
         dimensions := match dimensions with
                       | [] => None
                       | _ :: _ => Some dimensions
                       end;
         dimension_filter := dimension_filter;
         limit := 1000 |},
      dates).

(** [for i, v in enumerate(values): row_data[headers[i]] = v.value] *)
Fixpoint zip_into (headers values : list string)
    (row_data : list (string * json)) : result (list (string * json)) :=
  match values with
  | [] => Ok row_data
  | v :: values' =>
      match headers with
      | h :: headers' => zip_into headers' values' (dict_set h (JStr v) row_data)
      | [] => Raise (Exn IndexError "list index out of range")
      end
  end.

Fixpoint reshape_rows (dim_headers metric_headers : list string)
    (rs : list Row) : result (list json) :=
  match rs with
  | [] => Ok []
  | row :: rest =>
      row_data <- zip_into dim_headers (dimension_values row) [] ;;
      row_data <- zip_into metric_headers (metric_values row) row_data ;;
      others <- reshape_rows dim_headers metric_headers rest ;;
      Ok (JDict row_data :: others)
  end.

Fixpoint reshape_totals (metric_headers : list string) (ts : list Row)
    (acc : list (string * json)) : result (list (string * json)) :=
  match ts with
  | [] => Ok acc
  | total_row :: rest =>
      acc' <- zip_into metric_headers (metric_values total_row) acc ;;
      reshape_totals metric_headers rest acc'
  end.

(** Lines 349-386. *)
Definition reshape (plan : json) (dates : datetime * datetime)
    (response : RunReportResponse) : result json :=
  plan_metrics <- get plan "metrics" (JList []) ;;
  plan_dimensions <- get plan "dimensions" (JList []) ;;
  let dim_headers := dimension_headers response in
  let metric_headers := metric_headers response in
  out_rows <- reshape_rows dim_headers metric_headers (rows response) ;;
  out_totals <- reshape_totals metric_headers (totals response) [] ;;
  Ok (JDict [("rows", JList out_rows);
             ("totals", JDict out_totals);
             ("row_count", JInt (row_count response));
             ("metadata",
              JDict [("metrics", plan_metrics);
                     ("dimensions", plan_dimensions);
                     ("date_range",
                      JDict [("start", JStr (strftime (fst dates)));
                             ("end", JStr (strftime (snd dates)))])])]).

(** [_execute_query]: the requests handed to the provider, in order, and
    what the function returns or raises. *)
Definition _execute_query (property_id : string) (plan : json)
  : list RunReportRequest * result json :=
  match prepare property_id plan with
  | Raise e => ([], Raise e)
  | Ok (request, dates) =>
      ([request],
       response <- run_report request ;; reshape plan dates response)
  end.

End Execution.

(** *** The handler *)

Section Handler.

Variable metrics_order : list string.
Variable dimensions_order : list string.
Variable datetime : Type.
Variable now : datetime.
Variable minus_days : datetime -> json -> result datetime.
Variable fromisoformat : json -> result datetime.
Variable strftime : datetime -> string.
Variable _get_client : result unit.
Variable run_report : RunReportRequest -> result RunReportResponse.
Variable json_loads : string -> result json.
(** The planning call of line 200, given the query. *)
Variable parse_chat : string -> result string.
(** The summary call of line 419, given the query, the validated plan and
    the reshaped report. *)
Variable summary_chat : string -> json -> json -> result string.

(** The plan of lines 215-221. *)
Definition default_plan : json :=
  JDict [("metrics", JList [JStr "screenPageViews"; JStr "totalUsers";
                            JStr "sessions"]);
         ("dimensions", JList [JStr "date"]);
         ("date_range", JDict [("type", JStr "relative"); ("days", JInt 7)]);
         ("filters", JList []);
         ("order_by", JNull)].

Definition _parse_query (query : string) : result json :=
  response <- parse_chat query ;;
  match json_span response with
  | Some text =>
      match json_loads text with
      | Ok plan => Ok plan
      | Raise e =>
          match exn_cls e with
          | JSONDecodeError => Ok default_plan
          | _ => Raise e
          end
      end
  | None => Ok default_plan
  end.

Definition failure (msg : string) : AgentResponse :=
  {| success := false; data := JNull; message := EmptyString;
     agent_name := "analytics"; error := Some msg |}.

(** [process], with [property_id] for [kwargs.get(property_id)]: the
    requests handed to the report provider, and the response. *)
Definition process (query : string) (property_id : option string)
  : list RunReportRequest * AgentResponse :=
  match property_id with
  | None | Some EmptyString =>
      ([], failure "GA4 propertyId is required for analytics queries")
  | Some property_id =>
      match (reporting_plan <- _parse_query query ;;
             _validate_plan metrics_order dimensions_order reporting_plan) with
      | Raise e => ([], failure (exn_msg e))
      | Ok validated_plan =>
          let (sent, outcome) :=
            _execute_query datetime now minus_days fromisoformat strftime
              _get_client run_report property_id validated_plan in
          (sent,
           match (ga4_response <- outcome ;;
                  response_text <-
                    summary_chat query validated_plan ga4_response ;;
                  Ok {| success := true;
                        data := JDict [("reporting_plan", validated_plan);
                                       ("raw_data", ga4_response)];
                        message := response_text;
                        agent_name := "analytics";
                        error := None |}) with
           | Ok response => response
           | Raise e => failure (exn_msg e)
           end)
      end
  end.

End Handler.

End Analytics.

(* ================================================================== *)
(** ** The SEO handler: the cached table and the tabular executor *)
(* ================================================================== *)

Module SEO.

(** A cell of the sheet: its text, or nothing where the row was shorter
    than the header row. *)
Definition cell : Type := option string.

(** The table: the column labels and the rows, each row with one cell per
    label.  Every cell is text or missing, since the sheet is read as
    formatted values.  A label may occur more than once. *)
Record DataFrame : Type := {
  columns : list string;
  rows : list (list cell)
}.

Definition decimal (n : nat) : string := NilZero.string_of_uint (Nat.to_uint n).

Definition pad (width : nat) (row : list string) : list cell :=
  map Some row ++ repeat None (width - length row).

(** [pd.DataFrame(data, columns=headers)]: short rows are padded; the
    widest row has to be as wide as the header row. *)
Definition DataFrame_of (data : list (list string)) (headers : list string)
  : result DataFrame :=
  match data with
  | [] => Ok {| columns := headers; rows := [] |}
  | _ :: _ =>
      let width := list_max (map (@length string) data) in
      if Nat.eqb width (length headers)
      then Ok {| columns := headers; rows := map (pad width) data |}
      else Raise (Exn ValueError
                    (decimal (length headers) ++ " columns passed, passed data had "
                     ++ decimal width ++ " columns")%string)
  end.

(** [df.empty] *)
Definition empty (df : DataFrame) : bool :=
  match columns df, rows df with
  | [], _ => true
  | _, [] => true
  | _, _ => false
  end.

(** The places where a label stands among the labels, counted from
    [from]. *)
Fixpoint positions (label : string) (labels : list string) (from : nat)
  : list nat :=
  match labels with
  | [] => []
  | l :: rest =>
      if String.eqb label l then from :: positions label rest (S from)
      else positions label rest (S from)
  end.

Definition key_error {A : Type} (column : string) : result A :=
  Raise (Exn KeyError ("'" ++ column ++ "'")%string).

(** [df[mask]] for the mask a cell-by-cell test gives on a column. *)
Definition rows_where (test : cell -> bool) (i : nat) (df : DataFrame)
  : DataFrame :=
  {| columns := columns df;
     rows := filter (fun row => test (nth i row None)) (rows df) |}.

Fixpoint first_some {A B : Type} (f : A -> option B) (l : list A) : option B :=
  match l with
  | [] => None
  | x :: rest => match f x with Some y => Some y | None => first_some f rest end
  end.

Definition mappings : list (string * list string) :=
  [("url", ["address"; "url"]);
   ("title", ["title 1"; "title"; "title tag"]);
   ("meta description", ["meta description 1"; "meta description"]);
   ("status", ["status code"]);
   ("indexability", ["indexability"; "indexable"]);
   ("content", ["content type"]);
   ("word count", ["word count"]);
   ("h1", ["h1-1"; "h1"])].

(** [_find_column] *)
Definition _find_column (df : DataFrame) (search : json)
  : result (option string) :=
  if negb (truthy search) then Ok None
  else
    match search with
    | JStr s =>
        let search_lower := strip (lower s) in
        match List.find (fun col => String.eqb (lower col) search_lower)
                        (columns df) with
        | Some col => Ok (Some col)
        | None =>
            match List.find
                    (fun col => (str_in search_lower (lower col)
                                 || str_in (lower col) search_lower)%bool)
                    (columns df) with
            | Some col => Ok (Some col)
            | None =>
                Ok (first_some
                      (fun entry =>
                         let key := fst entry in
                         if (str_in search_lower key || str_in key search_lower)%bool
                         then first_some
                                (fun alt =>
                                   List.find (fun col => str_in alt (lower col))
                                             (columns df))
                                (snd entry)
                         else None)
                      mappings)
            end
        end
    | _ => no_attribute search "lower"
    end.

(** [series.isna()], [series.astype(str)] and the two emptiness tests of
    lines 250-257, cell by cell.  They are applied to [result_df[column]]
    as one column of text (through [.str]): for a label that stands more
    than once pandas returns a frame and the [.str] that follows raises. *)
Definition isna (c : cell) : bool :=
  match c with None => true | Some _ => false end.

Definition astype_str (c : cell) : string :=
  match c with Some s => s | None => "None" end.

Definition is_empty_cell (c : cell) : bool :=
  (isna c || String.eqb (strip (astype_str c)) EmptyString)%bool.

Definition not_empty_cell (c : cell) : bool :=
  (negb (isna c) && negb (String.eqb (strip (astype_str c)) EmptyString))%bool.

(** The row selections whose meaning is pandas' own: comparison with the
    clause value, regular-expression search, and the numeric comparisons
    after [float(value)].  With [s] for [result_df[column]]: *)
Inductive library_test : Type :=
| Equals            (* result_df[s == value] *)
| NotEquals         (* result_df[s != value] *)
| Contains          (* result_df[s.astype(str).str.contains(value, case=False, na=False)] *)
| NotContains       (* the same with the mask negated *)
| LengthGreater     (* result_df[s.astype(str).str.len() > float(value)] *)
| LengthLess        (* result_df[s.astype(str).str.len() < float(value)] *)
| NumericGreater    (* result_df[pd.to_numeric(s, errors=coerce) > float(value)] *)
| NumericLess.      (* result_df[pd.to_numeric(s, errors=coerce) < float(value)] *)

(** [str(v).lower()] contains the word; the value is a string whenever
    this is reached, since [_find_column] has lower-cased it already. *)
Definition mentions_length (search : json) : bool :=
  match search with
  | JStr s => str_in "length" (lower s)
  | _ => false
  end.

Fixpoint insert_key (k : string) (sorted : list string) : list string :=
  match sorted with
  | [] => [k]
  | h :: t =>
      if String.eqb k h then sorted
      else if String.ltb k h then k :: sorted
      else h :: insert_key k t
  end.

(** The keys of [groupby(column)]: the distinct values present, in
    ascending order; rows with a missing key belong to no group. *)
Definition group_keys (cells : list cell) : list string :=
  fold_left (fun acc c => match c with
                          | Some s => insert_key s acc
                          | None => acc
                          end) cells [].

Definition group_size (k : string) (cells : list cell) : Z :=
  Z.of_nat (length (filter (fun c => match c with
                                     | Some s => String.eqb s k
                                     | None => false
                                     end) cells)).

Definition json_of_cell (c : cell) : json :=
  match c with Some s => JStr s | None => JNull end.

(** [df.to_dict(orient=records)] *)
Definition to_records (df : DataFrame) : list json :=
  map (fun row => JDict (dict_of (combine (columns df) (map json_of_cell row))))
      (rows df).

(** [df[labels]] for a list of labels of [df]: for each label in turn,
    every column that carries it. *)
Definition select (df : DataFrame) (labels : list string) : DataFrame :=
  let picked :=
    flat_map (fun label =>
                map (fun i => (label, i)) (positions label (columns df) 0))
             labels in
  {| columns := map fst picked;
     rows := map (fun row => map (fun p => nth (snd p) row None) picked)
                 (rows df) |}.

(** [df.head(n)], that is [df.iloc[:n]]. *)
Definition head (df : DataFrame) (n : json) : result DataFrame :=
  match n with
  | JInt z =>
      let len := length (rows df) in
      let k := if Z.leb 0 z then Z.to_nat z
               else (len - Z.to_nat (- z))%nat in
      Ok {| columns := columns df; rows := firstn k (rows df) |}
  | JNull => Ok df
  | _ =>
      Raise (Exn TypeError
               ("cannot do positional indexing with these indexers of type "
                ++ type_name n)%string)
  end.

Fixpoint collect {A : Type} (l : list (result (option A))) : result (list A) :=
  match l with
  | [] => Ok []
  | c :: rest =>
      x <- c ;;
      xs <- collect rest ;;
      Ok (match x with Some a => a :: xs | None => xs end)
  end.

(** [df.groupby(column)]: the cells of the key column; a repeated label
    is refused. *)
Definition group_cells (df : DataFrame) (column : string)
  : result (list cell) :=
  match positions column (columns df) 0 with
  | [] => key_error column
  | [i] => Ok (map (fun row => nth i row None) (rows df))
  | _ :: _ :: _ =>
      Raise (Exn ValueError ("Grouper for '" ++ column ++ "' not 1-dimensional")%string)
  end.

Section Executor.

(** A library selection, given the frame, the column label and the clause
    value: the frame it returns, or the exception it raises. *)
Variable pandas_filter :
  library_test -> DataFrame -> string -> json -> result DataFrame.

(** One round of the loop of lines 211-257. *)
Definition apply_filter (df result_df : DataFrame) (filter_item : json)
  : result DataFrame :=
  search <- get filter_item "column" (JStr EmptyString) ;;
  found <- _find_column df search ;;
  match found with
  | None => Ok result_df
  | Some column =>
      operator <- get filter_item "operator" (JStr "equals") ;;
      value <- get filter_item "value" (JStr EmptyString) ;;
      let by_library test := pandas_filter test result_df column value in
      let by_cell test :=
        match positions column (columns result_df) 0 with
        | [] => key_error column
        | [i] => Ok (rows_where test i result_df)
        | _ :: _ :: _ =>
            Raise (Exn AttributeError
                     "'DataFrame' object has no attribute 'str'")
        end in
      if eq_str operator "equals" then by_library Equals
      else if eq_str operator "not_equals" then by_library NotEquals
      else if eq_str operator "contains" then by_library Contains
      else if eq_str operator "not_contains" then by_library NotContains
      else if eq_str operator "greater" then
        (if mentions_length search then by_library LengthGreater
         else by_library NumericGreater)
      else if eq_str operator "less" then
        (if mentions_length search then by_library LengthLess
         else by_library NumericLess)
      else if eq_str operator "is_empty" then by_cell is_empty_cell
      else if eq_str operator "not_empty" then by_cell not_empty_cell
      else Ok result_df
  end.

Fixpoint apply_filters (df result_df : DataFrame) (items : list json)
  : result DataFrame :=
  match items with
  | [] => Ok result_df
  | filter_item :: rest =>
      result_df' <- apply_filter df result_df filter_item ;;
      apply_filters df result_df' rest
  end.

(** Lines 264-276: the two grouped results. *)
Definition grouped_count (result_df : DataFrame) (group_col : string)
  : result json :=
  cells <- group_cells result_df group_col ;;
  if String.eqb group_col "count"
  then Raise (Exn ValueError "cannot insert count, already exists")
  else
    let keys := group_keys cells in
    Ok (JDict [("type", JStr "grouped");
               ("data",
                JList (map (fun k => JDict (dict_of
                                      [(group_col, JStr k);
                                       ("count", JInt (group_size k cells))]))
                           keys));
               ("total_groups", JInt (Z.of_nat (length keys)))]).

(** Every column holds text, so [sum(numeric_only=True)] has no column to
    add up and the frame it returns has the key column alone. *)
Definition grouped_sum (result_df : DataFrame) (group_col : string)
  : result json :=
  cells <- group_cells result_df group_col ;;
  let keys := group_keys cells in
  Ok (JDict [("type", JStr "grouped");
             ("data", JList (map (fun k => JDict [(group_col, JStr k)]) keys));
             ("total_groups", JInt (Z.of_nat (length keys)))]).

(** Lines 259-276: [Some] of the grouped result when the function returns
    there, [None] when it goes on to the list result. *)
Definition grouping (df result_df : DataFrame) (plan : json)
  : result (option json) :=
  group_by <- get plan "group_by" JNull ;;
  if truthy group_by then
    group_col <- _find_column df group_by ;;
    match group_col with
    | Some g =>
        if str_truthy g then
          aggregation <- get plan "aggregation" JNull ;;
          if eq_str aggregation "count" then
            r <- grouped_count result_df g ;; Ok (Some r)
          else if eq_str aggregation "sum" then
            r <- grouped_sum result_df g ;; Ok (Some r)
          else Ok None
        else Ok None
    | None => Ok None
    end
  else Ok None.

(** Lines 278-284. *)
Definition selection (df result_df : DataFrame) (plan : json)
  : result DataFrame :=
  select_cols <- get plan "select_columns" (JList []) ;;
  if truthy select_cols then
    items <- iter select_cols ;;
    valid_cols <- collect (map (_find_column df) items) ;;
    match valid_cols with
    | [] => Ok result_df
    | _ :: _ => Ok (select result_df valid_cols)
    end
  else Ok result_df.

(** Lines 286-295. *)
Definition listing (result_df : DataFrame) (plan : json) : result json :=
  limit <- get plan "limit" (JInt 100) ;;
  result_df <- head result_df limit ;;
  Ok (JDict [("type", JStr "list");
             ("data", JList (to_records result_df));
             ("total_matching", JInt (Z.of_nat (length (rows result_df))));
             ("columns", JList (map JStr (columns result_df)))]).

Definition _execute_analysis (df : DataFrame) (plan : json) : result json :=
  let result_df := df in
  requested_filters <- get plan "filters" (JList []) ;;
  filter_items <- iter requested_filters ;;
  result_df <- apply_filters df result_df filter_items ;;
  grouped <- grouping df result_df plan ;;
  match grouped with
  | Some r => Ok r
  | None =>
      result_df <- selection df result_df plan ;;
      listing result_df plan
  end.

End Executor.

(** *** The cached table *)

(** The two attributes [_load_data] reads and writes; [_cache_ttl] never
    changes. *)
Record Cache : Type := {
  _data_cache : option DataFrame;
  _cache_timestamp : option float
}.

Definition _cache_ttl : float := 300%float.

(** The test of lines 92-96. *)
Definition cached (self : Cache) (current_time : float) : option DataFrame :=
  match _data_cache self, _cache_timestamp self with
  | Some df, Some stamp =>
      if (negb (PrimFloat.eqb stamp 0%float)
          && PrimFloat.ltb (PrimFloat.sub current_time stamp) _cache_ttl)%bool
      then Some df else None
  | _, _ => None
  end.

(** [_load_data].  [current_time] is what [time.time()] returned;
    [fetch] is the outcome of lines 101-121, which run only when the cache
    does not answer: the rows the sheet service returned
    ([result.get(values, [])]), or the exception one of those lines
    raised.  The function returns the table, if any, and the attributes as
    it leaves them. *)
Definition _load_data (self : Cache) (current_time : float)
    (fetch : result (list (list string))) : option DataFrame * Cache :=
  match cached self current_time with
  | Some df => (Some df, self)
  | None =>
      match fetch with
      | Raise _ => (None, self)
      | Ok [] => (None, self)
      | Ok (headers :: data) =>
          match DataFrame_of data headers with
          | Raise _ => (None, self)
          | Ok df =>
              let df := {| columns := map strip (columns df);
                           rows := rows df |} in
              (Some df,
               {| _data_cache := Some df;
                  _cache_timestamp := Some current_time |})
          end
      end
  end.

Section Handler.

Variable json_loads : string -> result json.
Variable pandas_filter :
  library_test -> DataFrame -> string -> json -> result DataFrame.
(** The planning call of line 185, given the column names and the query. *)
Variable parse_chat : list string -> string -> result string.
(** [json.dumps(data, indent=2)] *)
Variable json_dumps : json -> string.
(** The summary call of line 371, given the query, the plan, the result
    and the number of rows of the table. *)
Variable summary_chat : string -> json -> json -> Z -> result string.

Definition default_plan : json :=
  JDict [("operation", JStr "list");
         ("filters", JList []);
         ("group_by", JNull);
         ("aggregation", JNull);
         ("select_columns", JList []);
         ("limit", JInt 100);
         ("return_json", JBool false)].

Definition _parse_query (query : string) (cols : list string) : result json :=
  response <- parse_chat cols query ;;
  match json_span response with
  | Some text =>
      match json_loads text with
      | Ok plan => Ok plan
      | Raise e =>
          match exn_cls e with
          | JSONDecodeError => Ok default_plan
          | _ => Raise e
          end
      end
  | None => Ok default_plan
  end.

Definition _generate_response (query : string) (plan result_data : json)
    (total_urls : Z) : result string :=
  return_json <- get plan "return_json" JNull ;;
  if truthy return_json then
    d <- get result_data "data" (JList []) ;;
    Ok (json_dumps d)
  else summary_chat query plan result_data total_urls.

Definition load_failure : AgentResponse :=
  {| success := false; data := JNull; message := EmptyString;
     agent_name := "seo";
     error := Some "Failed to load SEO data from spreadsheet" |}.

(** [process]: the response, and the cache attributes afterwards. *)
Definition process (self : Cache) (current_time : float)
    (fetch : result (list (list string))) (query : string)
  : AgentResponse * Cache :=
  let (loaded, self') := _load_data self current_time fetch in
  let outcome :=
    match loaded with
    | None => Ok load_failure
    | Some df =>
        if empty df then Ok load_failure
        else
          analysis_plan <- _parse_query query (columns df) ;;
          result_data <- _execute_analysis pandas_filter df analysis_plan ;;
          let total_urls := Z.of_nat (length (rows df)) in
          response_text <-
            _generate_response query analysis_plan result_data total_urls ;;
          Ok {| success := true;
                data := JDict [("analysis_plan", analysis_plan);
                               ("result_data", result_data);
                               ("total_urls", JInt total_urls)];
                message := response_text;
                agent_name := "seo";
                error := None |}
    end in
  (match outcome with
   | Ok response => response
   | Raise e =>
       {| success := false; data := JNull; message := EmptyString;
          agent_name := "seo"; error := Some (exn_msg e) |}
   end,
   self').

End Handler.

End SEO.

(* ================================================================== *)
(** ** The client of the language model: bounded retries with back-off *)
(* ================================================================== *)

Module LLMClient.

(** What one call of [self.client.chat.completions.create] comes to, by
    the [except] clause of [chat] that receives it. *)
Inductive attempt : Type :=
| Returned (content : string)
    (* no exception: [response.choices[0].message.content] *)
| RateLimit (e : exn)                      (* RateLimitError *)
| Connection (e : exn)                     (* APIConnectionError *)
| Timeout (e : exn)                        (* APITimeoutError *)
| Api (status_code : option Z) (e : exn)
    (* another APIError, with [getattr(e, status_code, None)] *)
| Other (e : exn).                         (* any other Exception *)

Definition decimal (n : nat) : string := NilZero.string_of_uint (Nat.to_uint n).

(** [str(last_error)] *)
Definition str_of_last (last_error : option exn) : string :=
  match last_error with
  | Some e => exn_msg e
  | None => "None"
  end.

(** What [chat] did and gave: the number of calls it made, the waits it
    slept in order, each as the factor [2 ** attempt] of [base_delay], and
    the text it returned or the exception it raised. *)
Record run : Type := {
  calls : nat;
  waits : list Z;
  outcome : result string
}.

Section Chat.

Variable max_retries : nat.
(** The result of the call made at each attempt. *)
Variable create : nat -> attempt.

Definition exhausted (last_error : option exn) : run :=
  {| calls := 0; waits := [];
     outcome :=
       Raise (Exn RuntimeError
                ("Failed after " ++ decimal max_retries
                 ++ " retries. Last error: " ++ str_of_last last_error)%string) |}.

(** The loop of lines 60-126, from attempt [attempt_no] on, with
    [remaining] rounds to go. *)
Fixpoint attempts (remaining attempt_no : nat) (last_error : option exn)
  : run :=
  match remaining with
  | O => exhausted last_error
  | S remaining' =>
      let stop (r : result string) :=
        {| calls := 1; waits := []; outcome := r |} in
      let retry (e : exn) :=
        let rest := attempts remaining' (S attempt_no) (Some e) in
        {| calls := S (calls rest);
           waits := 2 ^ Z.of_nat attempt_no :: waits rest;
           outcome := outcome rest |} in
      match create attempt_no with
      | Returned content => stop (Ok content)
      | RateLimit e => retry e
      | Connection e => retry e
      | Timeout e => retry e
      | Api status_code e =>
          match status_code with
          | Some code =>
              if Z.eqb code 429 then retry e
              else if (negb (Z.eqb code 0) && Z.leb 500 code)%bool then retry e
              else stop (Raise e)
          | None => stop (Raise e)
          end
      | Other e => stop (Raise e)
      end
  end.

(** [chat] *)
Definition chat : run := attempts max_retries 0 None.

End Chat.

(** An attempt that [chat] answers with a wait and another round. *)
Definition retried (a : attempt) : bool :=
  match a with
  | RateLimit _ | Connection _ | Timeout _ => true
  | Api (Some code) _ =>
      (Z.eqb code 429 || (negb (Z.eqb code 0) && Z.leb 500 code))%bool
  | Api None _ | Returned _ | Other _ => false
  end.

(** What a decisive attempt makes [chat] return or raise. *)
Definition settled (a : attempt) : result string :=
  match a with
  | Returned content => Ok content
  | RateLimit e | Connection e | Timeout e | Api _ e | Other e => Raise e
  end.

End LLMClient.

(* ================================================================== *)
(** ** Stand-ins for the collaborators, for running the code on examples *)
(* ================================================================== *)

Module Fixtures.

Definition dq : string := String "034"%char EmptyString.
Definition quoted (s : string) : string := (dq ++ s ++ dq)%string.

(** What the classifier answers to a question about neither domain: a
    well-formed object with both flags false. *)
Definition off_topic_reply : string :=
  ("{" ++ quoted "requires_analytics" ++ ": false, "
       ++ quoted "requires_seo" ++ ": false, "
       ++ quoted "is_cross_agent" ++ ": false, "
       ++ quoted "reasoning" ++ ": " ++ quoted "neither analytics nor SEO"
       ++ "}")%string.

Definition analytics_ok : AgentResponse :=
  {| success := true;
     data := JDict [("raw_data", JDict [("row_count", JInt 0)])];
     message := "No rows in the period.";
     agent_name := "analytics";
     error := None |}.

Definition seo_ok : AgentResponse :=
  {| success := true;
     data := JDict [("total_urls", JInt 2)];
     message := "Two URLs were audited.";
     agent_name := "seo";
     error := None |}.

Definition seo_failed : AgentResponse := SEO.load_failure.

Definition synthesis : string -> json -> json -> json -> result string :=
  fun _ _ _ _ => Ok "Synthesis of both sources.".

(** A library that is never asked: for plans with none of the library
    selections. *)
Definition no_library
  : SEO.library_test -> SEO.DataFrame -> string -> json -> result SEO.DataFrame :=
  fun _ _ _ _ => Raise (Exn NotImplementedError "library selection").

(** A calendar for January 2024, frozen on the 8th: a date is its day of
    the month. *)
Definition two_digits (d : Z) : string :=
  ((if Z.ltb d 10 then "0" else EmptyString) ++ SEO.decimal (Z.to_nat d))%string.

Definition january_now : Z := 8.

Definition january_minus_days (d : Z) (days : json) : result Z :=
  match days with
  | JInt n =>
      if (Z.leb 1 (d - n) && Z.leb (d - n) 31)%bool then Ok (d - n)
      else Raise (Exn NotImplementedError "date outside January 2024")
  | _ => Raise (Exn NotImplementedError "fractional days")
  end.

Definition january_fromisoformat (text : json) : result Z :=
  Raise (Exn NotImplementedError "absolute dates").

Definition january_strftime (d : Z) : string :=
  ("2024-01-" ++ two_digits d)%string.

Definition empty_report : Analytics.RunReportResponse :=
  {| Analytics.dimension_headers := [];
     Analytics.metric_headers := [];
     Analytics.rows := [];
     Analytics.totals := [];
     Analytics.row_count := 0 |}.

Definition _execute_query_january :=
  Analytics._execute_query Z january_now january_minus_days
    january_fromisoformat january_strftime (Ok tt) (fun _ => Ok empty_report).

(** A two-row audit table. *)
Definition audit : SEO.DataFrame :=
  {| SEO.columns := ["Address"; "Indexability"; "Title 1"];
     SEO.rows :=
       [[Some "https://example.com/"; Some "Indexable"; Some "Home"];
        [Some "http://example.com/old"; Some "Non-Indexable"; Some "  "];
        [Some "https://example.com/a"; Some "Indexable"; None]] |}.

End Fixtures.

(** Plans as the planning calls may return them, and what the handlers
    make of them. *)
Module Plans.

Definition pricing_clause (dimension : string) : json :=
  JDict [("dimension", JStr dimension); ("value", JStr "/pricing")].

(** Canonical names, and two clauses the validator keeps. *)
Definition report_plan : json :=
  JDict [("metrics", JList [JStr "sessions"; JStr "totalUsers"]);
         ("dimensions", JList [JStr "pagePath"]);
         ("date_range", JDict [("type", JStr "relative"); ("days", JInt 7)]);
         ("filters", JList [pricing_clause "page";
                            JDict [("dimension", JStr "country");
                                   ("value", JStr "US")]]);
         ("order_by", JNull)].

Definition report_plan_validated : json :=
  JDict [("metrics", JList [JStr "sessions"; JStr "totalUsers"]);
         ("dimensions", JList [JStr "pagePath"]);
         ("date_range", JDict [("type", JStr "relative"); ("days", JInt 7)]);
         ("filters", JList [pricing_clause "page";
                            JDict [("dimension", JStr "country");
                                   ("value", JStr "US")]]);
         ("order_by", JNull)].

(** A clause whose field is the canonical name in lower case: only the
    fuzzy tier resolves it. *)
Definition fuzzy_filter_plan : json :=
  JDict [("metrics", JList [JStr "sessions"]);
         ("dimensions", JList [JStr "date"]);
         ("filters", JList [pricing_clause "pagepath"])].

Definition fuzzy_filter_plan_validated : json :=
  JDict [("metrics", JList [JStr "sessions"]);
         ("dimensions", JList [JStr "date"]);
         ("date_range", JDict [("type", JStr "relative"); ("days", JInt 7)]);
         ("filters", JList []);
         ("order_by", JNull)].

(** The request the executor builds for [report_plan_validated] on
    property 123456, on the 8th of January 2024. *)
Definition report_request : Analytics.RunReportRequest :=
  {| Analytics.property := "properties/123456";
     Analytics.date_ranges :=
       [{| Analytics.start_date := "2024-01-01";
           Analytics.end_date := "2024-01-08" |}];
     Analytics.metrics := [JStr "sessions"; JStr "totalUsers"];
     Analytics.dimensions := Some [JStr "pagePath"];
     Analytics.dimension_filter :=
       Some {| Analytics.field_name := "pagePath";
               Analytics.match_type := Analytics.CONTAINS;
               Analytics.value := JStr "/pricing" |};
     Analytics.limit := 1000 |}.

(** Grouping with a row limit of one. *)
Definition grouped_plan : json :=
  JDict [("operation", JStr "group");
         ("filters", JList []);
         ("group_by", JStr "Indexability");
         ("aggregation", JStr "count");
         ("select_columns", JList []);
         ("limit", JInt 1);
         ("return_json", JBool false)].

(** Pages with a blank title, two columns, at most one row. *)
Definition blank_titles_plan : json :=
  JDict [("operation", JStr "filter");
         ("filters", JList [JDict [("column", JStr "title");
                                   ("operator", JStr "is_empty")]]);
         ("group_by", JNull);
         ("aggregation", JNull);
         ("select_columns", JList [JStr "url"; JStr "title"]);
         ("limit", JInt 1);
         ("return_json", JBool false)].

Definition blank_titles_result : json :=
  JDict [("type", JStr "list");
         ("data", JList [JDict [("Address", JStr "http://example.com/old");
                                ("Title 1", JStr "  ")]]);
         ("total_matching", JInt 1);
         ("columns", JList [JStr "Address"; JStr "Title 1"])].

End Plans.

(** Sheets as the spreadsheet service may return them. *)
Module Sheets.

(** The outcome of the fetch of lines 101-121 for a sheet with a header row
    and three rows, the last one without a title cell. *)
Definition audit_sheet : result (list (list string)) :=
  Ok [["Address "; "Indexability"; " Title 1"];
      ["https://example.com/"; "Indexable"; "Home"];
      ["http://example.com/old"; "Non-Indexable"; "  "];
      ["https://example.com/a"; "Indexable"]].

(** The attributes of a handler that has not loaded the sheet yet. *)
Definition empty_cache : SEO.Cache :=
  {| SEO._data_cache := None; SEO._cache_timestamp := None |}.

End Sheets.

(** A library that answers the two equality selections on a column of
    texts, cell by cell, and nothing else. *)
Module Library.

Definition same_text (v : string) (c : SEO.cell) : bool :=
  match c with Some s => String.eqb s v | None => false end.

Definition equality
  : SEO.library_test -> SEO.DataFrame -> string -> json -> result SEO.DataFrame :=
  fun test frame column value =>
    match test, value, SEO.positions column (SEO.columns frame) 0 with
    | SEO.Equals, JStr v, [i] => Ok (SEO.rows_where (same_text v) i frame)
    | SEO.NotEquals, JStr v, [i] =>
        Ok (SEO.rows_where (fun c => negb (same_text v c)) i frame)
    | _, _, _ => Raise (Exn NotImplementedError "library selection")
    end.

(** Indexable pages, at most five. *)
Definition indexable_plan : json :=
  JDict [("operation", JStr "filter");
         ("filters", JList [JDict [("column", JStr "indexability");
                                   ("operator", JStr "equals");
                                   ("value", JStr "Indexable")]]);
         ("group_by", JNull);
         ("aggregation", JNull);
         ("select_columns", JList [JStr "url"]);
         ("limit", JInt 5);
         ("return_json", JBool false)].

Definition indexable_result : json :=
  JDict [("type", JStr "list");
         ("data", JList [JDict [("Address", JStr "https://example.com/")];
                         JDict [("Address", JStr "https://example.com/a")]]);
         ("total_matching", JInt 2);
         ("columns", JList [JStr "Address"])].

Definition indexability_counts : json :=
  JDict [("type", JStr "grouped");
         ("data",
          JList [JDict [("Indexability", JStr "Indexable"); ("count", JInt 2)];
                 JDict [("Indexability", JStr "Non-Indexable");
                        ("count", JInt 1)]]);
         ("total_groups", JInt 2)].

End Library.

(* ================================================================== *)
(** ** Vocabulary of the statements *)
(* ================================================================== *)

(** [occurs sub s]: [sub] is a contiguous part of [s]. *)
Definition occurs (sub s : string) : Prop :=
  exists pre post, s = (pre ++ sub ++ post)%string.

(** Every character of the text is one [strip] removes. *)
Fixpoint whitespace_only (s : string) : bool :=
  match s with
  | EmptyString => true
  | String c t => (is_space c && whitespace_only t)%bool
  end.

(** A cell that is missing or holds nothing but whitespace. *)
Definition blank (c : SEO.cell) : bool :=
  match c with
  | None => true
  | Some s => whitespace_only s
  end.

(** The reply of the classifier holds no object the decoder accepts: no
    brace-delimited span, or a span [json.loads] rejects. *)
Definition no_decodable_object (json_loads : string -> result json)
    (response : string) : Prop :=
  match json_span response with
  | None => True
  | Some text =>
      exists e, json_loads text = Raise e /\ exn_cls e = JSONDecodeError
  end.

(** The intent asks for at least one handler. *)
Definition selects_handler (intent : Orchestrator.QueryIntent) : bool :=
  (truthy (Orchestrator.requires_analytics intent)
   || truthy (Orchestrator.requires_seo intent))%bool.

(** The plan asks for [name] under [key]: it is one of the items the loop
    over [plan.get(key, [])] visits. *)
Definition requested (plan : json) (key name : string) : Prop :=
  exists v items,
    get plan key (JList []) = Ok v /\ iter v = Ok items /\ In (JStr name) items.

(** The validated plan lists [name] under [key]. *)
Definition listed (validated : json) (key name : string) : Prop :=
  exists l, get validated key JNull = Ok (JList l) /\ In (JStr name) l.

(** The clauses the loop over [plan.get(filters, [])] visits. *)
Definition clauses (plan : json) : result (list json) :=
  requested_filters <- get plan "filters" (JList []) ;;
  iter requested_filters.

(** The first two tiers of the match, on the field of a clause: the field
    is a canonical dimension, or its lower-cased form is a key of the
    mapping table. *)
Definition exact_or_mapped (filter_item : json) : bool :=
  match filter_item with
  | JDict kvs =>
      match lookup "dimension" kvs with
      | Some (JStr d) =>
          (mem d Analytics.VALID_DIMENSIONS
           || Analytics.has_key (lower d) Analytics.DIMENSION_MAPPINGS)%bool
      | _ => false
      end
  | _ => false
  end.

(** A value that is a list of names, and a value that is a list of
    clauses, each an object whose dimension field, if any, is text: what
    the planning prompt asks the model for. *)
Definition names_of (v : json) (names : list string) : Prop :=
  v = JList (map JStr names).

Definition well_formed_clause (clause : json) : Prop :=
  exists kvs,
    clause = JDict kvs
    /\ (lookup "dimension" kvs = None
        \/ exists d, lookup "dimension" kvs = Some (JStr d)).

(** The last value bound to a key in a list of pairs. *)
Definition last_binding {V : Type} (k : string) (pairs : list (string * V))
  : option V :=
  lookup k (rev pairs).

(** The character does not stand in the text. *)
Fixpoint free_of (c : ascii) (s : string) : bool :=
  match s with
  | EmptyString => true
  | String d t => (negb (Ascii.eqb c d) && free_of c t)%bool
  end.

Definition open_brace : ascii := "{"%char.
Definition close_brace : ascii := "}"%char.

(** The operators the chain of lines 219-257 knows. *)
Definition known_operators : list string :=
  ["equals"; "not_equals"; "contains"; "not_contains"; "greater"; "less";
   "is_empty"; "not_empty"].

(** Ascending order of texts, as [groupby] sorts its keys. *)
Definition ascending (a b : string) : Prop := String.ltb a b = true.

(** A cell that holds a text. *)
Definition present (c : SEO.cell) : bool :=
  match c with Some _ => true | None => false end.

(** What the library's selections are taken to keep: the labels, and no
    row that was not there. *)
Definition selects_rows
    (pandas_filter :
       SEO.library_test -> SEO.DataFrame -> string -> json
       -> result SEO.DataFrame) : Prop :=
  forall test frame column value out,
    pandas_filter test frame column value = Ok out ->
    SEO.columns out = SEO.columns frame
    /\ incl (SEO.rows out) (SEO.rows frame)
    /\ (length (SEO.rows out) <= length (SEO.rows frame))%nat.

(** The waits of a run of [chat] that slept [n] times: the factors
    [2 ** 0], ..., [2 ** (n - 1)] of the base delay. *)
Definition backoff (from n : nat) : list Z :=
  map (fun attempt => 2 ^ Z.of_nat attempt) (seq from n).

Definition total (waits : list Z) : Z := fold_right Z.add 0 waits.

(* ================================================================== *)
(** ** Facts about the string primitives *)
(* ================================================================== *)

Lemma prefix_app (a b : string) :
  prefix a b = true <-> exists post, b = (a ++ post)%string.
Proof.
  revert b. induction a as [|c a IH]; intros b; simpl.
  - split; [intros _; now exists b | intros _; now destruct b].
  - destruct b as [|d b]; simpl.
    + split; [discriminate | intros [post H]; discriminate].
    + destruct (ascii_dec c d) as [->|ne].
      * rewrite IH. split; intros [post H]; exists post.
        -- now rewrite H.
        -- now injection H.
      * split; [discriminate|]. intros [post H]. injection H as H1 _.
        now elim ne.
Qed.

Lemma str_in_nil (sub : string) :
  str_in sub EmptyString = (prefix sub EmptyString || false)%bool.
Proof. reflexivity. Qed.

Lemma str_in_cons (sub : string) (c : ascii) (t : string) :
  str_in sub (String c t) = (prefix sub (String c t) || str_in sub t)%bool.
Proof. reflexivity. Qed.

Lemma str_in_prefix (sub s : string) : prefix sub s = true -> str_in sub s = true.
Proof.
  intros H. destruct s; [rewrite str_in_nil | rewrite str_in_cons];
    now rewrite H.
Qed.

Lemma str_in_occurs (sub s : string) : str_in sub s = true <-> occurs sub s.
Proof.
  split.
  - induction s as [|c t IH];
      [rewrite str_in_nil | rewrite str_in_cons];
      rewrite orb_true_iff; intros [H|H].
    + apply prefix_app in H as [post ->]. now exists EmptyString, post.
    + discriminate.
    + apply prefix_app in H as [post ->]. now exists EmptyString, post.
    + destruct (IH H) as (pre & post & ->). now exists (String c pre), post.
  - intros (pre & post & ->). induction pre as [|c pre IH].
    + apply str_in_prefix, prefix_app. now exists post.
    + change (String c pre ++ sub ++ post)%string
        with (String c (pre ++ sub ++ post)%string).
      rewrite str_in_cons, IH. apply orb_true_r.
Qed.

Lemma any_in_occurs (kws : list string) (s : string) :
  any_in kws s = true <-> exists kw, In kw kws /\ occurs kw s.
Proof.
  unfold any_in. rewrite existsb_exists.
  split; intros (kw & Hin & H); exists kw; split; auto;
    now apply str_in_occurs.
Qed.

Lemma any_in_none (kws : list string) (s : string) :
  any_in kws s = false <-> forall kw, In kw kws -> ~ occurs kw s.
Proof.
  rewrite <- not_true_iff_false, any_in_occurs. split.
  - intros H kw Hin Hocc. apply H. now exists kw.
  - intros H (kw & Hin & Hocc). now apply (H kw).
Qed.

Lemma whitespace_only_lstrip (s : string) :
  whitespace_only (lstrip s) = whitespace_only s.
Proof.
  induction s as [|c t IH]; simpl; auto.
  destruct (is_space c) eqn:E; simpl; [exact IH | now rewrite E].
Qed.

Lemma rstrip_empty (s : string) :
  rstrip s = EmptyString <-> whitespace_only s = true.
Proof.
  induction s as [|c t IH]; simpl; [tauto|].
  destruct (rstrip t) eqn:R.
  - assert (whitespace_only t = true) as -> by now apply IH.
    rewrite andb_true_r. destruct (is_space c); split; congruence.
  - assert (whitespace_only t = false) as ->.
    { apply not_true_iff_false. intros H. apply IH in H. discriminate. }
    rewrite andb_false_r. split; discriminate.
Qed.

Lemma strip_empty (s : string) :
  strip s = EmptyString <-> whitespace_only s = true.
Proof.
  unfold strip. now rewrite rstrip_empty, whitespace_only_lstrip.
Qed.

(* ================================================================== *)
(** ** The intent router *)
(* ================================================================== *)

Section RouterFacts.

Import Orchestrator.

Variable json_loads : string -> result json.

Lemma detect_intent_fallback (response query : string) :
  no_decodable_object json_loads response ->
  _detect_intent json_loads response query = Ok (keyword_intent query).
Proof.
  unfold no_decodable_object, _detect_intent.
  destruct (json_span response) as [text|]; [|reflexivity].
  intros (e & -> & He). simpl. now rewrite He.
Qed.

Lemma detect_intent_decoded (response query text : string)
    (kvs : list (string * json)) :
  json_span response = Some text ->
  json_loads text = Ok (JDict kvs) ->
  _detect_intent json_loads response query = decoded_intent (JDict kvs).
Proof.
  intros Hs Hl. unfold _detect_intent. now rewrite Hs, Hl.
Qed.

Lemma keyword_intent_selects_handler (query : string) :
  selects_handler (keyword_intent query) = true.
Proof.
  unfold selects_handler, keyword_intent.
  cbn [requires_analytics requires_seo truthy].
  destruct (any_in analytics_keywords (lower query));
    destruct (any_in seo_keywords (lower query)); reflexivity.
Qed.

Variable fusion_chat : string -> json -> json -> json -> result string.

Lemma fuse_responses_not_no_agent (query : string)
    (responses : list AgentResponse) (intent : QueryIntent) :
  match _fuse_responses fusion_chat query responses intent with
  | Ok reply => reply
  | Raise e => failure_of e
  end <> no_agent.
Proof.
  unfold _fuse_responses, no_agent, failure_of.
  destruct (collect_errors responses); simpl.
  - destruct (fusion_chat _ _ _ _); simpl; discriminate.
  - discriminate.
Qed.

Variable router_chat : string -> result string.
Variable analytics_process : string -> string -> AgentResponse.
Variable seo_process : string -> AgentResponse.

(** C1, as amended: when the reply of the classifier holds no decodable
    JSON object, the intent the router returns (the keyword fallback) asks
    for the analytics handler or for the SEO handler, and the orchestrator
    does not answer with its could-not-determine failure. *)
Theorem fallback_intent_selects_handler (query response : string)
    (property_id : option string) :
  router_chat query = Ok response ->
  no_decodable_object json_loads response ->
  (exists intent,
      _detect_intent json_loads response query = Ok intent
      /\ selects_handler intent = true)
  /\ process_query json_loads fusion_chat router_chat analytics_process
       seo_process query property_id <> no_agent.
Proof.
  intros Hchat Hno. pose proof (detect_intent_fallback response query Hno) as Hd.
  split.
  - exists (keyword_intent query). split; [exact Hd|].
    apply keyword_intent_selects_handler.
  - unfold process_query. rewrite Hchat. cbn [bind]. rewrite Hd. cbn [bind].
    pose proof (keyword_intent_selects_handler query) as Hsel.
    unfold selects_handler in Hsel.
    destruct (truthy (requires_analytics (keyword_intent query))) eqn:Ea;
      destruct (truthy (requires_seo (keyword_intent query))) eqn:Es;
      try discriminate Hsel;
      destruct (property_missing property_id); cbn -[_fuse_responses];
      try (unfold missing_property, _format_single_response, no_agent;
           discriminate).
    apply fuse_responses_not_no_agent.
Qed.

(** C5: on the keyword fallback, a query whose lower-cased text contains
    an SEO keyword and no analytics keyword gets [requires_seo = True], and
    a query that contains no keyword of either list gets
    [requires_analytics = True]. *)
Theorem keyword_fallback_flags (response query : string) :
  no_decodable_object json_loads response ->
  exists intent,
    _detect_intent json_loads response query = Ok intent
    /\ ((exists kw, In kw seo_keywords /\ occurs kw (lower query)) ->
        (forall kw, In kw analytics_keywords -> ~ occurs kw (lower query)) ->
        requires_seo intent = JBool true)
    /\ ((forall kw, In kw (analytics_keywords ++ seo_keywords) ->
                    ~ occurs kw (lower query)) ->
        requires_analytics intent = JBool true).
Proof.
  intros Hno. exists (keyword_intent query).
  split; [now apply detect_intent_fallback|]. split.
  - intros Hseo _. apply any_in_occurs in Hseo.
    unfold keyword_intent. cbn [requires_seo]. now rewrite Hseo.
  - intros Hnone.
    assert (any_in seo_keywords (lower query) = false) as Hs.
    { apply any_in_none. intros kw Hin. apply Hnone, in_or_app. now right. }
    unfold keyword_intent. cbn [requires_analytics]. rewrite Hs.
    now rewrite orb_true_r.
Qed.

End RouterFacts.

(** C1, the claim as written fails: a well-formed reply with both flags
    false is returned as it is, no handler is selected, and the
    orchestrator answers that it could not determine an agent. *)
Lemma off_topic_reply_selects_no_handler :
  Orchestrator._detect_intent JsonDecoder.loads Fixtures.off_topic_reply
    "what is the weather today"
  = Ok {| Orchestrator.requires_analytics := JBool false;
          Orchestrator.requires_seo := JBool false;
          Orchestrator.is_cross_agent := JBool false;
          Orchestrator.reasoning := JStr "neither analytics nor SEO" |}
  /\ Orchestrator.process_query JsonDecoder.loads Fixtures.synthesis
       (fun _ => Ok Fixtures.off_topic_reply)
       (fun _ _ => Fixtures.analytics_ok) (fun _ => Fixtures.seo_ok)
       "what is the weather today" (Some "123456")
     = Orchestrator.no_agent.
Proof. split; vm_compute; reflexivity. Qed.

Lemma fallback_intent_selects_handler_witness :
  no_decodable_object JsonDecoder.loads "{requires_seo: yes}"
  /\ ((exists intent,
         Orchestrator._detect_intent JsonDecoder.loads "{requires_seo: yes}"
           "Which URLs lack HTTPS?" = Ok intent
         /\ selects_handler intent = true)
      /\ Orchestrator.process_query JsonDecoder.loads Fixtures.synthesis
           (fun _ => Ok "{requires_seo: yes}")
           (fun _ _ => Fixtures.analytics_ok) (fun _ => Fixtures.seo_ok)
           "Which URLs lack HTTPS?" (Some "123456")
         <> Orchestrator.no_agent).
Proof.
  assert (no_decodable_object JsonDecoder.loads "{requires_seo: yes}") as H.
  { vm_compute. eexists. split; reflexivity. }
  split; [exact H|].
  apply (fallback_intent_selects_handler JsonDecoder.loads Fixtures.synthesis
           (fun _ => Ok "{requires_seo: yes}")
           (fun _ _ => Fixtures.analytics_ok) (fun _ => Fixtures.seo_ok)
           "Which URLs lack HTTPS?" "{requires_seo: yes}" (Some "123456")
           eq_refl H).
Defined.

Lemma keyword_fallback_flags_witness :
  no_decodable_object JsonDecoder.loads "Route this one to the SEO agent."
  /\ exists intent,
       Orchestrator._detect_intent JsonDecoder.loads
         "Route this one to the SEO agent." "Which URLs lack HTTPS?"
       = Ok intent
       /\ ((exists kw, In kw Orchestrator.seo_keywords
                       /\ occurs kw (lower "Which URLs lack HTTPS?")) ->
           (forall kw, In kw Orchestrator.analytics_keywords ->
                       ~ occurs kw (lower "Which URLs lack HTTPS?")) ->
           Orchestrator.requires_seo intent = JBool true)
       /\ ((forall kw, In kw (Orchestrator.analytics_keywords
                              ++ Orchestrator.seo_keywords) ->
                       ~ occurs kw (lower "Which URLs lack HTTPS?")) ->
           Orchestrator.requires_analytics intent = JBool true).
Proof.
  assert (no_decodable_object JsonDecoder.loads
            "Route this one to the SEO agent.") as H
      by (vm_compute; exact I).
  split; [exact H|].
  exact (keyword_fallback_flags JsonDecoder.loads
           "Route this one to the SEO agent." "Which URLs lack HTTPS?" H).
Defined.

(* ================================================================== *)
(** ** The response fuser *)
(* ================================================================== *)

Section FuserFacts.

Import Orchestrator.

Variable fusion_chat : string -> json -> json -> json -> result string.

Lemma fuse_responses_errors (query : string) (responses : list AgentResponse)
    (intent : QueryIntent) :
  collect_errors responses <> [] ->
  _fuse_responses fusion_chat query responses intent
  = Ok (JDict [("success", JBool false);
               ("error", JStr (String.concat "; " (collect_errors responses)));
               ("partial_data", JDict (partial_data responses))]).
Proof.
  unfold _fuse_responses. now destruct (collect_errors responses).
Qed.


End FuserFacts.


(* ================================================================== *)
(** ** Inversion of the exception monad *)
(* ================================================================== *)

Lemma bind_Ok {A B : Type} (c : result A) (k : A -> result B) (b : B) :
  bind c k = Ok b -> exists a, c = Ok a /\ k a = Ok b.
Proof. destruct c as [a|e]; simpl; [now exists a | discriminate]. Qed.

(** Splits a hypothesis [bind c k = Ok b] into its two steps. *)
Ltac bind_inv H :=
  let a := fresh "a" in
  let Ha := fresh "Hstep" in
  apply bind_Ok in H as (a & Ha & H).

Lemma mem_In (x : string) (xs : list string) : mem x xs = true <-> In x xs.
Proof.
  unfold mem. rewrite existsb_exists. split.
  - intros (y & Hy & E). apply String.eqb_eq in E. now subst.
  - intros H. exists x. split; [exact H | apply String.eqb_refl].
Qed.

Lemma get_dict (d : json) (key : string) (default v : json) :
  get d key default = Ok v -> exists kvs, d = JDict kvs.
Proof. destruct d; try discriminate. now exists kvs. Qed.

(* ================================================================== *)
(** ** The analytics plan validator *)
(* ================================================================== *)

Section ValidationFacts.

Import Analytics.

Variable metrics_order : list string.
Variable dimensions_order : list string.

Lemma resolve_metric_canonical (m : string) :
  In m VALID_METRICS ->
  resolve_metric metrics_order (JStr m) = Ok (Some m) /\ str_truthy m = true.
Proof.
  unfold VALID_METRICS. simpl.
  intros H. repeat (destruct H as [<-|H]; [split; reflexivity|]).
  contradiction.
Qed.

Lemma resolve_dimension_canonical (d : string) :
  In d VALID_DIMENSIONS ->
  resolve_dimension dimensions_order (JStr d) = Ok (Some d)
  /\ str_truthy d = true.
Proof.
  unfold VALID_DIMENSIONS. simpl.
  intros H. repeat (destruct H as [<-|H]; [split; reflexivity|]).
  contradiction.
Qed.

Lemma append_new_keeps (api : option string) (validated : list string) (x : string) :
  In x validated -> In x (append_new api validated).
Proof.
  unfold append_new. destruct api as [a|]; auto.
  destruct (str_truthy a && negb (mem a validated))%bool; auto.
  intros H. apply in_or_app. now left.
Qed.

Lemma append_new_adds (a : string) (validated : list string) :
  str_truthy a = true -> In a (append_new (Some a) validated).
Proof.
  intros Ht. unfold append_new. rewrite Ht. simpl.
  destruct (mem a validated) eqn:E; simpl.
  - now apply mem_In.
  - apply in_or_app. right. now left.
Qed.

Lemma validate_metrics_keeps (items : list json) (validated out : list string) :
  validate_metrics metrics_order items validated = Ok out ->
  forall x, In x validated -> In x out.
Proof.
  revert validated. induction items as [|metric rest IH]; simpl; intros validated H x Hx.
  - now injection H as <-.
  - bind_inv H. eapply IH; [exact H|]. now apply append_new_keeps.
Qed.

Lemma validate_metrics_canonical (items : list json) (validated out : list string)
    (m : string) :
  validate_metrics metrics_order items validated = Ok out ->
  In (JStr m) items -> In m VALID_METRICS -> In m out.
Proof.
  intros H Hin Hm. revert validated H.
  induction items as [|metric rest IH]; simpl; intros validated H; [contradiction|].
  bind_inv H. destruct Hin as [->|Hin].
  - destruct (resolve_metric_canonical m Hm) as [Hr Ht].
    rewrite Hr in Hstep. injection Hstep as <-.
    eapply validate_metrics_keeps; [exact H|]. now apply append_new_adds.
  - now apply (IH Hin _ H).
Qed.

Lemma validate_dimensions_keeps (items : list json) (validated out : list string) :
  validate_dimensions dimensions_order items validated = Ok out ->
  forall x, In x validated -> In x out.
Proof.
  revert validated. induction items as [|dimension rest IH]; simpl; intros validated H x Hx.
  - now injection H as <-.
  - bind_inv H. eapply IH; [exact H|]. now apply append_new_keeps.
Qed.

Lemma validate_dimensions_canonical (items : list json)
    (validated out : list string) (d : string) :
  validate_dimensions dimensions_order items validated = Ok out ->
  In (JStr d) items -> In d VALID_DIMENSIONS -> In d out.
Proof.
  intros H Hin Hd. revert validated H.
  induction items as [|dimension rest IH]; simpl; intros validated H; [contradiction|].
  bind_inv H. destruct Hin as [->|Hin].
  - destruct (resolve_dimension_canonical d Hd) as [Hr Ht].
    rewrite Hr in Hstep. injection Hstep as <-.
    eapply validate_dimensions_keeps; [exact H|]. now apply append_new_adds.
  - now apply (IH Hin _ H).
Qed.

(** What the loop over the clauses does to each of them. *)
Lemma filter_kept_exact_or_mapped (filter_item : json) (keep : bool) :
  filter_kept filter_item = Ok keep -> keep = exact_or_mapped filter_item.
Proof.
  unfold filter_kept, exact_or_mapped, get.
  destruct filter_item; try discriminate. simpl.
  destruct (lookup "dimension" kvs) as [dim|]; simpl.
  - destruct dim; try discriminate. now intros [= <-].
  - now intros [= <-].
Qed.

Lemma validate_filters_filter (items validated out : list json) :
  validate_filters items validated = Ok out ->
  out = validated ++ filter exact_or_mapped items.
Proof.
  revert validated. induction items as [|filter_item rest IH]; simpl; intros validated H.
  - injection H as <-. now rewrite app_nil_r.
  - bind_inv H. apply filter_kept_exact_or_mapped in Hstep. subst a.
    apply IH in H. destruct (exact_or_mapped filter_item); [|exact H].
    now rewrite <- app_assoc in H.
Qed.

(** The shape of a validated plan. *)
Lemma validate_plan_inv (plan validated : json) :
  _validate_plan metrics_order dimensions_order plan = Ok validated ->
  exists date_range order_by requested_metrics metric_items metrics
         requested_dimensions dimension_items dimensions filter_items,
    get plan "metrics" (JList []) = Ok requested_metrics
    /\ iter requested_metrics = Ok metric_items
    /\ validate_metrics metrics_order metric_items [] = Ok metrics
    /\ get plan "dimensions" (JList []) = Ok requested_dimensions
    /\ iter requested_dimensions = Ok dimension_items
    /\ validate_dimensions dimensions_order dimension_items [] = Ok dimensions
    /\ clauses plan = Ok filter_items
    /\ validated
       = JDict [("metrics",
                 JList (map JStr match metrics with
                                 | [] => ["screenPageViews"]
                                 | _ :: _ => metrics
                                 end));
                ("dimensions", JList (map JStr dimensions));
                ("date_range", date_range);
                ("filters", JList (filter exact_or_mapped filter_items));
                ("order_by", order_by)].
Proof.
  unfold _validate_plan. intros H.
  bind_inv H. rename a into date_range.
  bind_inv H. rename a into order_by.
  bind_inv H. rename a into requested_metrics, Hstep1 into Hm.
  bind_inv H. rename a into metric_items, Hstep1 into Hmi.
  bind_inv H. rename a into metrics, Hstep1 into Hmv.
  bind_inv H. rename a into requested_dimensions, Hstep1 into Hd.
  bind_inv H. rename a into dimension_items, Hstep1 into Hdi.
  bind_inv H. rename a into dimensions, Hstep1 into Hdv.
  bind_inv H. rename a into requested_filters, Hstep1 into Hf.
  bind_inv H. rename a into filter_items, Hstep1 into Hfi.
  bind_inv H. rename a into filters, Hstep1 into Hfv.
  apply validate_filters_filter in Hfv. simpl in Hfv. subst filters.
  injection H as <-.
  exists date_range, order_by, requested_metrics, metric_items, metrics,
    requested_dimensions, dimension_items, dimensions, filter_items.
  repeat split; auto.
  unfold clauses. now rewrite Hf.
Qed.

(** On a plan of the shape the planning prompt asks for, validation
    returns. *)
Lemma validate_metrics_total (names validated : list string) :
  exists out,
    validate_metrics metrics_order (map JStr names) validated = Ok out.
Proof.
  revert validated.
  induction names as [|m names IH]; cbn [map validate_metrics]; intros validated.
  - now exists validated.
  - unfold resolve_metric.
    destruct (lookup (lower m) METRIC_MAPPINGS);
      [|destruct (mem m VALID_METRICS)]; cbn [bind]; apply IH.
Qed.

Lemma validate_dimensions_total (names validated : list string) :
  exists out,
    validate_dimensions dimensions_order (map JStr names) validated = Ok out.
Proof.
  revert validated.
  induction names as [|d names IH]; cbn [map validate_dimensions]; intros validated.
  - now exists validated.
  - unfold resolve_dimension.
    destruct (lookup (lower d) DIMENSION_MAPPINGS);
      [|destruct (mem d VALID_DIMENSIONS)]; cbn [bind]; apply IH.
Qed.

Lemma validate_filters_total (items validated : list json) :
  Forall well_formed_clause items ->
  exists out, validate_filters items validated = Ok out.
Proof.
  intros H. revert validated.
  induction H as [|clause items (kvs & -> & Hdim) _ IH];
    cbn [validate_filters]; intros validated.
  - now exists validated.
  - unfold filter_kept, get.
    destruct Hdim as [->|[d ->]]; cbn [bind]; apply IH.
Qed.

Lemma validate_plan_total (kvs : list (string * json))
    (metric_names dimension_names : list string) (items : list json) :
  names_of (match lookup "metrics" kvs with Some v => v | None => JList [] end)
           metric_names ->
  names_of (match lookup "dimensions" kvs with Some v => v | None => JList [] end)
           dimension_names ->
  match lookup "filters" kvs with Some v => v | None => JList [] end
  = JList items ->
  Forall well_formed_clause items ->
  exists validated,
    _validate_plan metrics_order dimensions_order (JDict kvs) = Ok validated.
Proof.
  unfold names_of, _validate_plan, get. intros -> -> -> Hwf. cbn [bind iter].
  destruct (validate_metrics_total metric_names []) as [ms ->].
  destruct (validate_dimensions_total dimension_names []) as [ds ->].
  destruct (validate_filters_total items [] Hwf) as [fs ->].
  cbn [bind]. eexists. reflexivity.
Qed.

(** C7: a metric name that is a member of the canonical metrics allowlist
    resolves to itself, and when the plan asks for it the validated plan
    lists it, unchanged; likewise for a dimension name of the canonical
    dimensions allowlist. *)
Theorem canonical_names_are_kept (plan validated : json) :
  _validate_plan metrics_order dimensions_order plan = Ok validated ->
  (forall m, In m VALID_METRICS ->
     resolve_metric metrics_order (JStr m) = Ok (Some m)
     /\ (requested plan "metrics" m -> listed validated "metrics" m))
  /\ (forall d, In d VALID_DIMENSIONS ->
        resolve_dimension dimensions_order (JStr d) = Ok (Some d)
        /\ (requested plan "dimensions" d -> listed validated "dimensions" d)).
Proof.
  intros H. apply validate_plan_inv in H
    as (date_range & order_by & rm & mi & ms & rd & di & ds & fi
        & Hm & Hmi & Hmv & Hd & Hdi & Hdv & _ & ->).
  split.
  - intros m Hin. split; [apply resolve_metric_canonical, Hin|].
    intros (v & items & Hv & Hit & Hreq).
    rewrite Hm in Hv. injection Hv as <-. rewrite Hmi in Hit. injection Hit as <-.
    pose proof (validate_metrics_canonical _ _ _ m Hmv Hreq Hin) as Hout.
    eexists. split; [reflexivity|]. apply in_map.
    destruct ms; [contradiction | exact Hout].
  - intros d Hin. split; [apply resolve_dimension_canonical, Hin|].
    intros (v & items & Hv & Hit & Hreq).
    rewrite Hd in Hv. injection Hv as <-. rewrite Hdi in Hit. injection Hit as <-.
    pose proof (validate_dimensions_canonical _ _ _ d Hdv Hreq Hin) as Hout.
    eexists. split; [reflexivity|]. now apply in_map.
Qed.

(** C3, as amended: the validator keeps a filter clause if and only if
    its dimension field is a member of the canonical dimensions allowlist
    or its lower-cased form is a key of the mapping table (the first two
    tiers); the kept clauses keep their order, and a clause whose field
    resolves at the fuzzy tier only is dropped. *)
Theorem filters_kept_by_two_tiers (plan validated : json) :
  _validate_plan metrics_order dimensions_order plan = Ok validated ->
  exists items kept,
    clauses plan = Ok items
    /\ get validated "filters" JNull = Ok (JList kept)
    /\ kept = filter exact_or_mapped items
    /\ (forall clause d,
          In clause items ->
          get clause "dimension" (JStr EmptyString) = Ok (JStr d) ->
          (In clause kept <->
             In d VALID_DIMENSIONS
             \/ exists api, lookup (lower d) DIMENSION_MAPPINGS = Some api)
          /\ (~ In d VALID_DIMENSIONS ->
              lookup (lower d) DIMENSION_MAPPINGS = None ->
              forall close,
                _find_closest_dimension dimensions_order d = Some close ->
                ~ In clause kept)).
Proof.
  intros H. apply validate_plan_inv in H
    as (date_range & order_by & rm & mi & ms & rd & di & ds & items
        & _ & _ & _ & _ & _ & _ & Hc & ->).
  exists items, (filter exact_or_mapped items).
  split; [exact Hc|]. split; [reflexivity|]. split; [reflexivity|].
  intros clause d Hin Hget.
  assert (exact_or_mapped clause = true <->
          In d VALID_DIMENSIONS
          \/ exists api, lookup (lower d) DIMENSION_MAPPINGS = Some api) as Hiff.
  { unfold exact_or_mapped, get in *. destruct clause; try discriminate.
    destruct (lookup "dimension" kvs) as [dim|].
    - injection Hget as ->. rewrite orb_true_iff, mem_In. unfold has_key.
      destruct (lookup (lower d) DIMENSION_MAPPINGS) as [api|].
      + split; intros _; right; [now exists api | reflexivity].
      + split; intros [Hl|Hr]; auto; [discriminate | now destruct Hr].
    - injection Hget as <-. split; [discriminate|].
      intros [Hv|[api Hl]]; [|discriminate].
      exfalso. revert Hv. unfold VALID_DIMENSIONS. simpl.
      intros Hv. repeat (destruct Hv as [Hv|Hv]; [discriminate|]). exact Hv. }
  split.
  - rewrite filter_In, Hiff. tauto.
  - intros Hnv Hnm close _ Hk. apply filter_In in Hk as [_ Hk].
    apply Hiff in Hk as [Hv|[api Hl]]; [now apply Hnv | congruence].
Qed.

End ValidationFacts.

Lemma canonical_names_are_kept_witness :
  Analytics._validate_plan Analytics.VALID_METRICS Analytics.VALID_DIMENSIONS
    Plans.report_plan = Ok Plans.report_plan_validated
  /\ ((forall m, In m Analytics.VALID_METRICS ->
         Analytics.resolve_metric Analytics.VALID_METRICS (JStr m) = Ok (Some m)
         /\ (requested Plans.report_plan "metrics" m ->
             listed Plans.report_plan_validated "metrics" m))
      /\ (forall d, In d Analytics.VALID_DIMENSIONS ->
            Analytics.resolve_dimension Analytics.VALID_DIMENSIONS (JStr d)
            = Ok (Some d)
            /\ (requested Plans.report_plan "dimensions" d ->
                listed Plans.report_plan_validated "dimensions" d))).
Proof.
  split; [reflexivity|].
  exact (canonical_names_are_kept Analytics.VALID_METRICS
           Analytics.VALID_DIMENSIONS Plans.report_plan
           Plans.report_plan_validated eq_refl).
Defined.

(** C3, the claim as written fails: the field [pagepath] resolves through
    the three-tier match (at the fuzzy tier, to [pagePath]), and the
    validator drops the clause that carries it. *)
Lemma fuzzy_only_filter_is_dropped :
  Analytics.resolve_dimension Analytics.VALID_DIMENSIONS (JStr "pagepath")
  = Ok (Some "pagePath")
  /\ clauses Plans.fuzzy_filter_plan = Ok [Plans.pricing_clause "pagepath"]
  /\ Analytics._validate_plan Analytics.VALID_METRICS
       Analytics.VALID_DIMENSIONS Plans.fuzzy_filter_plan
     = Ok Plans.fuzzy_filter_plan_validated.
Proof. repeat split; vm_compute; reflexivity. Qed.

(** The fuzzy tier resolves [pagepath] to [pagePath] in whatever order
    the set of dimensions is visited. *)
Lemma pagepath_resolves_in_any_order (dimensions_order : list string) :
  Permutation dimensions_order Analytics.VALID_DIMENSIONS ->
  Analytics.resolve_dimension dimensions_order (JStr "pagepath")
  = Ok (Some "pagePath").
Proof.
  intros Hperm. unfold Analytics.resolve_dimension.
  change (lookup (lower "pagepath") Analytics.DIMENSION_MAPPINGS)
    with (@None string).
  change (mem "pagepath" Analytics.VALID_DIMENSIONS) with false.
  cbv iota. unfold Analytics._find_closest_dimension.
  destruct (List.find _ dimensions_order) as [close|] eqn:E.
  - apply find_some in E as [Hin Hclose].
    apply (Permutation_in _ Hperm) in Hin.
    unfold Analytics.VALID_DIMENSIONS in Hin. simpl in Hin.
    repeat (destruct Hin as [<-|Hin];
            [first [reflexivity | discriminate Hclose]|]).
    contradiction.
  - assert (In "pagePath" dimensions_order) as Hin.
    { apply (Permutation_in _ (Permutation_sym Hperm)).
      unfold Analytics.VALID_DIMENSIONS. simpl. tauto. }
    apply (find_none _ _ E) in Hin. discriminate Hin.
Qed.

Lemma filters_kept_by_two_tiers_witness :
  Analytics._validate_plan Analytics.VALID_METRICS Analytics.VALID_DIMENSIONS
    Plans.report_plan = Ok Plans.report_plan_validated
  /\ exists items kept,
       clauses Plans.report_plan = Ok items
       /\ get Plans.report_plan_validated "filters" JNull = Ok (JList kept)
       /\ kept = filter exact_or_mapped items
       /\ (forall clause d,
             In clause items ->
             get clause "dimension" (JStr EmptyString) = Ok (JStr d) ->
             (In clause kept <->
                In d Analytics.VALID_DIMENSIONS
                \/ exists api,
                     lookup (lower d) Analytics.DIMENSION_MAPPINGS = Some api)
             /\ (~ In d Analytics.VALID_DIMENSIONS ->
                 lookup (lower d) Analytics.DIMENSION_MAPPINGS = None ->
                 forall close,
                   Analytics._find_closest_dimension
                     Analytics.VALID_DIMENSIONS d = Some close ->
                   ~ In clause kept)).
Proof.
  split; [reflexivity|].
  exact (filters_kept_by_two_tiers Analytics.VALID_METRICS
           Analytics.VALID_DIMENSIONS Plans.report_plan
           Plans.report_plan_validated eq_refl).
Defined.

(* ================================================================== *)
(** ** The report request *)
(* ================================================================== *)

Section ExecutionFacts.

Import Analytics.

Variable datetime : Type.
Variable now : datetime.
Variable minus_days : datetime -> json -> result datetime.
Variable fromisoformat : json -> result datetime.
Variable strftime : datetime -> string.
Variable _get_client : result unit.
Variable run_report : RunReportRequest -> result RunReportResponse.

Local Abbreviation prepare' :=
  (prepare datetime now minus_days fromisoformat strftime _get_client).
Local Abbreviation _execute_query' :=
  (_execute_query datetime now minus_days fromisoformat strftime _get_client
     run_report).

Lemma prepare_inv (property_id : string) (plan : json)
    (request : RunReportRequest) (dates : datetime * datetime) :
  prepare' property_id plan = Ok (request, dates) ->
  limit request = 1000
  /\ build_filter plan = Ok (dimension_filter request).
Proof.
  unfold prepare. intros H.
  do 7 bind_inv H. injection H as <- <-. simpl. auto.
Qed.

Lemma execute_query_sent (property_id : string) (plan : json)
    (request : RunReportRequest) :
  In request (fst (_execute_query' property_id plan)) ->
  exists dates, prepare' property_id plan = Ok (request, dates).
Proof.
  unfold _execute_query.
  destruct (prepare' property_id plan) as [[r dates]|e]; simpl.
  - intros [<-|[]]. now exists dates.
  - intros [].
Qed.

(** A request goes out exactly when the client and the dates are there and
    the plan is well formed; then it is the only one. *)
Lemma execute_query_sends_at_most_one (property_id : string) (plan : json) :
  (length (fst (_execute_query' property_id plan)) <= 1)%nat.
Proof.
  unfold _execute_query.
  destruct (prepare' property_id plan) as [[r dates]|e]; simpl; lia.
Qed.

(** C9: every request [_execute_query] hands to the report provider has
    the row limit 1000, whatever the plan holds. *)
Theorem report_request_limit_is_1000 (property_id : string) (plan : json)
    (request : RunReportRequest) :
  In request (fst (_execute_query' property_id plan)) ->
  limit request = 1000.
Proof.
  intros H. apply execute_query_sent in H as [dates H].
  now apply prepare_inv in H.
Qed.

Variable metrics_order : list string.
Variable dimensions_order : list string.

Lemma exact_or_mapped_translate (clause : json) :
  exact_or_mapped clause = true ->
  exists d v,
    get clause "dimension" (JStr "pagePath") = Ok (JStr d)
    /\ get clause "value" (JStr EmptyString) = Ok v
    /\ translate_filter clause
       = Ok {| field_name := match lookup (lower d) DIMENSION_MAPPINGS with
                             | Some api_dim => api_dim
                             | None => d
                             end;
               match_type := CONTAINS;
               value := v |}.
Proof.
  unfold exact_or_mapped, translate_filter. destruct clause; try discriminate.
  unfold get. destruct (lookup "dimension" kvs) as [dim|]; [|discriminate].
  destruct dim; try discriminate. intros _.
  exists s. eexists. repeat split.
Qed.

(** C8: for a validated plan, a request handed to the report provider
    carries no filter when the plan has no filter clause, and otherwise
    exactly one: the translation of the first clause (the field mapped to
    its canonical name when the mapping table has it, a [CONTAINS] match
    on the value of the clause), whatever clauses follow. *)
Theorem report_request_uses_first_filter (property_id : string)
    (raw plan : json) (request : RunReportRequest) :
  _validate_plan metrics_order dimensions_order raw = Ok plan ->
  In request (fst (_execute_query' property_id plan)) ->
  exists kept,
    get plan "filters" JNull = Ok (JList kept)
    /\ match kept with
       | [] => dimension_filter request = None
       | first :: _ =>
           exists d v,
             get first "dimension" (JStr "pagePath") = Ok (JStr d)
             /\ get first "value" (JStr EmptyString) = Ok v
             /\ translate_filter first
                = Ok {| field_name :=
                          match lookup (lower d) DIMENSION_MAPPINGS with
                          | Some api_dim => api_dim
                          | None => d
                          end;
                        match_type := CONTAINS;
                        value := v |}
             /\ dimension_filter request
                = Some {| field_name :=
                            match lookup (lower d) DIMENSION_MAPPINGS with
                            | Some api_dim => api_dim
                            | None => d
                            end;
                          match_type := CONTAINS;
                          value := v |}
       end.
Proof.
  intros Hv Hsent.
  apply validate_plan_inv in Hv
    as (date_range & order_by & rm & mi & ms & rd & di & ds & items
        & _ & _ & _ & _ & _ & _ & _ & ->).
  apply execute_query_sent in Hsent as [dates Hp].
  apply prepare_inv in Hp as [_ Hb].
  exists (filter exact_or_mapped items). split; [reflexivity|].
  unfold build_filter in Hb. cbn [get lookup String.eqb Ascii.eqb Bool.eqb bind] in Hb.
  destruct (filter exact_or_mapped items) as [|first rest] eqn:E.
  - cbn in Hb. now injection Hb as <-.
  - assert (exact_or_mapped first = true) as Hk.
    { assert (In first (filter exact_or_mapped items)) as Hin
          by (rewrite E; now left).
      now apply filter_In in Hin. }
    destruct (exact_or_mapped_translate first Hk) as (d & v & Hd & Hval & Ht).
    exists d, v. repeat split; auto.
    cbn [truthy first_item bind] in Hb. rewrite Ht in Hb. cbn [bind] in Hb.
    now injection Hb as <-.
Qed.

End ExecutionFacts.

Lemma report_request_limit_is_1000_witness :
  In Plans.report_request
     (fst (Fixtures._execute_query_january "123456" Plans.report_plan_validated))
  /\ Analytics.limit Plans.report_request = 1000.
Proof.
  assert (In Plans.report_request
            (fst (Fixtures._execute_query_january "123456"
                    Plans.report_plan_validated))) as H
      by (vm_compute; left; reflexivity).
  split; [exact H|].
  exact (report_request_limit_is_1000 Z Fixtures.january_now
           Fixtures.january_minus_days Fixtures.january_fromisoformat
           Fixtures.january_strftime (Ok tt)
           (fun _ => Ok Fixtures.empty_report)
           "123456" Plans.report_plan_validated Plans.report_request H).
Defined.

Lemma report_request_uses_first_filter_witness :
  Analytics._validate_plan Analytics.VALID_METRICS Analytics.VALID_DIMENSIONS
    Plans.report_plan = Ok Plans.report_plan_validated
  /\ In Plans.report_request
        (fst (Fixtures._execute_query_january "123456"
                Plans.report_plan_validated))
  /\ exists kept,
       get Plans.report_plan_validated "filters" JNull = Ok (JList kept)
       /\ match kept with
          | [] => Analytics.dimension_filter Plans.report_request = None
          | first :: _ =>
              exists d v,
                get first "dimension" (JStr "pagePath") = Ok (JStr d)
                /\ get first "value" (JStr EmptyString) = Ok v
                /\ Analytics.translate_filter first
                   = Ok {| Analytics.field_name :=
                             match lookup (lower d) Analytics.DIMENSION_MAPPINGS with
                             | Some api_dim => api_dim
                             | None => d
                             end;
                           Analytics.match_type := Analytics.CONTAINS;
                           Analytics.value := v |}
                /\ Analytics.dimension_filter Plans.report_request
                   = Some {| Analytics.field_name :=
                               match lookup (lower d) Analytics.DIMENSION_MAPPINGS with
                               | Some api_dim => api_dim
                               | None => d
                               end;
                             Analytics.match_type := Analytics.CONTAINS;
                             Analytics.value := v |}
          end.
Proof.
  assert (In Plans.report_request
            (fst (Fixtures._execute_query_january "123456"
                    Plans.report_plan_validated))) as H
      by (vm_compute; left; reflexivity).
  split; [reflexivity|]. split; [exact H|].
  exact (report_request_uses_first_filter Z Fixtures.january_now
           Fixtures.january_minus_days Fixtures.january_fromisoformat
           Fixtures.january_strftime (Ok tt)
           (fun _ => Ok Fixtures.empty_report)
           Analytics.VALID_METRICS Analytics.VALID_DIMENSIONS
           "123456" Plans.report_plan Plans.report_plan_validated
           Plans.report_request eq_refl H).
Defined.

(* ================================================================== *)
(** ** The tabular executor *)
(* ================================================================== *)

Lemma is_empty_cell_blank (c : SEO.cell) : SEO.is_empty_cell c = blank c.
Proof.
  destruct c as [s|]; [|reflexivity]. unfold SEO.is_empty_cell. simpl.
  apply eq_true_iff_eq. now rewrite String.eqb_eq, strip_empty.
Qed.

Lemma not_empty_cell_blank (c : SEO.cell) :
  SEO.not_empty_cell c = negb (blank c).
Proof.
  rewrite <- is_empty_cell_blank. unfold SEO.not_empty_cell, SEO.is_empty_cell.
  now rewrite negb_orb.
Qed.


Section ExecutorFacts.

Import SEO.

Variable pandas_filter :
  library_test -> DataFrame -> string -> json -> result DataFrame.

Lemma apply_filter_by_cell (df result_df : DataFrame) (filter_item search : json)
    (column operator : string) (i : nat) :
  get filter_item "column" (JStr EmptyString) = Ok search ->
  get filter_item "operator" (JStr "equals") = Ok (JStr operator) ->
  _find_column df search = Ok (Some column) ->
  positions column (columns result_df) 0 = [i] ->
  (operator = "is_empty" ->
   apply_filter pandas_filter df result_df filter_item
   = Ok (rows_where is_empty_cell i result_df))
  /\ (operator = "not_empty" ->
      apply_filter pandas_filter df result_df filter_item
      = Ok (rows_where not_empty_cell i result_df)).
Proof.
  intros Hcol Hop Hfind Hpos. unfold apply_filter.
  rewrite Hcol. cbn [bind]. rewrite Hfind. cbn [bind]. rewrite Hop. cbn [bind].
  destruct (get_dict _ _ _ _ Hcol) as [kvs ->]. unfold get at 1. cbn [bind].
  rewrite Hpos. split; intros ->; reflexivity.
Qed.


Lemma grouping_type (df result_df : DataFrame) (plan r : json) :
  grouping df result_df plan = Ok (Some r) ->
  get r "type" JNull = Ok (JStr "grouped").
Proof.
  unfold grouping. intros H. bind_inv H.
  destruct (truthy a); [|discriminate].
  bind_inv H. destruct a0 as [g|]; [|discriminate].
  destruct (str_truthy g); [|discriminate].
  bind_inv H.
  destruct (eq_str a0 "count"); [|destruct (eq_str a0 "sum"); [|discriminate]];
    bind_inv H; injection H as <-.
  - unfold grouped_count in Hstep2. bind_inv Hstep2.
    destruct (String.eqb g "count"); [discriminate|].
    now injection Hstep2 as <-.
  - unfold grouped_sum in Hstep2. bind_inv Hstep2.
    now injection Hstep2 as <-.
Qed.

Lemma head_records (df df' : DataFrame) (n : Z) :
  0 <= n ->
  head df (JInt n) = Ok df' ->
  to_records df' = firstn (Z.to_nat n) (to_records df)
  /\ columns df' = columns df.
Proof.
  intros Hn. unfold head. destruct (Z.leb_spec 0 n); [|lia].
  intros [= <-]. unfold to_records. simpl. now rewrite firstn_map.
Qed.

(** C2, as amended: when the executor returns a list result for a plan
    whose row limit is an integer [n >= 0], the returned data has at most
    [n] rows, and they are the first [n] records of the table obtained by
    applying all the filter clauses and then the column selection: the
    limit comes last.  (A grouped result is returned whole.) *)
Theorem list_result_respects_limit (df : DataFrame) (plan out : json) (n : Z) :
  get plan "limit" (JInt 100) = Ok (JInt n) ->
  0 <= n ->
  _execute_analysis pandas_filter df plan = Ok out ->
  get out "type" JNull = Ok (JStr "list") ->
  exists items filtered selected returned,
    clauses plan = Ok items
    /\ apply_filters pandas_filter df df items = Ok filtered
    /\ selection df filtered plan = Ok selected
    /\ get out "data" JNull = Ok (JList returned)
    /\ returned = firstn (Z.to_nat n) (to_records selected)
    /\ (length returned <= Z.to_nat n)%nat.
Proof.
  intros Hlimit Hn Hrun Htype. unfold _execute_analysis in Hrun.
  bind_inv Hrun. rename a into requested_filters, Hstep into Hf.
  bind_inv Hrun. rename a into items, Hstep into Hi.
  bind_inv Hrun. rename a into filtered, Hstep into Hfs.
  bind_inv Hrun. rename a into grouped, Hstep into Hg.
  destruct grouped as [r|].
  - injection Hrun as <-. apply grouping_type in Hg. congruence.
  - bind_inv Hrun. rename a into selected, Hstep into Hs.
    unfold listing in Hrun. rewrite Hlimit in Hrun. cbn [bind] in Hrun.
    bind_inv Hrun. rename a into limited, Hstep into Hh.
    destruct (head_records _ _ _ Hn Hh) as [Hrec _].
    injection Hrun as <-.
    exists items, filtered, selected, (firstn (Z.to_nat n) (to_records selected)).
    repeat split; auto.
    + unfold clauses. now rewrite Hf.
    + cbn. now rewrite Hrec.
    + apply firstn_le_length.
Qed.

(** Without a group-by field the result is a list result. *)
Lemma no_grouping_gives_list (df : DataFrame) (plan out group_by : json) :
  get plan "group_by" JNull = Ok group_by ->
  truthy group_by = false ->
  _execute_analysis pandas_filter df plan = Ok out ->
  get out "type" JNull = Ok (JStr "list").
Proof.
  intros Hg Ht Hrun. unfold _execute_analysis in Hrun.
  do 3 bind_inv Hrun. unfold grouping in Hrun. rewrite Hg in Hrun.
  cbn [bind] in Hrun. rewrite Ht in Hrun. cbn [bind] in Hrun.
  bind_inv Hrun. unfold listing in Hrun. do 2 bind_inv Hrun.
  now injection Hrun as <-.
Qed.

End ExecutorFacts.

(** C2, the claim as written fails: with a row limit of one, grouping the
    audit table by indexability returns two rows. *)
Lemma grouped_result_exceeds_limit :
  get Plans.grouped_plan "limit" (JInt 100) = Ok (JInt 1)
  /\ SEO._execute_analysis Fixtures.no_library Fixtures.audit Plans.grouped_plan
     = Ok (JDict [("type", JStr "grouped");
                  ("data",
                   JList [JDict [("Indexability", JStr "Indexable");
                                 ("count", JInt 2)];
                          JDict [("Indexability", JStr "Non-Indexable");
                                 ("count", JInt 1)]]);
                  ("total_groups", JInt 2)]).
Proof. split; vm_compute; reflexivity. Qed.

(** A negative limit is a count from the end: [head(-1)] drops the last
    row, so the bound of C2 is stated for limits that are not negative. *)
Lemma negative_limit_drops_the_last_row :
  SEO.head Fixtures.audit (JInt (-1))
  = Ok {| SEO.columns := SEO.columns Fixtures.audit;
          SEO.rows := firstn 2 (SEO.rows Fixtures.audit) |}.
Proof. reflexivity. Qed.

Lemma list_result_respects_limit_witness :
  get Plans.blank_titles_plan "limit" (JInt 100) = Ok (JInt 1)
  /\ 0 <= 1
  /\ SEO._execute_analysis Fixtures.no_library Fixtures.audit
       Plans.blank_titles_plan = Ok Plans.blank_titles_result
  /\ get Plans.blank_titles_result "type" JNull = Ok (JStr "list")
  /\ exists items filtered selected returned,
       clauses Plans.blank_titles_plan = Ok items
       /\ SEO.apply_filters Fixtures.no_library Fixtures.audit Fixtures.audit
            items = Ok filtered
       /\ SEO.selection Fixtures.audit filtered Plans.blank_titles_plan
          = Ok selected
       /\ get Plans.blank_titles_result "data" JNull = Ok (JList returned)
       /\ returned = firstn (Z.to_nat 1) (SEO.to_records selected)
       /\ (length returned <= Z.to_nat 1)%nat.
Proof.
  split; [reflexivity|]. split; [lia|]. split; [reflexivity|].
  split; [reflexivity|].
  exact (list_result_respects_limit Fixtures.no_library Fixtures.audit
           Plans.blank_titles_plan Plans.blank_titles_result 1
           eq_refl ltac:(lia) eq_refl eq_refl).
Defined.


(* ================================================================== *)
(** ** The cached table *)
(* ================================================================== *)

Section CacheFacts.

Import SEO.

Variable json_loads : string -> result json.
Variable pandas_filter :
  library_test -> DataFrame -> string -> json -> result DataFrame.
Variable parse_chat : list string -> string -> result string.
Variable json_dumps : json -> string.
Variable summary_chat : string -> json -> json -> Z -> result string.

(** A table older than the time to live is not served from the cache. *)
Lemma expired_cache_is_not_served (self : Cache) (current_time stamp : float) :
  _cache_timestamp self = Some stamp ->
  PrimFloat.ltb (PrimFloat.sub current_time stamp) _cache_ttl = false ->
  cached self current_time = None.
Proof.
  intros Hs Hexp. unfold cached. rewrite Hs.
  destruct (_data_cache self); [|reflexivity].
  now rewrite Hexp, andb_false_r.
Qed.

(** Whatever the fetch does, a table served from the cache leaves the
    attributes as they were. *)
Lemma load_data_failure_keeps_cache (self : Cache) (current_time : float)
    (e : exn) :
  snd (_load_data self current_time (Raise e)) = self.
Proof.
  unfold _load_data. now destruct (cached self current_time).
Qed.

(** A table the cache still answers for is returned without looking at
    the fetch. *)
Lemma load_data_hit (self : Cache) (current_time : float) (df : DataFrame)
    (fetch : result (list (list string))) :
  cached self current_time = Some df ->
  _load_data self current_time fetch = (Some df, self).
Proof. intros H. unfold _load_data. now rewrite H. Qed.

(** Whenever the loader returns no table, for whatever reason, it leaves
    the attributes as they were. *)
Lemma load_data_none_keeps_cache (self : Cache) (current_time : float)
    (fetch : result (list (list string))) :
  fst (_load_data self current_time fetch) = None ->
  snd (_load_data self current_time fetch) = self.
Proof.
  unfold _load_data. destruct (cached self current_time); [discriminate|].
  destruct fetch as [[|headers data]|e]; auto.
  destruct (DataFrame_of data headers); [discriminate | auto].
Qed.

(** C10: if the cache does not answer (no table yet, or the time to live
    has run out) and fetching the sheet raises, [_load_data] returns no
    table and leaves the cached table and its timestamp as they were, and
    [process] answers with the load failure instead of the stale table. *)
Theorem failed_refresh_is_a_failure (self : Cache) (current_time : float)
    (e : exn) (query : string) :
  cached self current_time = None ->
  _load_data self current_time (Raise e) = (None, self)
  /\ process json_loads pandas_filter parse_chat json_dumps summary_chat
       self current_time (Raise e) query
     = ({| success := false; data := JNull; message := EmptyString;
           agent_name := "seo";
           error := Some "Failed to load SEO data from spreadsheet" |},
        self).
Proof.
  intros Hc.
  assert (_load_data self current_time (Raise e) = (None, self)) as Hl
      by (unfold _load_data; now rewrite Hc).
  split; [exact Hl|]. unfold process. now rewrite Hl.
Qed.

End CacheFacts.

(** The first load of the audit sheet: the labels are stripped, the short
    row is padded, and the table is cached with the time of the load. *)
Lemma first_load_fills_the_cache :
  SEO._load_data Sheets.empty_cache 1000%float Sheets.audit_sheet
  = (Some Fixtures.audit,
     {| SEO._data_cache := Some Fixtures.audit;
        SEO._cache_timestamp := Some 1000%float |}).
Proof. reflexivity. Qed.

Lemma failed_refresh_is_a_failure_witness :
  let stale :=
    {| SEO._data_cache := Some Fixtures.audit;
       SEO._cache_timestamp := Some 1000%float |} in
  let e := Exn RuntimeError "The caller does not have permission" in
  SEO.cached stale 1400%float = None
  /\ SEO._load_data stale 1400%float (Raise e) = (None, stale)
  /\ SEO.process JsonDecoder.loads Fixtures.no_library
       (fun _ _ => Ok EmptyString) (fun _ => EmptyString)
       (fun _ _ _ _ => Ok EmptyString)
       stale 1400%float (Raise e) "Which URLs lack HTTPS?"
     = ({| success := false; data := JNull; message := EmptyString;
           agent_name := "seo";
           error := Some "Failed to load SEO data from spreadsheet" |},
        stale).
Proof.
  intros stale e.
  assert (SEO.cached stale 1400%float = None) as H
      by (vm_compute; reflexivity).
  split; [exact H|].
  exact (failed_refresh_is_a_failure JsonDecoder.loads Fixtures.no_library
           (fun _ _ => Ok EmptyString) (fun _ => EmptyString)
           (fun _ _ _ _ => Ok EmptyString)
           stale 1400%float e "Which URLs lack HTTPS?" H).
Defined.

(* ================================================================== *)
(** ** Dictionaries and the span of a reply *)
(* ================================================================== *)

Lemma lookup_dict_set_same {V : Type} (k : string) (v : V)
    (d : list (string * V)) :
  lookup k (dict_set k v d) = Some v.
Proof.
  induction d as [|[k' v'] d IH]; simpl.
  - now rewrite String.eqb_refl.
  - destruct (String.eqb k k') eqn:E; simpl; rewrite ?String.eqb_refl, ?E; auto.
Qed.

Lemma lookup_dict_set_other {V : Type} (k k' : string) (v : V)
    (d : list (string * V)) :
  k' <> k -> lookup k' (dict_set k v d) = lookup k' d.
Proof.
  intros Hne. induction d as [|[k0 v0] d IH]; simpl.
  - apply String.eqb_neq in Hne. now rewrite Hne.
  - destruct (String.eqb k k0) eqn:E; simpl.
    + apply String.eqb_eq in E. subst k0.
      apply String.eqb_neq in Hne. now rewrite Hne.
    + destruct (String.eqb k' k0); auto.
Qed.

Lemma lookup_app {V : Type} (k : string) (a b : list (string * V)) :
  lookup k (a ++ b)
  = match lookup k a with Some v => Some v | None => lookup k b end.
Proof.
  induction a as [|[k' v'] a IH]; simpl; auto.
  now destruct (String.eqb k k').
Qed.

Lemma lookup_fold_dict_set {V : Type} (k : string)
    (pairs d : list (string * V)) :
  lookup k (fold_left (fun d kv => dict_set (fst kv) (snd kv) d) pairs d)
  = match last_binding k pairs with
    | Some v => Some v
    | None => lookup k d
    end.
Proof.
  unfold last_binding. revert d.
  induction pairs as [|[k' v'] pairs IH]; intros d; simpl; auto.
  rewrite IH, lookup_app. destruct (lookup k (rev pairs)); auto.
  simpl. destruct (String.eqb k k') eqn:E.
  - apply String.eqb_eq in E. subst. apply lookup_dict_set_same.
  - apply lookup_dict_set_other. now apply String.eqb_neq.
Qed.

(** Reading a dictionary built from pairs gives the last value bound to
    the key. *)
Lemma lookup_dict_of {V : Type} (k : string) (pairs : list (string * V)) :
  lookup k (dict_of pairs) = last_binding k pairs.
Proof.
  unfold dict_of. rewrite lookup_fold_dict_set.
  now destruct (last_binding k pairs).
Qed.

Lemma lookup_In {V : Type} (k : string) (v : V) (pairs : list (string * V)) :
  lookup k pairs = Some v -> In (k, v) pairs.
Proof.
  induction pairs as [|[k' v'] pairs IH]; simpl; [discriminate|].
  destruct (String.eqb k k') eqn:E.
  - apply String.eqb_eq in E. intros [= ->]. subst. now left.
  - intros H. right. now apply IH.
Qed.

Lemma In_lookup {V : Type} (k : string) (v : V) (pairs : list (string * V)) :
  In (k, v) pairs -> exists v', lookup k pairs = Some v'.
Proof.
  induction pairs as [|[k' v'] pairs IH]; simpl; [contradiction|].
  intros [[= -> ->]|H].
  - rewrite String.eqb_refl. now exists v.
  - destruct (String.eqb k k'); [now exists v' | now apply IH].
Qed.

(* ================================================================== *)
(** ** More on the orchestrator *)
(* ================================================================== *)

Section OrchestratorFacts.

Import Orchestrator.

Variable json_loads : string -> result json.
Variable fusion_chat : string -> json -> json -> json -> result string.
Variable router_chat : string -> result string.
Variable analytics_process : string -> string -> AgentResponse.
Variable seo_process : string -> AgentResponse.

Local Abbreviation process_query' :=
  (process_query json_loads fusion_chat router_chat analytics_process
     seo_process).

(** X1: whatever the classifier, the decoder, the handlers and the
    synthesis call do (raising included), [process_query] answers with a
    dictionary whose [success] entry is a boolean. *)
Theorem process_query_reply_has_success (query : string)
    (property_id : option string) :
  exists kvs b,
    process_query' query property_id = JDict kvs
    /\ lookup "success" kvs = Some (JBool b).
Proof.
  unfold process_query.
  destruct (router_chat query) as [response|e]; cbn [bind];
    [|now eexists; eexists].
  destruct (_detect_intent json_loads response query) as [intent|e];
    cbn [bind]; [|now eexists; eexists].
  destruct (truthy (requires_analytics intent));
    destruct (truthy (requires_seo intent));
    destruct (property_missing property_id); cbn -[_fuse_responses];
    try (now eexists; eexists).
  unfold _fuse_responses.
  destruct (collect_errors _); [|now eexists; eexists].
  destruct (fusion_chat _ _ _ _); cbn [bind]; now eexists; eexists.
Qed.

(** X2: when the reply of the classifier holds no decodable object, the
    query contains no SEO keyword and no property id is given, the query
    is refused with the propertyId error and no handler is consulted. *)
Theorem fallback_without_property_is_refused (query response : string)
    (property_id : option string) :
  router_chat query = Ok response ->
  no_decodable_object json_loads response ->
  (forall kw, In kw seo_keywords -> ~ occurs kw (lower query)) ->
  property_missing property_id = true ->
  process_query' query property_id
  = JDict [("success", JBool false);
           ("error", JStr "GA4 propertyId is required for analytics queries");
           ("intent", JDict [("requires_analytics", JBool true);
                             ("requires_seo", JBool false)])].
Proof.
  intros Hchat Hno Hseo Hmiss. unfold process_query.
  rewrite Hchat. cbn [bind].
  rewrite (detect_intent_fallback json_loads response query Hno). cbn [bind].
  apply any_in_none in Hseo. unfold keyword_intent.
  cbn [requires_analytics requires_seo truthy]. rewrite Hseo, Hmiss.
  rewrite orb_true_r. reflexivity.
Qed.

(** X3: on the keyword fallback the intent is marked cross-agent exactly
    when it asks for both handlers. *)
Theorem fallback_cross_agent_iff_both (response query : string) :
  no_decodable_object json_loads response ->
  exists intent,
    _detect_intent json_loads response query = Ok intent
    /\ (is_cross_agent intent = JBool true
        <-> requires_analytics intent = JBool true
            /\ requires_seo intent = JBool true).
Proof.
  intros Hno. exists (keyword_intent query).
  split; [now apply detect_intent_fallback|].
  unfold keyword_intent. cbn [is_cross_agent requires_analytics requires_seo].
  destruct (any_in analytics_keywords (lower query));
    destruct (any_in seo_keywords (lower query)); cbn; split;
    first [ discriminate
          | intros [H1 H2]; discriminate
          | intros _; repeat split ].
Qed.

Lemma partial_data_lookup (responses : list AgentResponse) (name : string)
    (d : json) :
  lookup name (partial_data responses) = Some d ->
  exists r, In r responses /\ success r = true
            /\ agent_name r = name /\ data r = d.
Proof.
  unfold partial_data. rewrite lookup_dict_of. unfold last_binding.
  intros H. apply lookup_In, in_rev, in_map_iff in H as (r & [= <- <-] & Hin).
  apply filter_In in Hin as [Hin Hs]. now exists r.
Qed.

Lemma partial_data_has (responses : list AgentResponse) (r : AgentResponse) :
  In r responses -> success r = true ->
  exists d, lookup (agent_name r) (partial_data responses) = Some d.
Proof.
  intros Hin Hs. unfold partial_data. rewrite lookup_dict_of.
  unfold last_binding. apply In_lookup with (v := data r).
  apply -> in_rev. apply in_map_iff. exists r. split; [reflexivity|].
  now apply filter_In.
Qed.

(** X4: when some result carries an error, the fused reply is a failure
    whose error joins the messages of the results that carry one, in
    order, and whose partial data has an entry for a name exactly when a
    successful result bears it, with the data of such a result: the data
    of a failed handler never gets in. *)
Theorem fused_failure_keeps_successful_data (query : string)
    (responses : list AgentResponse) (intent : QueryIntent) :
  collect_errors responses <> [] ->
  exists partial,
    _fuse_responses fusion_chat query responses intent
    = Ok (JDict [("success", JBool false);
                 ("error", JStr (String.concat "; " (collect_errors responses)));
                 ("partial_data", JDict partial)])
    /\ (forall name d,
          lookup name partial = Some d ->
          exists r, In r responses /\ success r = true
                    /\ agent_name r = name /\ data r = d)
    /\ (forall r, In r responses -> success r = true ->
                  exists d, lookup (agent_name r) partial = Some d).
Proof.
  intros Herr. exists (partial_data responses).
  split; [now apply fuse_responses_errors|].
  split; [apply partial_data_lookup | apply partial_data_has].
Qed.

(** X5: a fused reply says [success = True] exactly when no result
    carries an error; it then names every participating handler, in
    order. *)
Theorem fused_success_iff_no_error (query : string)
    (responses : list AgentResponse) (intent : QueryIntent) (reply : json) :
  _fuse_responses fusion_chat query responses intent = Ok reply ->
  (get reply "success" JNull = Ok (JBool true)
   <-> collect_errors responses = [])
  /\ (collect_errors responses = [] ->
      get reply "agents" JNull
      = Ok (JList (map (fun r => JStr (agent_name r)) responses))).
Proof.
  unfold _fuse_responses. destruct (collect_errors responses) as [|m ms].
  - intros H. bind_inv H. injection H as <-. split; [|reflexivity].
    split; reflexivity.
  - intros [= <-]. split; [|discriminate]. split; discriminate.
Qed.

End OrchestratorFacts.

Lemma fallback_without_property_is_refused_witness :
  no_decodable_object JsonDecoder.loads "Sorry, I cannot classify this."
  /\ (forall kw, In kw Orchestrator.seo_keywords ->
                 ~ occurs kw (lower "How many visitors came last week?"))
  /\ Orchestrator.process_query JsonDecoder.loads Fixtures.synthesis
       (fun _ => Ok "Sorry, I cannot classify this.")
       (fun _ _ => Fixtures.analytics_ok) (fun _ => Fixtures.seo_ok)
       "How many visitors came last week?" None
     = JDict [("success", JBool false);
              ("error", JStr "GA4 propertyId is required for analytics queries");
              ("intent", JDict [("requires_analytics", JBool true);
                                ("requires_seo", JBool false)])].
Proof.
  assert (no_decodable_object JsonDecoder.loads
            "Sorry, I cannot classify this.") as Hno
      by (vm_compute; exact I).
  assert (forall kw, In kw Orchestrator.seo_keywords ->
                     ~ occurs kw (lower "How many visitors came last week?"))
    as Hseo by (apply any_in_none; vm_compute; reflexivity).
  split; [exact Hno|]. split; [exact Hseo|].
  exact (fallback_without_property_is_refused JsonDecoder.loads
           Fixtures.synthesis (fun _ => Ok "Sorry, I cannot classify this.")
           (fun _ _ => Fixtures.analytics_ok) (fun _ => Fixtures.seo_ok)
           "How many visitors came last week?"
           "Sorry, I cannot classify this." None eq_refl Hno Hseo eq_refl).
Defined.

Lemma fallback_cross_agent_iff_both_witness :
  no_decodable_object JsonDecoder.loads "Sorry, I cannot classify this."
  /\ exists intent,
       Orchestrator._detect_intent JsonDecoder.loads
         "Sorry, I cannot classify this."
         "daily traffic of the urls without https" = Ok intent
       /\ (Orchestrator.is_cross_agent intent = JBool true
           <-> Orchestrator.requires_analytics intent = JBool true
               /\ Orchestrator.requires_seo intent = JBool true).
Proof.
  assert (no_decodable_object JsonDecoder.loads
            "Sorry, I cannot classify this.") as Hno
      by (vm_compute; exact I).
  split; [exact Hno|].
  exact (fallback_cross_agent_iff_both JsonDecoder.loads
           "Sorry, I cannot classify this."
           "daily traffic of the urls without https" Hno).
Defined.

Lemma fused_failure_keeps_successful_data_witness :
  Orchestrator.collect_errors [Fixtures.analytics_ok; Fixtures.seo_failed] <> []
  /\ exists partial,
       Orchestrator._fuse_responses Fixtures.synthesis
         "top pages with their title tags"
         [Fixtures.analytics_ok; Fixtures.seo_failed]
         (Orchestrator.keyword_intent "top pages with their title tags")
       = Ok (JDict [("success", JBool false);
                    ("error",
                     JStr (String.concat "; "
                             (Orchestrator.collect_errors
                                [Fixtures.analytics_ok; Fixtures.seo_failed])));
                    ("partial_data", JDict partial)])
       /\ (forall name d,
             lookup name partial = Some d ->
             exists r, In r [Fixtures.analytics_ok; Fixtures.seo_failed]
                       /\ success r = true
                       /\ agent_name r = name /\ data r = d)
       /\ (forall r, In r [Fixtures.analytics_ok; Fixtures.seo_failed] ->
                     success r = true ->
                     exists d, lookup (agent_name r) partial = Some d).
Proof.
  assert (Orchestrator.collect_errors
            [Fixtures.analytics_ok; Fixtures.seo_failed] <> []) as H
      by (vm_compute; discriminate).
  split; [exact H|].
  exact (fused_failure_keeps_successful_data Fixtures.synthesis
           "top pages with their title tags"
           [Fixtures.analytics_ok; Fixtures.seo_failed]
           (Orchestrator.keyword_intent "top pages with their title tags") H).
Defined.

Lemma fused_success_iff_no_error_witness :
  let reply :=
    JDict [("success", JBool true);
           ("message", JStr "Synthesis of both sources.");
           ("data", JDict [("analytics", data Fixtures.analytics_ok);
                           ("seo", data Fixtures.seo_ok)]);
           ("agents", JList [JStr "analytics"; JStr "seo"]);
           ("cross_agent", JBool true)] in
  Orchestrator._fuse_responses Fixtures.synthesis
    "top pages with their title tags" [Fixtures.analytics_ok; Fixtures.seo_ok]
    (Orchestrator.keyword_intent "top pages with their title tags") = Ok reply
  /\ ((get reply "success" JNull = Ok (JBool true)
       <-> Orchestrator.collect_errors [Fixtures.analytics_ok; Fixtures.seo_ok]
           = [])
      /\ (Orchestrator.collect_errors [Fixtures.analytics_ok; Fixtures.seo_ok]
          = [] ->
          get reply "agents" JNull
          = Ok (JList (map (fun r => JStr (agent_name r))
                           [Fixtures.analytics_ok; Fixtures.seo_ok])))).
Proof.
  intros reply. split; [reflexivity|].
  exact (fused_success_iff_no_error Fixtures.synthesis
           "top pages with their title tags"
           [Fixtures.analytics_ok; Fixtures.seo_ok]
           (Orchestrator.keyword_intent "top pages with their title tags")
           reply eq_refl).
Defined.

Lemma string_app_assoc (a b c : string) :
  ((a ++ b) ++ c = a ++ b ++ c)%string.
Proof. induction a as [|x a IH]; simpl; [reflexivity | now rewrite IH]. Qed.

Lemma string_length_app (a b : string) :
  String.length (a ++ b) = (String.length a + String.length b)%nat.
Proof. induction a as [|x a IH]; simpl; [reflexivity | now rewrite IH]. Qed.

Lemma string_app_split (a1 b1 a2 b2 : string) :
  (a1 ++ b1 = a2 ++ b2)%string ->
  (String.length a1 <= String.length a2)%nat ->
  exists m, a2 = (a1 ++ m)%string /\ b1 = (m ++ b2)%string.
Proof.
  revert a2. induction a1 as [|x a1 IH]; intros a2 H Hlen; simpl in *.
  - now exists a2.
  - destruct a2 as [|y a2]; simpl in *; [lia|].
    injection H as -> H. destruct (IH a2 H ltac:(lia)) as (m & -> & ->).
    now exists m.
Qed.

Lemma substring_middle (pre x post : string) :
  substring (String.length pre) (String.length x) (pre ++ x ++ post) = x.
Proof.
  induction pre as [|c pre IH]; simpl; [|exact IH].
  induction x as [|d x IHx]; simpl.
  - now destruct post.
  - now rewrite IHx.
Qed.

Lemma free_of_app (c : ascii) (a b : string) :
  free_of c (a ++ b) = (free_of c a && free_of c b)%bool.
Proof.
  induction a as [|x a IH]; simpl; [reflexivity|].
  now rewrite IH, andb_assoc.
Qed.

Lemma prefix_char (c : ascii) (s : string) :
  prefix (String c EmptyString) s
  = match s with
    | EmptyString => false
    | String d _ => Ascii.eqb c d
    end.
Proof.
  destruct s as [|d t]; simpl; [reflexivity|].
  destruct (ascii_dec c d) as [->|ne].
  - rewrite Ascii.eqb_refl. now destruct t.
  - symmetry. now apply Ascii.eqb_neq.
Qed.

(** [find] of one character: the place of its first occurrence. *)
Lemma find_char_spec (c : ascii) (s : string) (i : Z) :
  (find_from (String c EmptyString) s i = -1 /\ free_of c s = true)
  \/ exists pre post,
       s = (pre ++ String c post)%string /\ free_of c pre = true
       /\ find_from (String c EmptyString) s i
          = i + Z.of_nat (String.length pre).
Proof.
  revert i. induction s as [|d t IH]; intros i.
  - left. now split.
  - unfold find_from; fold find_from. rewrite prefix_char.
    destruct (Ascii.eqb c d) eqn:E.
    + apply Ascii.eqb_eq in E. subst d. right.
      exists EmptyString, t. simpl. repeat split. lia.
    + destruct (IH (i + 1)) as [[Hr Hf]|(pre & post & -> & Hf & Hr)].
      * left. simpl. now rewrite E, Hf.
      * right. exists (String d pre), post. simpl. rewrite E, Hf.
        repeat split. rewrite Hr. lia.
Qed.

(** [rfind] of one character: the place of its last occurrence. *)
Lemma rfind_char_spec (c : ascii) (s : string) (i last : Z) :
  (rfind_from (String c EmptyString) s i last = last /\ free_of c s = true)
  \/ exists pre post,
       s = (pre ++ String c post)%string /\ free_of c post = true
       /\ rfind_from (String c EmptyString) s i last
          = i + Z.of_nat (String.length pre).
Proof.
  revert i last. induction s as [|d t IH]; intros i last.
  - left. now split.
  - unfold rfind_from; fold rfind_from. rewrite prefix_char.
    destruct (Ascii.eqb c d) eqn:E.
    + apply Ascii.eqb_eq in E. subst d.
      destruct (IH (i + 1) i) as [[Hr Hf]|(pre & post & -> & Hf & Hr)].
      * right. exists EmptyString, t. simpl. repeat split; auto. lia.
      * right. exists (String c pre), post. simpl. repeat split; auto.
        rewrite Hr. lia.
    + destruct (IH (i + 1) last) as [[Hr Hf]|(pre & post & -> & Hf & Hr)].
      * left. simpl. now rewrite E, Hf.
      * right. exists (String d pre), post. simpl. repeat split; auto.
        rewrite Hr. lia.
Qed.

(** X6: the span [json_span] cuts out of a reply runs from the first
    opening brace of the reply to its last closing brace, both included:
    no opening brace stands before it and no closing brace after it. *)
Theorem json_span_first_to_last_brace (response text : string) :
  json_span response = Some text ->
  exists pre mid post,
    response = (pre ++ String open_brace mid ++ String close_brace post)%string
    /\ text = (String open_brace mid ++ String close_brace EmptyString)%string
    /\ free_of open_brace pre = true
    /\ free_of close_brace post = true.
Proof.
  unfold json_span, find, rfind, slice.
  change "{" with (String open_brace EmptyString).
  change "}" with (String close_brace EmptyString).
  destruct (find_char_spec open_brace response 0)
    as [[Ha _]|(pre1 & post1 & Hs1 & Hf1 & Ha)]; rewrite Ha.
  { discriminate. }
  destruct (rfind_char_spec close_brace response 0 (-1))
    as [[He _]|(pre2 & post2 & Hs2 & Hf2 & He)]; rewrite He.
  { destruct (_ && _)%bool eqn:C; [|discriminate].
    apply andb_true_iff in C as [_ C]. lia. }
  destruct (_ && _)%bool eqn:C; [|discriminate].
  apply andb_true_iff in C as [_ C]. intros [= <-].
  assert (String.length pre1 <= String.length pre2)%nat as Hle by lia.
  rewrite Hs1 in Hs2.
  destruct (string_app_split _ _ _ _ Hs2 Hle) as (m & Hp2 & Hm).
  destruct m as [|x mid]; [discriminate Hm|].
  simpl in Hm. injection Hm as <- Hpost1.
  exists pre1, mid, post2. subst pre2 post1.
  split; [exact Hs1|]. split; [|now split].
  rewrite Hs1.
  match goal with
  | |- substring ?a ?b ?s = ?x =>
      replace a with (String.length pre1) by lia;
      replace b with (String.length x)
        by (rewrite !string_length_app; simpl; lia);
      replace s with (pre1 ++ x ++ post2)%string
        by (simpl; now rewrite string_app_assoc)
  end.
  apply substring_middle.
Qed.

Lemma json_span_first_to_last_brace_witness :
  json_span "Sure: {a} and {b}, done }."
  = Some "{a} and {b}, done }"
  /\ exists pre mid post,
       "Sure: {a} and {b}, done }."
       = (pre ++ String open_brace mid ++ String close_brace post)%string
       /\ "{a} and {b}, done }"
          = (String open_brace mid ++ String close_brace EmptyString)%string
       /\ free_of open_brace pre = true
       /\ free_of close_brace post = true.
Proof.
  split; [reflexivity|].
  exact (json_span_first_to_last_brace "Sure: {a} and {b}, done }."
           "{a} and {b}, done }" eq_refl).
Defined.

(* ================================================================== *)
(** ** More on the analytics plan validator *)
(* ================================================================== *)

Section ValidatorInvariants.

Import Analytics.

Variable metrics_order : list string.
Variable dimensions_order : list string.

Lemma mem_false (x : string) (xs : list string) :
  mem x xs = false <-> ~ In x xs.
Proof. rewrite <- mem_In. now destruct (mem x xs). Qed.

Lemma append_new_NoDup (api : option string) (validated : list string) :
  NoDup validated -> NoDup (append_new api validated).
Proof.
  intros H. unfold append_new. destruct api as [a|]; auto.
  destruct (str_truthy a); simpl; auto.
  destruct (mem a validated) eqn:E; simpl; auto.
  apply mem_false in E. apply NoDup_app; auto.
  - repeat constructor. intros [].
  - intros x Hx [<-|[]]. now apply E.
Qed.

Lemma validate_metrics_NoDup (items : list json) (validated out : list string) :
  validate_metrics metrics_order items validated = Ok out ->
  NoDup validated -> NoDup out.
Proof.
  revert validated. induction items as [|metric rest IH];
    cbn [validate_metrics]; intros validated H Hnd.
  - now injection H as <-.
  - bind_inv H. eapply IH; [exact H|]. now apply append_new_NoDup.
Qed.

Lemma validate_dimensions_NoDup (items : list json)
    (validated out : list string) :
  validate_dimensions dimensions_order items validated = Ok out ->
  NoDup validated -> NoDup out.
Proof.
  revert validated. induction items as [|dimension rest IH];
    cbn [validate_dimensions]; intros validated H Hnd.
  - now injection H as <-.
  - bind_inv H. eapply IH; [exact H|]. now apply append_new_NoDup.
Qed.

(** X7: a validated plan lists at least one metric, and lists no metric
    and no dimension twice. *)
Theorem validated_plan_metrics_nonempty_distinct (plan validated : json) :
  _validate_plan metrics_order dimensions_order plan = Ok validated ->
  exists metrics dimensions,
    get validated "metrics" JNull = Ok (JList (map JStr metrics))
    /\ get validated "dimensions" JNull = Ok (JList (map JStr dimensions))
    /\ metrics <> []
    /\ NoDup metrics
    /\ NoDup dimensions.
Proof.
  intros H. apply validate_plan_inv in H
    as (date_range & order_by & rm & mi & ms & rd & di & ds & fi
        & _ & _ & Hmv & _ & _ & Hdv & _ & ->).
  apply validate_metrics_NoDup in Hmv; [|constructor].
  apply validate_dimensions_NoDup in Hdv; [|constructor].
  eexists. exists ds. split; [reflexivity|]. split; [reflexivity|].
  destruct ms as [|m ms].
  - split; [discriminate|]. split; [|exact Hdv].
    repeat constructor. intros [].
  - split; [discriminate|]. now split.
Qed.

Lemma metric_mapping_values_valid (key api : string) :
  lookup key METRIC_MAPPINGS = Some api -> In api VALID_METRICS.
Proof.
  intros H. apply lookup_In in H. unfold METRIC_MAPPINGS in H. simpl in H.
  repeat (destruct H as [[= <- <-]|H]; [unfold VALID_METRICS; simpl; tauto|]).
  contradiction.
Qed.

Lemma dimension_mapping_values_valid (key api : string) :
  lookup key DIMENSION_MAPPINGS = Some api -> In api VALID_DIMENSIONS.
Proof.
  intros H. apply lookup_In in H. unfold DIMENSION_MAPPINGS in H. simpl in H.
  repeat (destruct H as [[= <- <-]|H]; [unfold VALID_DIMENSIONS; simpl; tauto|]).
  contradiction.
Qed.

Hypothesis metrics_order_valid : incl metrics_order VALID_METRICS.
Hypothesis dimensions_order_valid : incl dimensions_order VALID_DIMENSIONS.

Lemma resolve_metric_valid (metric : json) (api : string) :
  resolve_metric metrics_order metric = Ok (Some api) -> In api VALID_METRICS.
Proof.
  unfold resolve_metric. destruct metric; try discriminate.
  destruct (lookup (lower s) METRIC_MAPPINGS) as [a|] eqn:E.
  - intros [= <-]. now apply metric_mapping_values_valid in E.
  - destruct (mem s VALID_METRICS) eqn:M.
    + intros [= <-]. now apply mem_In.
    + intros [= H]. apply find_some in H as [H _].
      now apply metrics_order_valid.
Qed.

Lemma resolve_dimension_valid (dimension : json) (api : string) :
  resolve_dimension dimensions_order dimension = Ok (Some api) ->
  In api VALID_DIMENSIONS.
Proof.
  unfold resolve_dimension. destruct dimension; try discriminate.
  destruct (lookup (lower s) DIMENSION_MAPPINGS) as [a|] eqn:E.
  - intros [= <-]. now apply dimension_mapping_values_valid in E.
  - destruct (mem s VALID_DIMENSIONS) eqn:M.
    + intros [= <-]. now apply mem_In.
    + intros [= H]. apply find_some in H as [H _].
      now apply dimensions_order_valid.
Qed.

Lemma append_new_In (api : option string) (validated : list string) (x : string) :
  In x (append_new api validated) -> In x validated \/ api = Some x.
Proof.
  unfold append_new. destruct api as [a|]; auto.
  destruct (str_truthy a && negb (mem a validated))%bool; auto.
  intros H. apply in_app_or in H as [H|[<-|[]]]; auto.
Qed.

Lemma validate_metrics_valid (items : list json) (validated out : list string) :
  validate_metrics metrics_order items validated = Ok out ->
  incl validated VALID_METRICS -> incl out VALID_METRICS.
Proof.
  revert validated. induction items as [|metric rest IH];
    cbn [validate_metrics]; intros validated H Hv.
  - now injection H as <-.
  - bind_inv H. eapply IH; [exact H|]. intros x Hx.
    apply append_new_In in Hx as [Hx| ->]; [now apply Hv|].
    now apply resolve_metric_valid in Hstep.
Qed.

Lemma validate_dimensions_valid (items : list json)
    (validated out : list string) :
  validate_dimensions dimensions_order items validated = Ok out ->
  incl validated VALID_DIMENSIONS -> incl out VALID_DIMENSIONS.
Proof.
  revert validated. induction items as [|dimension rest IH];
    cbn [validate_dimensions]; intros validated H Hv.
  - now injection H as <-.
  - bind_inv H. eapply IH; [exact H|]. intros x Hx.
    apply append_new_In in Hx as [Hx| ->]; [now apply Hv|].
    now apply resolve_dimension_valid in Hstep.
Qed.

(** X8: when the two sets are visited in orders that list members only,
    every metric of a validated plan is a member of the metrics allowlist
    and every dimension a member of the dimensions allowlist. *)
Theorem validated_names_in_allowlists (plan validated : json) :
  _validate_plan metrics_order dimensions_order plan = Ok validated ->
  exists metrics dimensions,
    get validated "metrics" JNull = Ok (JList (map JStr metrics))
    /\ get validated "dimensions" JNull = Ok (JList (map JStr dimensions))
    /\ incl metrics VALID_METRICS
    /\ incl dimensions VALID_DIMENSIONS.
Proof.
  intros H. apply validate_plan_inv in H
    as (date_range & order_by & rm & mi & ms & rd & di & ds & fi
        & _ & _ & Hmv & _ & _ & Hdv & _ & ->).
  apply validate_metrics_valid in Hmv; [|intros x []].
  apply validate_dimensions_valid in Hdv; [|intros x []].
  eexists. exists ds. split; [reflexivity|]. split; [reflexivity|].
  split; [|exact Hdv].
  destruct ms; [|exact Hmv].
  intros x [<-|[]]. unfold VALID_METRICS. simpl. tauto.
Qed.

Lemma validate_metrics_canonical_list (names validated : list string) :
  NoDup (validated ++ names) ->
  incl names VALID_METRICS ->
  validate_metrics metrics_order (map JStr names) validated
  = Ok (validated ++ names).
Proof.
  revert validated. induction names as [|m names IH];
    cbn [map validate_metrics]; intros validated Hnd Hv.
  - now rewrite app_nil_r.
  - destruct (resolve_metric_canonical metrics_order m) as [Hr Ht].
    { apply Hv. now left. }
    rewrite Hr. cbn [bind]. unfold append_new. rewrite Ht.
    assert (mem m validated = false) as ->.
    { apply mem_false. intros Hin. apply NoDup_remove_2 in Hnd.
      apply Hnd, in_or_app. now left. }
    cbn [negb andb]. rewrite IH.
    + now rewrite <- app_assoc.
    + now rewrite <- app_assoc.
    + intros x Hx. apply Hv. now right.
Qed.

Lemma validate_dimensions_canonical_list (names validated : list string) :
  NoDup (validated ++ names) ->
  incl names VALID_DIMENSIONS ->
  validate_dimensions dimensions_order (map JStr names) validated
  = Ok (validated ++ names).
Proof.
  revert validated. induction names as [|d names IH];
    cbn [map validate_dimensions]; intros validated Hnd Hv.
  - now rewrite app_nil_r.
  - destruct (resolve_dimension_canonical dimensions_order d) as [Hr Ht].
    { apply Hv. now left. }
    rewrite Hr. cbn [bind]. unfold append_new. rewrite Ht.
    assert (mem d validated = false) as ->.
    { apply mem_false. intros Hin. apply NoDup_remove_2 in Hnd.
      apply Hnd, in_or_app. now left. }
    cbn [negb andb]. rewrite IH.
    + now rewrite <- app_assoc.
    + now rewrite <- app_assoc.
    + intros x Hx. apply Hv. now right.
Qed.

Lemma validate_filters_kept_list (items validated : list json) :
  Forall (fun clause => exact_or_mapped clause = true) items ->
  validate_filters items validated = Ok (validated ++ items).
Proof.
  intros H. revert validated.
  induction H as [|clause items Hk _ IH]; cbn [validate_filters];
    intros validated.
  - now rewrite app_nil_r.
  - assert (filter_kept clause = Ok true) as ->.
    { unfold exact_or_mapped in Hk. unfold filter_kept, get.
      destruct clause; try discriminate.
      destruct (lookup "dimension" kvs) as [dim|]; [|discriminate].
      destruct dim; try discriminate. cbn [bind]. now rewrite Hk. }
    cbn [bind]. rewrite IH. now rewrite <- app_assoc.
Qed.

(** X9: validating a validated plan gives the same plan again (with the
    two sets visited in orders that list members only). *)
Theorem validate_plan_idempotent (plan validated : json) :
  _validate_plan metrics_order dimensions_order plan = Ok validated ->
  _validate_plan metrics_order dimensions_order validated = Ok validated.
Proof.
  intros H. apply validate_plan_inv in H
    as (date_range & order_by & rm & mi & ms & rd & di & ds & fi
        & _ & _ & Hmv & _ & _ & Hdv & _ & ->).
  pose proof (validate_metrics_NoDup _ _ _ Hmv ltac:(constructor)) as Hmn.
  pose proof (validate_dimensions_NoDup _ _ _ Hdv ltac:(constructor)) as Hdn.
  apply validate_metrics_valid in Hmv; [|intros x []].
  apply validate_dimensions_valid in Hdv; [|intros x []].
  set (ms' := match ms with [] => ["screenPageViews"] | _ :: _ => ms end).
  assert (NoDup ms' /\ incl ms' VALID_METRICS /\ ms' <> []) as (Hn & Hv & Hne).
  { subst ms'. destruct ms.
    - split; [repeat constructor; intros []|]. split; [|discriminate].
      intros x [<-|[]]. unfold VALID_METRICS. simpl. tauto.
    - split; [exact Hmn|]. split; [exact Hmv | discriminate]. }
  unfold _validate_plan.
  cbn [get lookup String.eqb Ascii.eqb Bool.eqb bind iter].
  rewrite (validate_metrics_canonical_list ms' [] Hn Hv). cbn [bind app].
  rewrite (validate_dimensions_canonical_list ds [] Hdn Hdv). cbn [bind app].
  rewrite (validate_filters_kept_list (filter exact_or_mapped fi) []).
  - cbn [bind app]. destruct ms'; [now elim Hne | reflexivity].
  - apply Forall_forall. intros c Hc. now apply filter_In in Hc.
Qed.

End ValidatorInvariants.

Section ResolutionFacts.

Import Analytics.

Variable metrics_order : list string.
Variable dimensions_order : list string.



(** X11: an empty requested name is not dropped either: it is contained
    in every name, so the fuzzy tier resolves it to the member of the
    allowlist that is visited first. *)
Theorem empty_name_resolves_to_first_visited :
  resolve_metric metrics_order (JStr EmptyString) = Ok (hd_error metrics_order)
  /\ resolve_dimension dimensions_order (JStr EmptyString)
     = Ok (hd_error dimensions_order).
Proof.
  split.
  - unfold resolve_metric.
    change (lookup (lower EmptyString) METRIC_MAPPINGS) with (@None string).
    change (mem EmptyString VALID_METRICS) with false. cbv iota.
    unfold _find_closest_metric. destruct metrics_order as [|v rest];
      [reflexivity|].
    simpl. unfold close_to. now destruct (lower v).
  - unfold resolve_dimension.
    change (lookup (lower EmptyString) DIMENSION_MAPPINGS) with (@None string).
    change (mem EmptyString VALID_DIMENSIONS) with false. cbv iota.
    unfold _find_closest_dimension. destruct dimensions_order as [|v rest];
      [reflexivity|].
    simpl. unfold close_to. now destruct (lower v).
Qed.

End ResolutionFacts.

Lemma validated_plan_metrics_nonempty_distinct_witness :
  Analytics._validate_plan Analytics.VALID_METRICS Analytics.VALID_DIMENSIONS
    Plans.fuzzy_filter_plan = Ok Plans.fuzzy_filter_plan_validated
  /\ exists metrics dimensions,
       get Plans.fuzzy_filter_plan_validated "metrics" JNull
       = Ok (JList (map JStr metrics))
       /\ get Plans.fuzzy_filter_plan_validated "dimensions" JNull
          = Ok (JList (map JStr dimensions))
       /\ metrics <> []
       /\ NoDup metrics
       /\ NoDup dimensions.
Proof.
  split; [reflexivity|].
  exact (validated_plan_metrics_nonempty_distinct Analytics.VALID_METRICS
           Analytics.VALID_DIMENSIONS Plans.fuzzy_filter_plan
           Plans.fuzzy_filter_plan_validated eq_refl).
Defined.

Lemma validated_names_in_allowlists_witness :
  incl Analytics.VALID_METRICS Analytics.VALID_METRICS
  /\ incl Analytics.VALID_DIMENSIONS Analytics.VALID_DIMENSIONS
  /\ Analytics._validate_plan Analytics.VALID_METRICS
       Analytics.VALID_DIMENSIONS Plans.report_plan
     = Ok Plans.report_plan_validated
  /\ exists metrics dimensions,
       get Plans.report_plan_validated "metrics" JNull
       = Ok (JList (map JStr metrics))
       /\ get Plans.report_plan_validated "dimensions" JNull
          = Ok (JList (map JStr dimensions))
       /\ incl metrics Analytics.VALID_METRICS
       /\ incl dimensions Analytics.VALID_DIMENSIONS.
Proof.
  split; [apply incl_refl|]. split; [apply incl_refl|].
  split; [reflexivity|].
  exact (validated_names_in_allowlists Analytics.VALID_METRICS
           Analytics.VALID_DIMENSIONS (incl_refl _) (incl_refl _)
           Plans.report_plan Plans.report_plan_validated eq_refl).
Defined.

Lemma validate_plan_idempotent_witness :
  incl Analytics.VALID_METRICS Analytics.VALID_METRICS
  /\ incl Analytics.VALID_DIMENSIONS Analytics.VALID_DIMENSIONS
  /\ Analytics._validate_plan Analytics.VALID_METRICS
       Analytics.VALID_DIMENSIONS Plans.fuzzy_filter_plan
     = Ok Plans.fuzzy_filter_plan_validated
  /\ Analytics._validate_plan Analytics.VALID_METRICS
       Analytics.VALID_DIMENSIONS Plans.fuzzy_filter_plan_validated
     = Ok Plans.fuzzy_filter_plan_validated.
Proof.
  split; [apply incl_refl|]. split; [apply incl_refl|].
  split; [reflexivity|].
  exact (validate_plan_idempotent Analytics.VALID_METRICS
           Analytics.VALID_DIMENSIONS (incl_refl _) (incl_refl _)
           Plans.fuzzy_filter_plan Plans.fuzzy_filter_plan_validated eq_refl).
Defined.


(* ================================================================== *)
(** ** More on the report executor and the analytics handler *)
(* ================================================================== *)

Lemma zip_into_fresh (headers values : list string)
    (row_data : list (string * json)) :
  NoDup headers ->
  (forall h, In h headers -> lookup h row_data = None) ->
  length values = length headers ->
  Analytics.zip_into headers values row_data
  = Ok (row_data ++ combine headers (map JStr values)).
Proof.
  revert values row_data.
  induction headers as [|h headers IH]; intros values row_data Hnd Hfresh Hlen;
    destruct values as [|v values]; try discriminate Hlen; simpl.
  - now rewrite app_nil_r.
  - assert (dict_set h (JStr v) row_data = row_data ++ [(h, JStr v)]) as ->.
    { assert (lookup h row_data = None) as Hh by (apply Hfresh; now left).
      clear -Hh. induction row_data as [|[k x] d IHd]; simpl in *; auto.
      destruct (String.eqb h k); [discriminate|]. now rewrite IHd. }
    inversion Hnd as [|? ? Hnotin Hnd']; subst.
    rewrite IH; auto.
    + now rewrite <- app_assoc.
    + intros h' Hin. rewrite lookup_app. rewrite (Hfresh h' (or_intror Hin)).
      simpl. destruct (String.eqb h' h) eqn:E; auto.
      apply String.eqb_eq in E. now subst.
Qed.

Lemma lookup_combine_None (h : string) (headers : list string)
    (values : list json) :
  ~ In h headers -> lookup h (combine headers values) = None.
Proof.
  revert values. induction headers as [|k headers IH]; intros values Hn;
    [reflexivity|].
  destruct values as [|v values]; [reflexivity|]. simpl.
  destruct (String.eqb h k) eqn:E.
  - apply String.eqb_eq in E. subst. elim Hn. now left.
  - apply IH. intros Hin. apply Hn. now right.
Qed.

Lemma combine_app_same_length {A B : Type} (a c : list A) (b d : list B) :
  length a = length b ->
  combine (a ++ c) (b ++ d) = combine a b ++ combine c d.
Proof.
  revert b. induction a as [|x a IH]; intros b Hl;
    destruct b as [|y b]; try discriminate Hl; simpl; auto.
  rewrite IH; auto.
Qed.

Lemma NoDup_app_disjoint {A : Type} (l1 l2 : list A) (a : A) :
  NoDup (l1 ++ l2) -> In a l1 -> In a l2 -> False.
Proof.
  induction l1 as [|x l1 IH]; simpl; intros Hnd H1 H2; [contradiction|].
  inversion Hnd as [|? ? Hnotin Hnd']; subst.
  destruct H1 as [->|H1]; [|now apply IH].
  apply Hnotin, in_or_app. now right.
Qed.

(** X12: when the provider keeps its contract (distinct header names, and
    in every row as many dimension values as dimension headers and as many
    metric values as metric headers), each row is reshaped into the
    dictionary that pairs the headers, dimensions first, with the values
    in the same positions; there is one reshaped row per row. *)
Theorem reshape_rows_pairs_headers_with_values
    (dim_headers metric_headers : list string) (rs : list Analytics.Row) :
  NoDup (dim_headers ++ metric_headers) ->
  Forall (fun row =>
            length (Analytics.dimension_values row) = length dim_headers
            /\ length (Analytics.metric_values row) = length metric_headers)
         rs ->
  Analytics.reshape_rows dim_headers metric_headers rs
  = Ok (map (fun row =>
               JDict (combine (dim_headers ++ metric_headers)
                              (map JStr (Analytics.dimension_values row
                                         ++ Analytics.metric_values row))))
            rs).
Proof.
  intros Hnd Hrows.
  pose proof (NoDup_app_remove_r _ _ Hnd) as Hnd1.
  pose proof (NoDup_app_remove_l _ _ Hnd) as Hnd2.
  induction Hrows as [|row rs [Hd Hm] _ IH]; simpl; [reflexivity|].
  rewrite zip_into_fresh; auto. cbn [bind app].
  rewrite zip_into_fresh; auto.
  - cbn [bind]. rewrite IH. cbn [bind]. do 3 f_equal.
    rewrite map_app, combine_app_same_length; [reflexivity|].
    now rewrite length_map.
  - intros h Hin. apply lookup_combine_None. intros Hin'.
    exact (NoDup_app_disjoint _ _ h Hnd Hin' Hin).
Qed.




Lemma reshape_rows_pairs_headers_with_values_witness :
  let rs := [{| Analytics.dimension_values := ["2024-01-01"; "US"];
                Analytics.metric_values := ["42"] |}] in
  NoDup (["date"; "country"] ++ ["sessions"])
  /\ Forall (fun row =>
               length (Analytics.dimension_values row)
               = length ["date"; "country"]
               /\ length (Analytics.metric_values row) = length ["sessions"])
            rs
  /\ Analytics.reshape_rows ["date"; "country"] ["sessions"] rs
     = Ok (map (fun row =>
                  JDict (combine (["date"; "country"] ++ ["sessions"])
                                 (map JStr (Analytics.dimension_values row
                                            ++ Analytics.metric_values row))))
               rs).
Proof.
  intros rs.
  assert (NoDup (["date"; "country"] ++ ["sessions"])) as Hnd.
  { simpl. repeat constructor; simpl; intuition discriminate. }
  assert (Forall (fun row =>
                    length (Analytics.dimension_values row)
                    = length ["date"; "country"]
                    /\ length (Analytics.metric_values row)
                       = length ["sessions"]) rs) as Hrows
      by (repeat constructor).
  split; [exact Hnd|]. split; [exact Hrows|].
  exact (reshape_rows_pairs_headers_with_values ["date"; "country"]
           ["sessions"] rs Hnd Hrows).
Defined.


Section AnalyticsHandlerFacts.

Import Analytics.

Variable metrics_order : list string.
Variable dimensions_order : list string.
Variable datetime : Type.
Variable now : datetime.
Variable minus_days : datetime -> json -> result datetime.
Variable fromisoformat : json -> result datetime.
Variable strftime : datetime -> string.
Variable _get_client : result unit.
Variable run_report : RunReportRequest -> result RunReportResponse.
Variable json_loads : string -> result json.
Variable parse_chat : string -> result string.
Variable summary_chat : string -> json -> json -> result string.

Local Abbreviation _execute_query' :=
  (_execute_query datetime now minus_days fromisoformat strftime _get_client
     run_report).
Local Abbreviation process' :=
  (process metrics_order dimensions_order datetime now minus_days
     fromisoformat strftime _get_client run_report json_loads parse_chat
     summary_chat).

(** X14: a plan with an absolute date range whose start date the date
    library rejects is fatal: [_execute_query] raises what
    [fromisoformat] raised and hands no request to the provider. *)
Theorem malformed_start_date_sends_nothing (property_id : string)
    (plan date_range_config range_type start_text : json) (e : exn) :
  _get_client = Ok tt ->
  get plan "date_range" (JDict []) = Ok date_range_config ->
  get date_range_config "type" JNull = Ok range_type ->
  eq_str range_type "relative" = false ->
  get date_range_config "start" (JStr EmptyString) = Ok start_text ->
  fromisoformat start_text = Raise e ->
  _execute_query' property_id plan = ([], Raise e).
Proof.
  intros Hc Hd Ht Hr Hs Hf. unfold _execute_query, prepare, resolve_dates.
  rewrite Hc. cbn [bind]. rewrite Hd. cbn [bind]. rewrite Ht. cbn [bind].
  rewrite Hr, Hs. cbn [bind]. rewrite Hf. reflexivity.
Qed.

(** X15: whatever the collaborators do, [process] returns a response
    named [analytics] that either succeeds without an error or fails with
    an error, no data and no message; it hands at most one request to the
    provider, and none at all when the property id is missing or empty. *)
Theorem analytics_process_envelope (query : string)
    (property_id : option string) :
  let sent := fst (process' query property_id) in
  let response := snd (process' query property_id) in
  agent_name response = "analytics"
  /\ (success response = true <-> error response = None)
  /\ (success response = false ->
      data response = JNull /\ message response = EmptyString)
  /\ (length sent <= 1)%nat
  /\ (Orchestrator.property_missing property_id = true ->
      sent = []
      /\ error response
         = Some "GA4 propertyId is required for analytics queries").
Proof.
  unfold process.
  destruct property_id as [[|c p]|]; cbn;
    try (repeat split; auto; discriminate).
  destruct (bind (_parse_query json_loads parse_chat query) _)
    as [validated|e]; cbn;
    [|repeat split; auto; discriminate].
  pose proof (execute_query_sends_at_most_one datetime now minus_days
                fromisoformat strftime _get_client run_report
                (String c p) validated) as Hlen.
  destruct (_execute_query' (String c p) validated) as [sent outcome].
  cbn in *. destruct outcome as [ga4|e]; cbn;
    [destruct (summary_chat query validated ga4); cbn|];
    repeat split; auto; discriminate.
Qed.

(** X16: when the planner's reply holds no decodable object,
    [_parse_query] returns the default plan, and validation returns that
    plan unchanged, in whatever order the two sets are visited. *)
Theorem unreadable_plan_reply_gives_default (query response : string) :
  parse_chat query = Ok response ->
  no_decodable_object json_loads response ->
  _parse_query json_loads parse_chat query = Ok default_plan
  /\ _validate_plan metrics_order dimensions_order default_plan
     = Ok default_plan.
Proof.
  intros Hchat Hno. split; [|reflexivity].
  unfold _parse_query, no_decodable_object in *. rewrite Hchat. cbn [bind].
  destruct (json_span response) as [text|]; [|reflexivity].
  destruct Hno as (e & -> & ->). reflexivity.
Qed.

End AnalyticsHandlerFacts.

Lemma malformed_start_date_sends_nothing_witness :
  let plan :=
    JDict [("metrics", JList [JStr "sessions"]);
           ("date_range", JDict [("type", JStr "absolute");
                                 ("start", JStr "last monday");
                                 ("end", JStr "2024-01-08")])] in
  let e := Exn ValueError "Invalid isoformat string: 'last monday'" in
  Analytics._execute_query Z Fixtures.january_now Fixtures.january_minus_days
    (fun _ => Raise e) Fixtures.january_strftime (Ok tt)
    (fun _ => Ok Fixtures.empty_report) "123456" plan
  = ([], Raise e).
Proof.
  intros plan e.
  exact (malformed_start_date_sends_nothing Z Fixtures.january_now
           Fixtures.january_minus_days (fun _ => Raise e)
           Fixtures.january_strftime (Ok tt)
           (fun _ => Ok Fixtures.empty_report) "123456" plan
           (JDict [("type", JStr "absolute"); ("start", JStr "last monday");
                   ("end", JStr "2024-01-08")])
           (JStr "absolute") (JStr "last monday") e
           eq_refl eq_refl eq_refl eq_refl eq_refl eq_refl).
Defined.

Lemma unreadable_plan_reply_gives_default_witness :
  no_decodable_object JsonDecoder.loads "I could not parse the question."
  /\ Analytics._parse_query JsonDecoder.loads
       (fun _ => Ok "I could not parse the question.") "page views last week"
     = Ok Analytics.default_plan
  /\ Analytics._validate_plan Analytics.VALID_METRICS
       Analytics.VALID_DIMENSIONS Analytics.default_plan
     = Ok Analytics.default_plan.
Proof.
  assert (no_decodable_object JsonDecoder.loads
            "I could not parse the question.") as Hno
      by (vm_compute; exact I).
  split; [exact Hno|].
  exact (unreadable_plan_reply_gives_default Analytics.VALID_METRICS
           Analytics.VALID_DIMENSIONS JsonDecoder.loads
           (fun _ => Ok "I could not parse the question.")
           "page views last week" "I could not parse the question."
           eq_refl Hno).
Defined.

(* ================================================================== *)
(** ** More on the tabular executor *)
(* ================================================================== *)

Lemma first_some_spec {A B : Type} (f : A -> option B) (l : list A) (y : B) :
  SEO.first_some f l = Some y -> exists x, In x l /\ f x = Some y.
Proof.
  induction l as [|x l IH]; simpl; [discriminate|].
  destruct (f x) as [y'|] eqn:E.
  - intros [= <-]. exists x. auto.
  - intros H. destruct (IH H) as (x' & Hin & Hx). exists x'. auto.
Qed.

Lemma Ok_inj {A : Type} (a b : A) : Ok a = Ok b -> a = b.
Proof. now intros [= ->]. Qed.

(** X17: a column [_find_column] returns is a label of the table. *)
Theorem find_column_in_table (df : SEO.DataFrame) (search : json)
    (column : string) :
  SEO._find_column df search = Ok (Some column) ->
  In column (SEO.columns df).
Proof.
  unfold SEO._find_column. destruct (negb (truthy search)); [discriminate|].
  destruct search; try discriminate.
  destruct (List.find (fun col => String.eqb (lower col) _) (SEO.columns df))
    as [c|] eqn:E1.
  { intros [= ->]. now apply find_some in E1. }
  destruct (List.find (fun col => (str_in _ (lower col) || _)%bool)
                      (SEO.columns df)) as [c|] eqn:E2.
  { intros [= ->]. now apply find_some in E2. }
  intros H. apply Ok_inj in H.
  apply first_some_spec in H as (entry & _ & H).
  destruct (_ || _)%bool; [|discriminate].
  apply first_some_spec in H as (alt & _ & H).
  now apply find_some in H.
Qed.


Section FilterFacts.

Import SEO.

Variable pandas_filter :
  library_test -> DataFrame -> string -> json -> result DataFrame.

(** X19: a clause whose column does not resolve is skipped, and so is a
    clause whose operator is none of the eight: either way the rows stay
    as they were (no error is raised for the unknown operator). *)
Theorem unusable_clause_is_skipped (df result_df : DataFrame)
    (filter_item search : json) :
  get filter_item "column" (JStr EmptyString) = Ok search ->
  (_find_column df search = Ok None ->
   apply_filter pandas_filter df result_df filter_item = Ok result_df)
  /\ (forall column operator,
        _find_column df search = Ok (Some column) ->
        get filter_item "operator" (JStr "equals") = Ok operator ->
        (forall name, In name known_operators -> eq_str operator name = false) ->
        apply_filter pandas_filter df result_df filter_item = Ok result_df).
Proof.
  intros Hcol. unfold apply_filter. rewrite Hcol. cbn [bind]. split.
  - now intros ->.
  - intros column operator -> Hop Hnone. cbn [bind]. rewrite Hop. cbn [bind].
    destruct (get_dict _ _ _ _ Hcol) as [kvs ->]. unfold get at 1. cbn [bind].
    unfold known_operators in Hnone.
    rewrite !Hnone by (simpl; tauto). reflexivity.
Qed.

Lemma filter_filter_negb {A : Type} (f : A -> bool) (l : list A) :
  filter (fun x => negb (f x)) (filter f l) = [].
Proof.
  induction l as [|a l IH]; simpl; auto.
  destruct (f a) eqn:E; simpl; rewrite ?E; auto.
Qed.

Lemma filter_idempotent {A : Type} (f : A -> bool) (l : list A) :
  filter f (filter f l) = filter f l.
Proof.
  induction l as [|a l IH]; simpl; auto.
  destruct (f a) eqn:E; simpl; rewrite ?E, ?IH; auto.
Qed.

(** X20: clauses are applied one after the other, each to the rows the
    previous one kept: [is_empty] followed by [not_empty] on the same
    column keeps no row, and [is_empty] twice keeps what [is_empty] once
    keeps. *)
Theorem emptiness_clauses_compose (df result_df : DataFrame)
    (empty_clause not_empty_clause search : json) (column : string) (i : nat) :
  get empty_clause "column" (JStr EmptyString) = Ok search ->
  get empty_clause "operator" (JStr "equals") = Ok (JStr "is_empty") ->
  get not_empty_clause "column" (JStr EmptyString) = Ok search ->
  get not_empty_clause "operator" (JStr "equals") = Ok (JStr "not_empty") ->
  _find_column df search = Ok (Some column) ->
  positions column (columns result_df) 0 = [i] ->
  apply_filters pandas_filter df result_df [empty_clause; not_empty_clause]
  = Ok {| columns := columns result_df; rows := [] |}
  /\ apply_filters pandas_filter df result_df [empty_clause; empty_clause]
     = apply_filters pandas_filter df result_df [empty_clause].
Proof.
  intros Hc1 Ho1 Hc2 Ho2 Hfind Hpos.
  destruct (apply_filter_by_cell pandas_filter df result_df _ _ _ _ i
              Hc1 Ho1 Hfind Hpos) as [He _].
  specialize (He eq_refl).
  assert (positions column (columns (rows_where is_empty_cell i result_df)) 0
          = [i]) as Hpos' by exact Hpos.
  destruct (apply_filter_by_cell pandas_filter df
              (rows_where is_empty_cell i result_df) _ _ _ _ i
              Hc2 Ho2 Hfind Hpos') as [_ Hn].
  destruct (apply_filter_by_cell pandas_filter df
              (rows_where is_empty_cell i result_df) _ _ _ _ i
              Hc1 Ho1 Hfind Hpos') as [He' _].
  cbn [apply_filters]. rewrite He. cbn [bind].
  rewrite (Hn eq_refl), (He' eq_refl). cbn [bind]. split.
  - unfold rows_where. cbn [columns rows]. f_equal. f_equal.
    rewrite (filter_ext _ (fun row => negb (is_empty_cell (nth i row None)))).
    + apply (filter_filter_negb (fun row => is_empty_cell (nth i row None))).
    + intros row. rewrite not_empty_cell_blank, is_empty_cell_blank.
      reflexivity.
  - unfold rows_where. cbn [columns rows]. f_equal. f_equal.
    apply (filter_idempotent (fun row => is_empty_cell (nth i row None))).
Qed.

End FilterFacts.

Section RowCountFacts.

Import SEO.

Variable pandas_filter :
  library_test -> DataFrame -> string -> json -> result DataFrame.

Hypothesis library_selects : selects_rows pandas_filter.

Lemma apply_filter_selects (df result_df out : DataFrame) (filter_item : json) :
  apply_filter pandas_filter df result_df filter_item = Ok out ->
  columns out = columns result_df
  /\ incl (rows out) (rows result_df)
  /\ (length (rows out) <= length (rows result_df))%nat.
Proof.
  assert (columns result_df = columns result_df
          /\ incl (rows result_df) (rows result_df)
          /\ (length (rows result_df) <= length (rows result_df))%nat) as Hsame
      by (repeat split; [apply incl_refl | lia]).
  assert (forall test i,
             columns (rows_where test i result_df) = columns result_df
             /\ incl (rows (rows_where test i result_df)) (rows result_df)
             /\ (length (rows (rows_where test i result_df))
                 <= length (rows result_df))%nat) as Hcell.
  { intros test i. unfold rows_where. cbn [columns rows]. repeat split.
    - apply incl_filter.
    - apply filter_length_le. }
  unfold apply_filter. intros H. bind_inv H. bind_inv H.
  destruct a0 as [column|]; [|injection H as <-; exact Hsame].
  bind_inv H. bind_inv H.
  repeat match type of H with
         | (if ?c then _ else _) = _ => destruct c
         end;
    try (now apply library_selects in H);
    try (injection H as <-; exact Hsame);
    destruct (positions column (columns result_df) 0) as [|i [|j rest]];
    try discriminate; injection H as <-; apply Hcell.
Qed.

Lemma apply_filters_selects (df result_df out : DataFrame) (items : list json) :
  apply_filters pandas_filter df result_df items = Ok out ->
  columns out = columns result_df
  /\ incl (rows out) (rows result_df)
  /\ (length (rows out) <= length (rows result_df))%nat.
Proof.
  revert result_df. induction items as [|item items IH];
    cbn [apply_filters]; intros result_df H.
  - injection H as <-. repeat split; [apply incl_refl | lia].
  - bind_inv H. apply apply_filter_selects in Hstep as (Hc & Hi & Hl).
    apply IH in H as (Hc' & Hi' & Hl'). repeat split.
    + congruence.
    + eapply incl_tran; eassumption.
    + lia.
Qed.

Lemma selection_keeps_rows (df result_df selected : DataFrame) (plan : json) :
  selection df result_df plan = Ok selected ->
  length (rows selected) = length (rows result_df).
Proof.
  unfold selection. intros H. bind_inv H.
  destruct (truthy a); [|now injection H as <-].
  bind_inv H. bind_inv H. destruct a1; injection H as <-; [reflexivity|].
  unfold select. cbn [rows]. apply length_map.
Qed.

Lemma head_shortens (df df' : DataFrame) (n : json) :
  head df n = Ok df' -> (length (rows df') <= length (rows df))%nat.
Proof.
  unfold head. destruct n; try discriminate; intros [= <-]; cbn [rows];
    [lia|]. rewrite length_firstn. lia.
Qed.

(** X21: as long as the library's selections keep the labels and return
    no row that was not there, the clauses of a plan only remove rows, and
    a list result holds no more records than the table has rows. *)
Theorem list_result_within_table (df : DataFrame) (plan out : json) :
  _execute_analysis pandas_filter df plan = Ok out ->
  get out "type" JNull = Ok (JStr "list") ->
  exists items filtered returned,
    clauses plan = Ok items
    /\ apply_filters pandas_filter df df items = Ok filtered
    /\ columns filtered = columns df
    /\ incl (rows filtered) (rows df)
    /\ get out "data" JNull = Ok (JList returned)
    /\ (length returned <= length (rows filtered) <= length (rows df))%nat
    /\ get out "total_matching" JNull = Ok (JInt (Z.of_nat (length returned))).
Proof.
  intros Hrun Htype. unfold _execute_analysis in Hrun.
  bind_inv Hrun. rename a into requested_filters, Hstep into Hf.
  bind_inv Hrun. rename a into items, Hstep into Hi.
  bind_inv Hrun. rename a into filtered, Hstep into Hfs.
  bind_inv Hrun. rename a into grouped, Hstep into Hg.
  destruct grouped as [r|].
  - injection Hrun as <-. apply grouping_type in Hg. congruence.
  - bind_inv Hrun. rename a into selected, Hstep into Hs.
    unfold listing in Hrun. bind_inv Hrun. bind_inv Hrun.
    injection Hrun as <-.
    destruct (apply_filters_selects _ _ _ _ Hfs) as (Hc & Hin & Hl).
    apply selection_keeps_rows in Hs. apply head_shortens in Hstep0.
    exists items, filtered, (to_records a0).
    repeat split; auto.
    + unfold clauses. now rewrite Hf.
    + unfold to_records. rewrite length_map. lia.
    + cbn. unfold to_records. now rewrite length_map.
Qed.

End RowCountFacts.

(** *** Grouping *)

Lemma ltb_lt (a b : string) :
  String.ltb a b = true <-> OrderedTypeEx.String_as_OT.lt a b.
Proof.
  rewrite <- OrderedTypeEx.String_as_OT.cmp_lt. unfold String.ltb.
  change OrderedTypeEx.String_as_OT.cmp with String.compare.
  destruct (String.compare a b); split; congruence.
Qed.

Lemma ascending_trans (a b c : string) :
  ascending a b -> ascending b c -> ascending a c.
Proof.
  unfold ascending. rewrite !ltb_lt.
  apply OrderedTypeEx.String_as_OT.lt_trans.
Qed.

Lemma ascending_irrefl (a : string) : ~ ascending a a.
Proof.
  unfold ascending. rewrite ltb_lt. intros H.
  apply OrderedTypeEx.String_as_OT.lt_not_eq in H. apply H. reflexivity.
Qed.

Lemma ascending_total (a b : string) :
  String.eqb a b = false -> String.ltb a b = false -> ascending b a.
Proof.
  unfold ascending, String.ltb. intros Hne Hlt.
  rewrite String.compare_antisym.
  destruct (String.compare a b) eqn:E; try discriminate; [|reflexivity].
  apply String.compare_eq_iff in E. subst.
  now rewrite String.eqb_refl in Hne.
Qed.

Lemma insert_key_In (k x : string) (sorted : list string) :
  In x (SEO.insert_key k sorted) <-> x = k \/ In x sorted.
Proof.
  induction sorted as [|h t IH]; simpl; [intuition auto|].
  destruct (String.eqb k h) eqn:E.
  - apply String.eqb_eq in E. subst. simpl. intuition auto.
  - destruct (String.ltb k h); simpl; rewrite ?IH; intuition auto.
Qed.

Lemma insert_key_sorted (k : string) (sorted : list string) :
  StronglySorted ascending sorted ->
  StronglySorted ascending (SEO.insert_key k sorted).
Proof.
  induction 1 as [|h t Hs IH Hall]; simpl; [repeat constructor|].
  destruct (String.eqb k h) eqn:E; [now constructor|].
  destruct (String.ltb k h) eqn:L.
  - constructor; [now constructor|]. constructor; [exact L|].
    eapply Forall_impl; [|exact Hall]. intros x Hx.
    now apply (ascending_trans k h x).
  - constructor; [exact IH|]. apply Forall_forall. intros x Hx.
    apply insert_key_In in Hx as [->|Hx].
    + now apply ascending_total.
    + rewrite Forall_forall in Hall. now apply Hall.
Qed.

Lemma group_keys_spec (cells : list SEO.cell) (acc : list string) :
  StronglySorted ascending acc ->
  let keys := fold_left (fun acc c => match c with
                                      | Some s => SEO.insert_key s acc
                                      | None => acc
                                      end) cells acc in
  StronglySorted ascending keys
  /\ (forall k, In k keys <-> In k acc \/ In (Some k) cells).
Proof.
  revert acc. induction cells as [|c cells IH]; intros acc Hs; simpl.
  - split; [exact Hs|]. intuition auto.
  - destruct c as [s|].
    + destruct (IH (SEO.insert_key s acc) (insert_key_sorted s acc Hs))
        as [Hk Hin].
      split; [exact Hk|]. intros k. rewrite Hin, insert_key_In.
      split; [intros [[->|H]|H] | intros [H|[[= ->]|H]]]; auto.
    + destruct (IH acc Hs) as [Hk Hin]. split; [exact Hk|].
      intros k. rewrite Hin. split; [intros [H|H] | intros [H|[H|H]]];
        auto; discriminate.
Qed.

Lemma sorted_NoDup (l : list string) :
  StronglySorted ascending l -> NoDup l.
Proof.
  induction 1 as [|h t Hs IH Hall]; constructor; auto.
  intros Hin. rewrite Forall_forall in Hall.
  exact (ascending_irrefl h (Hall h Hin)).
Qed.

Lemma sizes_of_one_cell (s : string) (keys : list string) :
  NoDup keys -> In s keys ->
  fold_right Z.add 0 (map (fun k => if String.eqb s k then 1 else 0) keys) = 1.
Proof.
  induction 1 as [|h t Hnotin Hnd IH]; simpl; [contradiction|].
  intros [->|Hin].
  - rewrite String.eqb_refl.
    assert (fold_right Z.add 0
              (map (fun k => if String.eqb s k then 1 else 0) t) = 0) as ->;
      [|reflexivity].
    clear -Hnotin. induction t as [|x t IHt]; simpl; auto.
    destruct (String.eqb s x) eqn:E.
    + apply String.eqb_eq in E. subst. elim Hnotin. now left.
    + rewrite IHt; auto. intros H. apply Hnotin. now right.
  - destruct (String.eqb s h) eqn:E.
    + apply String.eqb_eq in E. subst. contradiction.
    + now rewrite IH.
Qed.

Lemma group_sizes_add_up (keys : list string) (cells : list SEO.cell) :
  NoDup keys ->
  (forall s, In (Some s) cells -> In s keys) ->
  fold_right Z.add 0 (map (fun k => SEO.group_size k cells) keys)
  = Z.of_nat (length (filter present cells)).
Proof.
  intros Hnd. induction cells as [|c cells IH]; intros Hall.
  - unfold SEO.group_size. simpl. clear. induction keys; simpl; auto.
  - assert (forall k,
               SEO.group_size k (c :: cells)
               = match c with
                 | Some s => if String.eqb s k then 1 else 0
                 | None => 0
                 end + SEO.group_size k cells) as Hstep.
    { intros k. unfold SEO.group_size. destruct c as [s|]; cbn [filter];
        [|lia].
      destruct (String.eqb s k); cbn [length]; lia. }
    assert (forall (f g : string -> Z) l,
               fold_right Z.add 0 (map (fun k => f k + g k) l)
               = fold_right Z.add 0 (map f l) + fold_right Z.add 0 (map g l))
      as Hsum.
    { intros f g l. induction l as [|x l IHl]; simpl; [reflexivity|].
      rewrite IHl. lia. }
    rewrite (map_ext _ _ Hstep), Hsum, IH
      by (intros s Hs; apply Hall; now right).
    destruct c as [s|]; simpl.
    + rewrite sizes_of_one_cell; auto; [lia|]. apply Hall. now left.
    + assert (fold_right Z.add 0 (map (fun _ : string => 0) keys) = 0) as ->
          by (clear; induction keys; simpl; auto).
      lia.
Qed.

(** X22: a grouped count has one record per distinct text of the key
    column, in ascending order of the keys; rows whose key is missing
    belong to no group; the counts add up to the number of rows that have
    a key; and [total_groups] is the number of records. *)
Theorem grouped_count_partitions_rows (result_df : SEO.DataFrame)
    (group_col : string) (out : json) :
  SEO.grouped_count result_df group_col = Ok out ->
  exists cells keys,
    SEO.group_cells result_df group_col = Ok cells
    /\ get out "data" JNull
       = Ok (JList (map (fun k =>
                           JDict [(group_col, JStr k);
                                  ("count", JInt (SEO.group_size k cells))])
                        keys))
    /\ get out "total_groups" JNull = Ok (JInt (Z.of_nat (length keys)))
    /\ StronglySorted ascending keys
    /\ NoDup keys
    /\ (forall k, In k keys <-> In (Some k) cells)
    /\ fold_right Z.add 0 (map (fun k => SEO.group_size k cells) keys)
       = Z.of_nat (length (filter present cells)).
Proof.
  unfold SEO.grouped_count. intros H. bind_inv H. rename a into cells.
  destruct (String.eqb group_col "count") eqn:E; [discriminate|].
  injection H as <-.
  destruct (group_keys_spec cells [] ltac:(constructor)) as [Hs Hin].
  fold (SEO.group_keys cells) in Hs, Hin.
  assert (forall k, In k (SEO.group_keys cells) <-> In (Some k) cells) as Hin'.
  { intros k. rewrite Hin. simpl. tauto. }
  exists cells, (SEO.group_keys cells).
  split; [exact Hstep|]. split.
  { cbn [get lookup]. change (String.eqb "data" "type") with false.
    change (String.eqb "data" "data") with true. cbn iota.
    do 2 f_equal. apply map_ext. intros k. unfold dict_of.
    cbn [fold_left dict_set fst snd].
    rewrite String.eqb_sym, E. reflexivity. }
  split; [reflexivity|]. split; [exact Hs|].
  split; [now apply sorted_NoDup|]. split; [exact Hin'|].
  apply group_sizes_add_up; [now apply sorted_NoDup|].
  intros s Hs'. now apply Hin'.
Qed.

Section DefaultPlanFacts.

Import SEO.

Variable json_loads : string -> result json.
Variable pandas_filter :
  library_test -> DataFrame -> string -> json -> result DataFrame.
Variable parse_chat : list string -> string -> result string.

(** X23: when the planner's reply holds no decodable object,
    [_parse_query] returns the default plan, and on that plan the executor
    returns the first hundred rows of the table as they are, with every
    column. *)
Theorem unreadable_reply_lists_first_hundred (df : DataFrame)
    (query response : string) :
  parse_chat (columns df) query = Ok response ->
  no_decodable_object json_loads response ->
  _parse_query json_loads parse_chat query (columns df) = Ok default_plan
  /\ _execute_analysis pandas_filter df default_plan
     = Ok (JDict [("type", JStr "list");
                  ("data", JList (firstn 100 (to_records df)));
                  ("total_matching",
                   JInt (Z.of_nat (length (firstn 100 (rows df)))));
                  ("columns", JList (map JStr (columns df)))]).
Proof.
  intros Hchat Hno. split.
  - unfold _parse_query, no_decodable_object in *. rewrite Hchat. cbn [bind].
    destruct (json_span response) as [text|]; [|reflexivity].
    destruct Hno as (e & -> & ->). reflexivity.
  - remember (firstn 100 (to_records df)) as expected eqn:Hexpected.
    remember (length (firstn 100 (rows df))) as returned eqn:Hreturned.
    cbn. subst expected returned. unfold to_records, dict_of.
    rewrite firstn_map. reflexivity.
Qed.

End DefaultPlanFacts.

(** *** The SEO facts at work on the audit table *)

Lemma find_column_in_table_witness :
  In "Title 1"%string (SEO.columns Fixtures.audit).
Proof.
  exact (find_column_in_table Fixtures.audit (JStr "title") "Title 1" eq_refl).
Defined.


Lemma unusable_clause_is_skipped_witness :
  let unknown_column :=
    JDict [("column", JStr "canonical"); ("operator", JStr "is_empty")] in
  let unknown_operator :=
    JDict [("column", JStr "title"); ("operator", JStr "starts_with");
           ("value", JStr "Home")] in
  SEO.apply_filter Fixtures.no_library Fixtures.audit Fixtures.audit
    unknown_column = Ok Fixtures.audit
  /\ SEO.apply_filter Fixtures.no_library Fixtures.audit Fixtures.audit
       unknown_operator = Ok Fixtures.audit.
Proof.
  intros unknown_column unknown_operator. split.
  - exact (proj1 (unusable_clause_is_skipped Fixtures.no_library Fixtures.audit
                    Fixtures.audit unknown_column (JStr "canonical") eq_refl)
                 eq_refl).
  - refine (proj2 (unusable_clause_is_skipped Fixtures.no_library Fixtures.audit
                     Fixtures.audit unknown_operator (JStr "title") eq_refl)
                  "Title 1"%string (JStr "starts_with") eq_refl eq_refl _).
    intros name Hin. simpl in Hin.
    repeat (destruct Hin as [<-|Hin]; [reflexivity|]). contradiction.
Defined.

Lemma emptiness_clauses_compose_witness :
  let empty_clause :=
    JDict [("column", JStr "title"); ("operator", JStr "is_empty")] in
  let not_empty_clause :=
    JDict [("column", JStr "title"); ("operator", JStr "not_empty")] in
  SEO.apply_filters Fixtures.no_library Fixtures.audit Fixtures.audit
    [empty_clause; not_empty_clause]
  = Ok {| SEO.columns := SEO.columns Fixtures.audit; SEO.rows := [] |}
  /\ SEO.apply_filters Fixtures.no_library Fixtures.audit Fixtures.audit
       [empty_clause; empty_clause]
     = SEO.apply_filters Fixtures.no_library Fixtures.audit Fixtures.audit
         [empty_clause].
Proof.
  intros empty_clause not_empty_clause.
  exact (emptiness_clauses_compose Fixtures.no_library Fixtures.audit
           Fixtures.audit empty_clause not_empty_clause (JStr "title")
           "Title 1" 2 eq_refl eq_refl eq_refl eq_refl eq_refl eq_refl).
Defined.

Lemma equality_selects_rows : selects_rows Library.equality.
Proof.
  intros test frame column value out. unfold Library.equality.
  destruct test, value; try discriminate;
    destruct (SEO.positions column (SEO.columns frame) 0) as [|i [|j rest]];
    try discriminate; intros [= <-]; unfold SEO.rows_where; cbn;
    (repeat split; [apply incl_filter | apply filter_length_le]).
Qed.

Lemma list_result_within_table_witness :
  exists items filtered returned,
    clauses Library.indexable_plan = Ok items
    /\ SEO.apply_filters Library.equality Fixtures.audit Fixtures.audit items
       = Ok filtered
    /\ SEO.columns filtered = SEO.columns Fixtures.audit
    /\ incl (SEO.rows filtered) (SEO.rows Fixtures.audit)
    /\ get Library.indexable_result "data" JNull = Ok (JList returned)
    /\ (length returned <= length (SEO.rows filtered)
        <= length (SEO.rows Fixtures.audit))%nat
    /\ get Library.indexable_result "total_matching" JNull
       = Ok (JInt (Z.of_nat (length returned))).
Proof.
  exact (list_result_within_table Library.equality equality_selects_rows
           Fixtures.audit Library.indexable_plan Library.indexable_result
           eq_refl eq_refl).
Defined.

Lemma grouped_count_partitions_rows_witness :
  exists cells keys,
    SEO.group_cells Fixtures.audit "Indexability" = Ok cells
    /\ get Library.indexability_counts "data" JNull
       = Ok (JList (map (fun k =>
                           JDict [("Indexability"%string, JStr k);
                                  ("count"%string,
                                   JInt (SEO.group_size k cells))])
                        keys))
    /\ get Library.indexability_counts "total_groups" JNull
       = Ok (JInt (Z.of_nat (length keys)))
    /\ StronglySorted ascending keys
    /\ NoDup keys
    /\ (forall k, In k keys <-> In (Some k) cells)
    /\ fold_right Z.add 0 (map (fun k => SEO.group_size k cells) keys)
       = Z.of_nat (length (filter present cells)).
Proof.
  exact (grouped_count_partitions_rows Fixtures.audit "Indexability"
           Library.indexability_counts eq_refl).
Defined.

Lemma unreadable_reply_lists_first_hundred_witness :
  let reply := "I could not plan the analysis."%string in
  no_decodable_object JsonDecoder.loads reply
  /\ SEO._parse_query JsonDecoder.loads (fun _ _ => Ok reply) "all pages"
       (SEO.columns Fixtures.audit) = Ok SEO.default_plan
  /\ SEO._execute_analysis Fixtures.no_library Fixtures.audit SEO.default_plan
     = Ok (JDict [("type", JStr "list");
                  ("data", JList (firstn 100 (SEO.to_records Fixtures.audit)));
                  ("total_matching",
                   JInt (Z.of_nat
                           (length (firstn 100 (SEO.rows Fixtures.audit)))));
                  ("columns", JList (map JStr (SEO.columns Fixtures.audit)))]).
Proof.
  intros reply.
  assert (no_decodable_object JsonDecoder.loads reply) as Hno
      by (vm_compute; exact I).
  split; [exact Hno|].
  exact (unreadable_reply_lists_first_hundred JsonDecoder.loads
           Fixtures.no_library (fun _ _ => Ok reply) Fixtures.audit
           "all pages" reply eq_refl Hno).
Defined.

(** *** Loading the sheet *)


Section LoadFacts.

Import SEO.

Lemma refresh_caches_table (self self' : Cache) (current_time : float)
    (fetch : result (list (list string))) (df : DataFrame) :
  cached self current_time = None ->
  _load_data self current_time fetch = (Some df, self') ->
  self' = {| _data_cache := Some df; _cache_timestamp := Some current_time |}.
Proof.
  intros Hc. unfold _load_data. rewrite Hc.
  destruct fetch as [[|headers data]|e]; try discriminate.
  destruct (DataFrame_of data headers); [|discriminate].
  now intros [= <- <-].
Qed.


(** X25: a table built from the sheet at a time other than zero is
    served again, without looking at the sheet, to every load that comes
    less than [_cache_ttl] seconds later, and the cache stays as it is. *)
Theorem refreshed_table_is_reused (self self' : Cache)
    (current_time later : float) (fetch fetch' : result (list (list string)))
    (df : DataFrame) :
  cached self current_time = None ->
  _load_data self current_time fetch = (Some df, self') ->
  PrimFloat.eqb current_time 0 = false ->
  PrimFloat.ltb (PrimFloat.sub later current_time) _cache_ttl = true ->
  _load_data self' later fetch' = (Some df, self').
Proof.
  intros Hc Hload Hnz Hfresh.
  rewrite (refresh_caches_table _ _ _ _ _ Hc Hload).
  unfold _load_data, cached. cbn [_data_cache _cache_timestamp].
  now rewrite Hnz, Hfresh.
Qed.

Variable json_loads : string -> result json.
Variable pandas_filter :
  library_test -> DataFrame -> string -> json -> result DataFrame.
Variable parse_chat : list string -> string -> result string.
Variable json_dumps : json -> string.
Variable summary_chat : string -> json -> json -> Z -> result string.

Local Abbreviation process' :=
  (process json_loads pandas_filter parse_chat json_dumps summary_chat).


(** X27: whatever the sheet, the clock and the collaborators do,
    [process] returns a response named [seo] that either succeeds without
    an error or fails with an error, no data and no message; and a plan
    that asks for JSON is answered with the dump of the result data,
    without the summary call. *)
Theorem seo_process_envelope (self : Cache) (current_time : float)
    (fetch : result (list (list string))) (query : string) :
  let response := fst (process' self current_time fetch query) in
  agent_name response = "seo"
  /\ (success response = true <-> error response = None)
  /\ (success response = false ->
      data response = JNull /\ message response = EmptyString)
  /\ (success response = true ->
      exists df plan result_data,
        fst (_load_data self current_time fetch) = Some df
        /\ data response
           = JDict [("analysis_plan", plan); ("result_data", result_data);
                    ("total_urls", JInt (Z.of_nat (length (rows df))))]
        /\ _execute_analysis pandas_filter df plan = Ok result_data
        /\ (forall flag items,
              get plan "return_json" JNull = Ok flag -> truthy flag = true ->
              get result_data "data" (JList []) = Ok items ->
              message response = json_dumps items)).
Proof.
  unfold process.
  destruct (_load_data self current_time fetch) as [[df|] self'];
    cbn [fst snd]; [|cbn; repeat split; auto; discriminate].
  destruct (empty df); [cbn; repeat split; auto; discriminate|].
  destruct (_parse_query json_loads parse_chat query (columns df))
    as [plan|e]; cbn [bind]; [|cbn; repeat split; auto; discriminate].
  destruct (_execute_analysis pandas_filter df plan) as [result_data|e] eqn:Hrun;
    cbn [bind]; [|cbn; repeat split; auto; discriminate].
  destruct (_generate_response json_dumps summary_chat query plan result_data _)
    as [text|e] eqn:Htext; cbn [bind];
    [|cbn; repeat split; auto; discriminate].
  cbn [agent_name success error data message].
  repeat split; auto; try discriminate.
  intros _. exists df, plan, result_data. repeat split; auto.
  intros flag items Hflag Htruthy Hitems.
  unfold _generate_response in Htext. rewrite Hflag in Htext.
  cbn [bind] in Htext. rewrite Htruthy, Hitems in Htext. cbn [bind] in Htext.
  congruence.
Qed.

End LoadFacts.


Lemma refreshed_table_is_reused_witness :
  let filled :=
    {| SEO._data_cache := Some Fixtures.audit;
       SEO._cache_timestamp := Some 1000%float |} in
  SEO._load_data filled 1299%float
    (Raise (Exn RuntimeError "The service is unavailable"))
  = (Some Fixtures.audit, filled).
Proof.
  intros filled.
  exact (refreshed_table_is_reused Sheets.empty_cache filled 1000%float
           1299%float Sheets.audit_sheet
           (Raise (Exn RuntimeError "The service is unavailable"))
           Fixtures.audit eq_refl eq_refl eq_refl eq_refl).
Defined.


(** *** The retries of the language-model client *)

Section ChatFacts.

Import LLMClient.

Variable max_retries : nat.
Variable create : nat -> attempt.

Lemma attempts_retried (remaining attempt_no : nat) (last_error : option exn) :
  retried (create attempt_no) = true ->
  exists e,
    settled (create attempt_no) = Raise e
    /\ attempts max_retries create (S remaining) attempt_no last_error
       = let rest :=
           attempts max_retries create remaining (S attempt_no) (Some e) in
         {| calls := S (calls rest);
            waits := 2 ^ Z.of_nat attempt_no :: waits rest;
            outcome := outcome rest |}.
Proof.
  intros H. cbn [attempts]. destruct (create attempt_no) as
      [content|e|e|e|[code|] e|e]; try discriminate; exists e;
    (split; [reflexivity|]); try reflexivity.
  cbn [retried] in H. destruct (Z.eqb code 429); [reflexivity|].
  cbn [orb] in H. now rewrite H.
Qed.

Lemma attempts_settled (remaining attempt_no : nat) (last_error : option exn) :
  retried (create attempt_no) = false ->
  attempts max_retries create (S remaining) attempt_no last_error
  = {| calls := 1; waits := []; outcome := settled (create attempt_no) |}.
Proof.
  intros H. cbn [attempts]. destruct (create attempt_no) as
      [content|e|e|e|[code|] e|e]; try discriminate; try reflexivity.
  cbn [retried] in H. apply orb_false_iff in H as [-> ->]. reflexivity.
Qed.

Lemma attempts_first_decisive (k : nat) :
  forall remaining attempt_no last_error,
    (k < remaining)%nat ->
    (forall n, (n < k)%nat -> retried (create (attempt_no + n)) = true) ->
    retried (create (attempt_no + k)) = false ->
    attempts max_retries create remaining attempt_no last_error
    = {| calls := S k; waits := backoff attempt_no k;
         outcome := settled (create (attempt_no + k)) |}.
Proof.
  induction k as [|k IH]; intros remaining attempt_no last_error Hk Hre Hst;
    (destruct remaining as [|remaining]; [lia|]).
  - rewrite Nat.add_0_r in *. now rewrite attempts_settled.
  - assert (retried (create attempt_no) = true) as H0
        by (rewrite <- (Nat.add_0_r attempt_no); apply Hre; lia).
    destruct (attempts_retried remaining attempt_no last_error H0)
      as (e & _ & ->).
    rewrite (IH remaining (S attempt_no) (Some e)).
    + cbn [calls waits outcome]. unfold backoff. cbn [seq map].
      now rewrite Nat.add_succ_r.
    + lia.
    + intros n Hn. rewrite Nat.add_succ_l, <- Nat.add_succ_r. apply Hre. lia.
    + now rewrite Nat.add_succ_l, <- Nat.add_succ_r.
Qed.

Lemma attempts_all_retried (remaining : nat) :
  forall attempt_no last_error,
    (forall n, (n < remaining)%nat ->
               retried (create (attempt_no + n)) = true) ->
    let r := attempts max_retries create remaining attempt_no last_error in
    calls r = remaining
    /\ waits r = backoff attempt_no remaining
    /\ exists last,
         outcome r = outcome (exhausted max_retries last)
         /\ match remaining with
            | O => last = last_error
            | S before =>
                exists e, last = Some e
                          /\ settled (create (attempt_no + before)) = Raise e
            end.
Proof.
  induction remaining as [|remaining IH]; intros attempt_no last_error Hre.
  - cbn. repeat split. now exists last_error.
  - assert (retried (create attempt_no) = true) as H0
        by (rewrite <- (Nat.add_0_r attempt_no); apply Hre; lia).
    destruct (attempts_retried remaining attempt_no last_error H0)
      as (e & He & Heq).
    cbv zeta. rewrite Heq. cbn [calls waits outcome].
    destruct (IH (S attempt_no) (Some e)) as (Hc & Hw & last & Ho & Hlast).
    { intros n Hn. rewrite Nat.add_succ_l, <- Nat.add_succ_r. apply Hre. lia. }
    rewrite Hc, Hw. repeat split. exists last. split; [exact Ho|].
    destruct remaining as [|before].
    + subst last. exists e. rewrite Nat.add_0_r. now split.
    + destruct Hlast as (e' & -> & He'). exists e'. split; [reflexivity|].
      now rewrite Nat.add_succ_l, <- Nat.add_succ_r in He'.
Qed.

Lemma total_backoff (n : nat) : total (backoff 0 n) = 2 ^ Z.of_nat n - 1.
Proof.
  assert (forall from, total (backoff from n)
                       = 2 ^ Z.of_nat from * (2 ^ Z.of_nat n - 1)) as H.
  { induction n as [|n IH]; intros from.
    - cbn. lia.
    - unfold backoff in *. cbn [seq map total fold_right].
      fold (total (map (fun attempt => 2 ^ Z.of_nat attempt) (seq (S from) n))).
      rewrite IH. rewrite !Nat2Z.inj_succ, !Z.pow_succ_r by lia.
      ring. }
  rewrite H. change (Z.of_nat 0) with 0. rewrite Z.pow_0_r. lia.
Qed.

(** X28: when the first [k] calls fail in a way that is retried (rate
    limit, connection, timeout, or an API error with status 429 or 500 and
    above) and the next one does not, with [k] below [max_retries], [chat]
    makes [k + 1] calls, sleeps [k] times with the delays doubling from the
    base delay, and returns the text or raises the exception of that
    call. *)
Theorem chat_stops_at_first_decisive_call (k : nat) :
  (k < max_retries)%nat ->
  (forall n, (n < k)%nat -> retried (create n) = true) ->
  retried (create k) = false ->
  chat max_retries create
  = {| calls := S k; waits := backoff 0 k;
       outcome := settled (create k) |}.
Proof.
  intros Hk Hre Hst. unfold chat.
  now rewrite (attempts_first_decisive k max_retries 0 None Hk Hre Hst).
Qed.

(** X29: when every one of the [max_retries] calls fails in a way that
    is retried, [chat] sleeps after each of them, the last one included,
    for [2 ** max_retries - 1] base delays in all, and then raises a
    RuntimeError that quotes the number of retries and the last
    exception. *)
Theorem chat_gives_up_after_max_retries :
  (forall n, (n < max_retries)%nat -> retried (create n) = true) ->
  calls (chat max_retries create) = max_retries
  /\ waits (chat max_retries create) = backoff 0 max_retries
  /\ total (waits (chat max_retries create)) = 2 ^ Z.of_nat max_retries - 1
  /\ exists last,
       outcome (chat max_retries create)
       = Raise (Exn RuntimeError
                  ("Failed after " ++ decimal max_retries
                   ++ " retries. Last error: " ++ str_of_last last)%string)
       /\ match max_retries with
          | O => last = None
          | S before =>
              exists e, last = Some e /\ settled (create before) = Raise e
          end.
Proof.
  intros Hre. unfold chat.
  destruct (attempts_all_retried max_retries 0 None Hre)
    as (Hc & Hw & last & Ho & Hlast).
  repeat split; auto.
  - rewrite Hw. apply total_backoff.
  - exists last. split; [exact Ho | exact Hlast].
Qed.

Lemma attempts_bounded (remaining : nat) :
  forall attempt_no last_error,
    let r := attempts max_retries create remaining attempt_no last_error in
    (calls r <= remaining)%nat
    /\ exists slept, (slept <= calls r)%nat /\ (calls r <= S slept)%nat
                     /\ waits r = backoff attempt_no slept.
Proof.
  induction remaining as [|remaining IH]; intros attempt_no last_error.
  - cbn. split; [lia|]. exists 0%nat. repeat split; lia.
  - cbv zeta. destruct (retried (create attempt_no)) eqn:E.
    + destruct (attempts_retried remaining attempt_no last_error E)
        as (e & _ & ->).
      destruct (IH (S attempt_no) (Some e)) as (Hc & slept & H1 & H2 & Hw).
      cbn [calls waits]. split; [lia|]. exists (S slept).
      repeat split; try lia. rewrite Hw. reflexivity.
    + rewrite (attempts_settled remaining attempt_no last_error E).
      cbn [calls waits]. split; [lia|]. exists 0%nat. repeat split; lia.
Qed.

Lemma backoff_total_mono (slept n : nat) :
  (slept <= n)%nat -> total (backoff 0 slept) <= 2 ^ Z.of_nat n - 1.
Proof.
  intros H. rewrite total_backoff.
  assert (2 ^ Z.of_nat slept <= 2 ^ Z.of_nat n)
    by (apply Z.pow_le_mono_r; lia).
  lia.
Qed.

(** X30: whatever the calls come to, [chat] makes at most [max_retries]
    of them, sleeps between consecutive calls with the delay doubling from
    the base delay, and in all never sleeps longer than
    [2 ** max_retries - 1] base delays. *)
Theorem chat_calls_and_waits_are_bounded :
  (calls (chat max_retries create) <= max_retries)%nat
  /\ (exists slept,
        (slept <= calls (chat max_retries create) <= S slept)%nat
        /\ waits (chat max_retries create) = backoff 0 slept)
  /\ 0 <= total (waits (chat max_retries create))
     <= 2 ^ Z.of_nat max_retries - 1.
Proof.
  unfold chat.
  destruct (attempts_bounded max_retries 0 None) as (Hc & slept & H1 & H2 & Hw).
  split; [exact Hc|]. split.
  - exists slept. repeat split; auto.
  - rewrite Hw, total_backoff. split.
    + assert (0 < 2 ^ Z.of_nat slept) by (apply Z.pow_pos_nonneg; lia). lia.
    + rewrite <- total_backoff. apply backoff_total_mono. lia.
Qed.

End ChatFacts.

Lemma chat_stops_at_first_decisive_call_witness :
  let busy := Exn RuntimeError "Rate limit reached" in
  let create (attempt_no : nat) :=
    match attempt_no with
    | 0%nat | 1%nat => LLMClient.RateLimit busy
    | _ => LLMClient.Returned "{}"
    end in
  LLMClient.chat 5 create
  = {| LLMClient.calls := 3; LLMClient.waits := [1; 2];
       LLMClient.outcome := Ok "{}" |}.
Proof.
  intros busy create.
  refine (chat_stops_at_first_decisive_call 5 create 2 _ _ eq_refl).
  - lia.
  - intros [|[|n]] Hn; [reflexivity | reflexivity | lia].
Defined.

Lemma chat_gives_up_after_max_retries_witness :
  let down := Exn RuntimeError "Service unavailable" in
  let create (attempt_no : nat) := LLMClient.Api (Some 503) down in
  LLMClient.calls (LLMClient.chat 5 create) = 5%nat
  /\ LLMClient.waits (LLMClient.chat 5 create) = backoff 0 5
  /\ total (LLMClient.waits (LLMClient.chat 5 create)) = 2 ^ Z.of_nat 5 - 1
  /\ exists last,
       LLMClient.outcome (LLMClient.chat 5 create)
       = Raise (Exn RuntimeError
                  ("Failed after " ++ LLMClient.decimal 5
                   ++ " retries. Last error: "
                   ++ LLMClient.str_of_last last)%string)
       /\ exists e, last = Some e
                    /\ LLMClient.settled (create 4%nat) = Raise e.
Proof.
  intros down create.
  exact (chat_gives_up_after_max_retries 5 create (fun _ _ => eq_refl)).
Defined.
